(** * SecureFileManager (sfm): encrypted containers and the secure LAN transfer

    A shallow embedding of the Go sources
      internal/crypto/encryption.go, internal/crypto/container.go,
      the device identity of package airdrop (GenerateIdentity,
      LoadOrGenerateIdentity, generateFingerprint, Sign, VerifySignature),
      internal/airdrop/protocol.go, internal/airdrop/secure_client.go (with
      the session crypto that follows it) and
      internal/airdrop/secure_server.go,
    with the properties the specification states about them.

    Conventions.
    - Go [[]byte] is [list byte]; Go [string] is [string] (a byte sequence).
    - Go [int] and [int64] are [Z], wrap-around written out with [wrap64]
      (a 64-bit platform: [int] is 64 bits wide).
    - A Go function that returns [error] returns an [outcome]; [Err] carries
      the error text as [fmt.Errorf] builds it, [Panic] is a run-time panic.
    - Go maps are stdpp [gmap]s.
    - Library code (SHA-256 apart, which is written out) is used through
      interfaces: a class with the operations and the laws the code relies
      on.  Randomness, and what the network and the disk deliver, are
      arguments of the functions.
    - The server handles one request at a time. *)

From Stdlib Require Import ZArith List Strings.String Strings.Ascii Strings.Byte Lia.
From Stdlib Require PrimFloat Uint63.
From stdpp Require Import gmap strings list fin_maps.
From stdpp Require Import pretty.
Import ListNotations.
Open Scope Z_scope.

(** ** Outcomes of fallible Go code *)

Inductive outcome (A : Type) : Type :=
| Ok (a : A)
| Err (msg : string)
| Panic (msg : string).
Arguments Ok {A} a.
Arguments Err {A} msg.
Arguments Panic {A} msg.

(** Sequencing stops at the first error or panic; written [x ← m; k]. *)
#[global] Instance outcome_ret : MRet outcome := fun A a => Ok a.
#[global] Instance outcome_bind : MBind outcome := fun A B k m =>
  match m with
  | Ok a => k a
  | Err e => Err e
  | Panic p => Panic p
  end.

(** [fmt.Errorf("<ctx>: %w", err)] *)
Definition wrapf {A : Type} (ctx : string) (m : outcome A) : outcome A :=
  match m with
  | Ok a => Ok a
  | Err e => Err (ctx +:+ ": " +:+ e)
  | Panic p => Panic p
  end.

(** ** Bytes, integers *)

Definition byte_of_Z (z : Z) : byte :=
  match Byte.of_N (Z.to_N (Z.land z 255)) with
  | Some b => b
  | None => x00
  end.

Definition Z_of_byte (b : byte) : Z := Z.of_N (Byte.to_N b).

Definition bytes_of_string (s : string) : list byte := list_byte_of_string s.

(** Two's complement reduction of an unbounded integer to [int64]. *)
Definition wrap64 (z : Z) : Z := (z + 2^63) mod 2^64 - 2^63.

(** Reduction to [uint32]. *)
Definition u32 (z : Z) : Z := Z.land z 0xffffffff.

(** ** encoding/hex *)

Module hex.

Definition hextable : string := "0123456789abcdef".

Definition digit (n : N) : ascii :=
  match String.get (N.to_nat n) hextable with
  | Some c => c
  | None => "0"%char
  end.

(** [hex.EncodeToString]: two digits per byte, [hextable[v>>4]] then
    [hextable[v&0x0f]]. *)
Fixpoint EncodeToString (src : list byte) : string :=
  match src with
  | [] => EmptyString
  | v :: rest =>
      String (digit (N.shiftr (Byte.to_N v) 4))
        (String (digit (N.land (Byte.to_N v) 15)) (EncodeToString rest))
  end.

Definition nibble (c : ascii) : Z :=
  let n := Z.of_N (N_of_ascii c) in
  if (48 <=? n) && (n <=? 57) then n - 48
  else if (97 <=? n) && (n <=? 102) then n - 87
  else if (65 <=? n) && (n <=? 70) then n - 55
  else 0.

(** [hex.DecodeString] on well-formed input; used for constants only. *)
Fixpoint DecodeString (s : string) : list byte :=
  match s with
  | String hi (String lo rest) =>
      byte_of_Z (16 * nibble hi + nibble lo) :: DecodeString rest
  | _ => []
  end.

End hex.

(** ** crypto/sha256 (FIPS 180-4) *)

Module sha256.

Definition rotr (x k : Z) : Z :=
  Z.lor (Z.shiftr x k) (u32 (Z.shiftl x (32 - k))).

Definition add32 (x y : Z) : Z := u32 (x + y).

Definition Ch (x y z : Z) : Z :=
  Z.lxor (Z.land x y) (Z.land (Z.lxor x 0xffffffff) z).
Definition Maj (x y z : Z) : Z :=
  Z.lxor (Z.lxor (Z.land x y) (Z.land x z)) (Z.land y z).
Definition bigS0 (x : Z) : Z := Z.lxor (Z.lxor (rotr x 2) (rotr x 13)) (rotr x 22).
Definition bigS1 (x : Z) : Z := Z.lxor (Z.lxor (rotr x 6) (rotr x 11)) (rotr x 25).
Definition smallS0 (x : Z) : Z := Z.lxor (Z.lxor (rotr x 7) (rotr x 18)) (Z.shiftr x 3).
Definition smallS1 (x : Z) : Z := Z.lxor (Z.lxor (rotr x 17) (rotr x 19)) (Z.shiftr x 10).

(** Big-endian 32-bit words of a byte string. *)
Fixpoint be_words (bs : list byte) : list Z :=
  match bs with
  | b0 :: b1 :: b2 :: b3 :: rest =>
      (Z.shiftl (Z_of_byte b0) 24 + Z.shiftl (Z_of_byte b1) 16
       + Z.shiftl (Z_of_byte b2) 8 + Z_of_byte b3) :: be_words rest
  | _ => []
  end.

Definition be_bytes32 (w : Z) : list byte :=
  [byte_of_Z (Z.shiftr w 24); byte_of_Z (Z.shiftr w 16);
   byte_of_Z (Z.shiftr w 8); byte_of_Z w].

Definition _K : list Z :=
  be_words (hex.DecodeString
    ("428a2f9871374491b5c0fbcfe9b5dba53956c25b59f111f1923f82a4ab1c5ed5" +:+
     "d807aa9812835b01243185be550c7dc372be5d7480deb1fe9bdc06a7c19bf174" +:+
     "e49b69c1efbe47860fc19dc6240ca1cc2de92c6f4a7484aa5cb0a9dc76f988da" +:+
     "983e5152a831c66db00327c8bf597fc7c6e00bf3d5a7914706ca635114292967" +:+
     "27b70a852e1b21384d2c6dfc53380d13650a7354766a0abb81c2c92e92722c85" +:+
     "a2bfe8a1a81a664bc24b8b70c76c51a3d192e819d6990624f40e3585106aa070" +:+
     "19a4c1161e376c082748774c34b0bcb5391c0cb34ed8aa4a5b9cca4f682e6ff3" +:+
     "748f82ee78a5636f84c878148cc7020890befffaa4506cebbef9a3f7c67178f2")).

Record digest : Type := mkDigest {
  h0 : Z; h1 : Z; h2 : Z; h3 : Z; h4 : Z; h5 : Z; h6 : Z; h7 : Z
}.

Definition init : digest :=
  mkDigest 0x6a09e667 0xbb67ae85 0x3c6ef372 0xa54ff53a
           0x510e527f 0x9b05688c 0x1f83d9ab 0x5be0cd19.

(** The message schedule: sixteen words of the block, then forty-eight
    derived ones. *)
Fixpoint extend (n : nat) (w : list Z) : list Z :=
  match n with
  | O => w
  | S n' =>
      let i := List.length w in
      let at_ k := nth (i - k) w 0 in
      extend n'
        (w ++ [add32 (add32 (add32 (smallS1 (at_ 2%nat)) (at_ 7%nat))
                             (smallS0 (at_ 15%nat))) (at_ 16%nat)])
  end.

Definition round (d : digest) (kw : Z * Z) : digest :=
  let (k, w) := kw in
  let t1 := add32 (add32 (add32 (add32 (h7 d) (bigS1 (h4 d)))
                                (Ch (h4 d) (h5 d) (h6 d))) k) w in
  let t2 := add32 (bigS0 (h0 d)) (Maj (h0 d) (h1 d) (h2 d)) in
  mkDigest (add32 t1 t2) (h0 d) (h1 d) (h2 d)
           (add32 (h3 d) t1) (h4 d) (h5 d) (h6 d).

Definition block (d : digest) (p : list byte) : digest :=
  let w := extend 48 (be_words p) in
  let r := fold_left round (combine _K w) d in
  mkDigest (add32 (h0 d) (h0 r)) (add32 (h1 d) (h1 r))
           (add32 (h2 d) (h2 r)) (add32 (h3 d) (h3 r))
           (add32 (h4 d) (h4 r)) (add32 (h5 d) (h5 r))
           (add32 (h6 d) (h6 r)) (add32 (h7 d) (h7 r)).

(** Padding: a 0x80 byte, zeros up to 56 mod 64, the bit length on 8 bytes. *)
Definition pad (msg : list byte) : list byte :=
  let len := Z.of_nat (List.length msg) in
  let zeros := Z.to_nat ((55 - len) mod 64) in
  msg ++ [byte_of_Z 0x80] ++ repeat x00 zeros
      ++ be_bytes32 (Z.shiftr (len * 8) 32) ++ be_bytes32 (len * 8).

Fixpoint blocks (fuel : nat) (d : digest) (p : list byte) : digest :=
  match fuel with
  | O => d
  | S fuel' =>
      match p with
      | [] => d
      | _ => blocks fuel' (block d (firstn 64 p)) (skipn 64 p)
      end
  end.

(** [sha256.Sum256] *)
Definition Sum256 (data : list byte) : list byte :=
  let p := pad data in
  let d := blocks (List.length p) init p in
  be_bytes32 (h0 d) ++ be_bytes32 (h1 d) ++ be_bytes32 (h2 d) ++ be_bytes32 (h3 d)
  ++ be_bytes32 (h4 d) ++ be_bytes32 (h5 d) ++ be_bytes32 (h6 d) ++ be_bytes32 (h7 d).

End sha256.

(** ** crypto/ed25519

    The signature scheme itself is outside the repository.  What the code
    relies on is its interface: a private key is the 32-byte seed followed by
    the 32-byte public key, [Sign] panics on a private key that is not 64
    bytes long, [Verify] panics on a public key that is not 32 bytes long and
    rejects a signature that is not 64 bytes long, and a signature made with
    a generated key verifies under its public key.  (The panic texts end
    with the offending length, left out here.) *)

Class Ed25519 : Type := {
  ed_public : list byte -> list byte;
  ed_sign : list byte -> list byte -> list byte;
  ed_verify : list byte -> list byte -> list byte -> bool;
  ed_public_length : forall seed, List.length (ed_public seed) = 32%nat;
  ed_sign_length : forall priv msg, List.length (ed_sign priv msg) = 64%nat;
  ed_sign_verify : forall seed msg,
    List.length seed = 32%nat ->
    ed_verify (ed_public seed) msg (ed_sign (seed ++ ed_public seed) msg) = true
}.

Module ed25519.
Section WithScheme.
Context {scheme : Ed25519}.

Definition PublicKeySize : nat := 32.
Definition PrivateKeySize : nat := 64.
Definition SignatureSize : nat := 64.
Definition SeedSize : nat := 32.

(** [ed25519.GenerateKey(rand.Reader)], the 32 bytes read from [rand.Reader]
    given as [seed]. *)
Definition GenerateKey (seed : list byte) : list byte * list byte :=
  let pub := ed_public seed in (pub, seed ++ pub).

Definition Sign (privateKey message : list byte) : outcome (list byte) :=
  if (List.length privateKey =? PrivateKeySize)%nat
  then Ok (ed_sign privateKey message)
  else Panic "ed25519: bad private key length".

Definition Verify (publicKey message sig : list byte) : outcome bool :=
  if (List.length publicKey =? PublicKeySize)%nat
  then Ok ((List.length sig =? SignatureSize)%nat && ed_verify publicKey message sig)
  else Panic "ed25519: bad public key length".

End WithScheme.
End ed25519.

(** ** Device identity (package airdrop) *)

Record DeviceIdentity : Type := mkDeviceIdentity {
  PublicKey : list byte;
  PrivateKey : list byte;
  Fingerprint : string
}.

(** The loop of [generateFingerprint]: [i] steps by two over the hex string,
    a colon before every pair but the first, and a [break] once [i >= 30]. *)
Fixpoint formatFingerprint (fuel : nat) (fingerprint : string) (i : nat)
    (formatted : string) : string :=
  match fuel with
  | O => formatted
  | S fuel' =>
      if (i <? String.length fingerprint)%nat then
        let formatted := if (0 <? i)%nat then formatted +:+ ":" else formatted in
        let formatted := formatted +:+ substring i 2 fingerprint in
        if (30 <=? i)%nat then formatted
        else formatFingerprint fuel' fingerprint (i + 2) formatted
      else formatted
  end.

Definition generateFingerprint (pubKey : list byte) : string :=
  let hash := sha256.Sum256 pubKey in
  let fingerprint := hex.EncodeToString hash in
  formatFingerprint (String.length fingerprint) fingerprint 0 EmptyString.

(** The fingerprint as the specification words it: the first 16 bytes of the
    SHA-256 of the key, each as two lowercase hex digits, joined by colons. *)
Definition fingerprint_spec (pubKey : list byte) : string :=
  String.concat ":"
    (map (fun b => hex.EncodeToString [b]) (firstn 16 (sha256.Sum256 pubKey))).

Definition lower_hex_or_colon (c : ascii) : bool :=
  existsb (Ascii.eqb c) (list_ascii_of_string "0123456789abcdef:").

(** The files of the identity directory: path to contents. *)
Definition join (dir name : string) : string := dir +:+ "/" +:+ name.

Section Identity.
Context {scheme : Ed25519}.

(** [GenerateIdentity], [seed] being what [rand.Reader] delivers. *)
Definition GenerateIdentity (seed : list byte) : DeviceIdentity :=
  let (pubKey, privKey) := ed25519.GenerateKey seed in
  mkDeviceIdentity pubKey privKey (generateFingerprint pubKey).

(** [LoadOrGenerateIdentity]: both files present, the keys are taken from
    them and the fingerprint is recomputed; otherwise a fresh identity is
    generated and both files are written.  Disk faults on the write path are
    not modelled. *)
Definition LoadOrGenerateIdentity (dataDir : string) (fs : gmap string (list byte))
    (seed : list byte) : DeviceIdentity * gmap string (list byte) :=
  let pubKeyPath := join dataDir "device.pub" in
  let privKeyPath := join dataDir "device.key" in
  match fs !! pubKeyPath, fs !! privKeyPath with
  | Some pubKeyData, Some privKeyData =>
      (mkDeviceIdentity pubKeyData privKeyData (generateFingerprint pubKeyData), fs)
  | _, _ =>
      let identity := GenerateIdentity seed in
      (identity,
       <[privKeyPath := PrivateKey identity]>
         (<[pubKeyPath := PublicKey identity]> fs))
  end.

(** The method [Sign] of [DeviceIdentity], and [VerifySignature] *)
Definition Sign (id : DeviceIdentity) (data : list byte) : outcome (list byte) :=
  ed25519.Sign (PrivateKey id) data.

Definition VerifySignature (pubKey data signature : list byte) : outcome bool :=
  ed25519.Verify pubKey data signature.

End Identity.

(** ** Protocol messages (protocol.go) *)

Record FileMetadata : Type := mkFileMetadata {
  Name : string;
  Size : Z;
  Mime : string
}.

(** A [nil] signature is [None]. *)
Record HandshakeRequest : Type := mkHandshakeRequest {
  DeviceName : string;
  DeviceFingerprint : string;
  EphemeralPubKey : list byte;
  ReqFileMetadata : FileMetadata;
  Signature : option (list byte)
}.

Definition with_Signature (req : HandshakeRequest) (sig : option (list byte))
    : HandshakeRequest :=
  mkHandshakeRequest (DeviceName req) (DeviceFingerprint req)
    (EphemeralPubKey req) (ReqFileMetadata req) sig.

(** [CalculateChunkChecksum] *)
Definition CalculateChunkChecksum (data : list byte) : string :=
  hex.EncodeToString (sha256.Sum256 data).

(** [json.Marshal] of a handshake request: a function of the field values
    (it cannot fail on this struct). *)
Class HandshakeJSON : Type := {
  json_Marshal : HandshakeRequest -> list byte
}.

Section Handshake.
Context {scheme : Ed25519} {codec : HandshakeJSON}.

(** [CreateHandshakeRequest]: the request is marshalled while its signature
    is still nil, and that serialization is what gets signed. *)
Definition CreateHandshakeRequest (identity : DeviceIdentity) (deviceName : string)
    (ephemeralPubKey : list byte) (metadata : FileMetadata)
    : outcome HandshakeRequest :=
  let req := mkHandshakeRequest deviceName (Fingerprint identity)
               ephemeralPubKey metadata None in
  let data := json_Marshal req in
  sig ← Sign identity data;
  Ok (with_Signature req (Some sig)).

(** [VerifyHandshakeRequest] works on the caller's struct: it nils the
    signature, marshals, and puts the signature back.  The result is the
    verdict together with the struct as it is left. *)
Definition VerifyHandshakeRequest (req : HandshakeRequest) (pubKey : list byte)
    : outcome bool * HandshakeRequest :=
  let signature := Signature req in
  let req1 := with_Signature req None in
  let data := json_Marshal req1 in
  let req2 := with_Signature req1 signature in
  (VerifySignature pubKey data (default [] signature), req2).

End Handshake.

(** ** Chunk counts (secure_client.go, secure_server.go) *)

(** Go's [/] and [%] on [int64] truncate toward zero. *)
Definition div64 (a b : Z) : Z := wrap64 (Z.quot a b).
Definition rem64 (a b : Z) : Z := Z.rem a b.

(** [SendFile], lines 102-106. *)
Definition SendFile_totalChunks (fileSize : Z) : Z :=
  let chunkSize := 4 * 1024 * 1024 in
  let totalChunks := div64 fileSize chunkSize in
  if rem64 fileSize chunkSize =? 0 then totalChunks else wrap64 (totalChunks + 1).

(** [handleHandshake], lines 152-155. *)
Definition handleHandshake_totalChunks (size : Z) : Z :=
  let totalChunks := div64 size (4 * 1024 * 1024) in
  if rem64 size (4 * 1024 * 1024) =? 0 then totalChunks else wrap64 (totalChunks + 1).

(** The ceiling of [s / d] for positive [d]. *)
Definition ceil_div (s d : Z) : Z := - ((- s) / d).

Definition CHUNK_SIZE : Z := 4194304.

Module ChunkMetadata.
Record t : Type := mk {
  Index : Z;
  Total : Z;
  Size : Z;
  Checksum : string;
  SessionID : string
}.
End ChunkMetadata.

Module ChunkAck.
Record t : Type := mk {
  Index : Z;
  SessionID : string;
  Success : bool;
  Error : string
}.
End ChunkAck.

Module TransferStatus.
Record t : Type := mk {
  SessionID : string;
  TotalChunks : Z;
  ReceivedChunks : list Z;
  Progress : PrimFloat.float;
  CanResume : bool
}.
End TransferStatus.

Record HandshakeResponse : Type := mkHandshakeResponse {
  Accepted : bool;
  RespEphemeralPubKey : list byte;
  RespSessionID : string;
  Message : string
}.

(** ** Session crypto (secure_client.go, second part)

    AES-256-GCM and X25519 come from the Go libraries; the code uses them
    through the interface below.  [gcm_seal] and [gcm_open] take the key, the
    12-byte nonce and the data; [x25519] is [curve25519.X25519]. *)

Class AESGCM : Type := {
  gcm_seal : list byte -> list byte -> list byte -> list byte;
  gcm_open : list byte -> list byte -> list byte -> option (list byte);
  gcm_open_seal : forall key nonce plaintext,
    List.length key = 32%nat -> List.length nonce = 12%nat ->
    gcm_open key nonce (gcm_seal key nonce plaintext) = Some plaintext
}.

Class X25519 : Type := {
  x25519 : list byte -> list byte -> outcome (list byte);
  Basepoint : list byte
}.

Module aes.
(** [aes.NewCipher] accepts keys of 16, 24 or 32 bytes. *)
Definition NewCipher (key : list byte) : outcome (list byte) :=
  let k := List.length key in
  if (k =? 16)%nat || (k =? 24)%nat || (k =? 32)%nat then Ok key
  else Err "crypto/aes: invalid key size".
Definition BlockSize : nat := 16.
End aes.

Definition gcmNonceSize : nat := 12.

Section SessionCrypto.
Context {aead : AESGCM} {dh : X25519}.

(** [GenerateEphemeralKey]; [privateKey] is the 32 bytes read from
    [rand.Reader]. *)
Definition GenerateEphemeralKey (privateKey : list byte)
    : outcome (list byte * list byte) :=
  publicKey ← x25519 privateKey Basepoint;
  Ok (privateKey, publicKey).

Definition DeriveSharedSecret (privateKey peerPublicKey : list byte)
    : outcome (list byte) :=
  sharedSecret ← x25519 privateKey peerPublicKey;
  Ok (sha256.Sum256 sharedSecret).

(** [EncryptChunk]; [nonce] is the 12 bytes read from [rand.Reader].  The
    nonce is prepended to what [gcm.Seal] returns. *)
Definition EncryptChunk (plaintext key nonce : list byte) : outcome (list byte) :=
  block ← aes.NewCipher key;
  Ok (nonce ++ gcm_seal block nonce plaintext).

Definition DecryptChunk (ciphertext key : list byte) : outcome (list byte) :=
  block ← aes.NewCipher key;
  let nonceSize := gcmNonceSize in
  if (List.length ciphertext <? nonceSize)%nat then Err "ciphertext too short"
  else
    let nonce := firstn nonceSize ciphertext in
    let ciphertext := skipn nonceSize ciphertext in
    match gcm_open block nonce ciphertext with
    | Some plaintext => Ok plaintext
    | None => Err "cipher: message authentication failed"
    end.

End SessionCrypto.

(** ** os.File, as far as the server uses it

    A handle records the positional writes made through it, in order, and
    whether it was closed.  [WriteAt] refuses a closed handle and a negative
    offset; [fault] stands for a write the operating system refuses. *)

Record OsFile : Type := mkOsFile {
  written : list (Z * list byte);
  closed : bool
}.

Definition os_Create : OsFile := mkOsFile [] false.

Definition WriteAt (f : OsFile) (b : list byte) (off : Z) (fault : bool)
    : outcome OsFile :=
  if closed f then Err "file already closed"
  else if off <? 0 then Err "negative offset"
  else if fault then Err "input/output error"
  else Ok (mkOsFile (written f ++ [(off, b)]) false).

Definition Close (f : OsFile) : OsFile := mkOsFile (written f) true.

(** ** The receiving server (secure_server.go) *)

Module TransferSession.
Record t : Type := mk {
  SessionID : string;
  SenderName : string;
  Fingerprint : string;
  Metadata : FileMetadata;
  SessionKey : list byte;
  TotalChunks : Z;
  ReceivedChunks : gmap Z bool;
  FilePath : string;
  File : OsFile
}.

Definition received (s : t) (rc : gmap Z bool) (f : OsFile) : t :=
  mk (SessionID s) (SenderName s) (Fingerprint s) (Metadata s) (SessionKey s)
     (TotalChunks s) rc (FilePath s) f.
End TransferSession.

(** The server: its session table, and [dropped], the sessions deleted from
    the table after completion (kept so that their closed files stay
    observable).  [onRequest] is the accept callback. *)
Record SecureServer : Type := mkSecureServer {
  downloadDir : string;
  deviceName : string;
  identityFingerprint : string;
  onRequest : HandshakeRequest -> bool;
  sessions : gmap string TransferSession.t;
  dropped : list TransferSession.t
}.

Definition with_sessions (s : SecureServer)
    (m : gmap string TransferSession.t) : SecureServer :=
  mkSecureServer (downloadDir s) (deviceName s) (identityFingerprint s)
    (onRequest s) m (dropped s).

Definition complete (s : SecureServer) (sessionID : string)
    (session : TransferSession.t) : SecureServer :=
  mkSecureServer (downloadDir s) (deviceName s) (identityFingerprint s)
    (onRequest s) (delete sessionID (sessions s)) (dropped s ++ [session]).

(** [NewSecureServer]: no sessions, every request accepted. *)
Definition NewSecureServer (downloadDir deviceName fingerprint : string)
    : SecureServer :=
  mkSecureServer downloadDir deviceName fingerprint (fun _ => true) ∅ [].

Definition SetRequestHandler (s : SecureServer)
    (handler : HandshakeRequest -> bool) : SecureServer :=
  mkSecureServer (downloadDir s) (deviceName s) (identityFingerprint s)
    handler (sessions s) (dropped s).

(** What a handler sends back: [http.Error] or the value handed to the JSON
    encoder. *)
Inductive response : Type :=
| HttpError (code : Z) (text : string)
| JsonPing (device_name fingerprint : string)
| JsonHandshake (r : HandshakeResponse)
| JsonAck (a : ChunkAck.t)
| JsonStatus (st : TransferStatus.t).

(** [float64(n)] for a Go [int] within the 63-bit range. *)
Definition float64_of_int (z : Z) : PrimFloat.float :=
  if z <? 0 then PrimFloat.opp (PrimFloat.of_uint63 (Uint63.of_Z (- z)))
  else PrimFloat.of_uint63 (Uint63.of_Z z).

Definition percent (part whole : Z) : PrimFloat.float :=
  PrimFloat.mul (PrimFloat.div (float64_of_int part) (float64_of_int whole))
                (float64_of_int 100).

(** What the environment contributes to one handshake: the ephemeral private
    key read from [rand.Reader], the UUID drawn, and whether [os.Create]
    fails. *)
Record HandshakeEnv : Type := mkHandshakeEnv {
  ephemeralPrivate : list byte;
  newUUID : string;
  createFails : bool
}.

Definition POST : string := "POST".

Section Server.
Context {aead : AESGCM} {dh : X25519}.

Definition handlePing (s : SecureServer) : response :=
  JsonPing (deviceName s) (identityFingerprint s).

(** [handleHandshake]; [body] is the decoded request, [None] when the JSON
    does not decode.  The signature is not looked at. *)
Definition handleHandshake (s : SecureServer) (method : string)
    (body : option HandshakeRequest) (env : HandshakeEnv)
    : SecureServer * response :=
  if negb (String.eqb method POST) then (s, HttpError 405 "Method not allowed")
  else match body with
  | None => (s, HttpError 400 "Invalid request")
  | Some req =>
    let accepted := onRequest s req in
    if negb accepted then
      (s, JsonHandshake
            (mkHandshakeResponse false [] EmptyString "Transfer rejected by user"))
    else match GenerateEphemeralKey (ephemeralPrivate env) with
    | Err _ | Panic _ => (s, HttpError 500 "Failed to generate key")
    | Ok (privKey, pubKey) =>
      match DeriveSharedSecret privKey (EphemeralPubKey req) with
      | Err _ | Panic _ => (s, HttpError 500 "Failed to derive session key")
      | Ok sessionKey =>
        let sessionID := newUUID env in
        let totalChunks := handleHandshake_totalChunks (Size (ReqFileMetadata req)) in
        let session :=
          TransferSession.mk sessionID (DeviceName req) (DeviceFingerprint req)
            (ReqFileMetadata req) sessionKey totalChunks ∅
            (join (downloadDir s) (Name (ReqFileMetadata req))) os_Create in
        if createFails env then (s, HttpError 500 "Failed to create file")
        else
          (with_sessions s (<[sessionID := session]> (sessions s)),
           JsonHandshake
             (mkHandshakeResponse true pubKey sessionID "Transfer accepted"))
      end
    end
  end.

(** [handleChunk]; [header] is the decoded [X-Chunk-Metadata] ([None] when it
    does not decode), [body] what [io.ReadAll] returns ([None] on a read
    error), [fault] whether the disk refuses the write.  The progress
    callback and the log lines only observe and are left out; requests are
    handled one at a time, so the mutex does not appear. *)
Definition handleChunk (s : SecureServer) (method : string)
    (header : option ChunkMetadata.t) (body : option (list byte)) (fault : bool)
    : SecureServer * response :=
  if negb (String.eqb method POST) then (s, HttpError 405 "Method not allowed")
  else match header with
  | None => (s, HttpError 400 "Invalid chunk metadata")
  | Some metadata =>
    match sessions s !! ChunkMetadata.SessionID metadata with
    | None => (s, HttpError 400 "Invalid session")
    | Some session =>
      match body with
      | None => (s, HttpError 500 "Failed to read chunk")
      | Some encryptedData =>
        match DecryptChunk encryptedData (TransferSession.SessionKey session) with
        | Err _ | Panic _ => (s, HttpError 500 "Failed to decrypt chunk")
        | Ok decryptedData =>
          let checksum := CalculateChunkChecksum decryptedData in
          if negb (String.eqb checksum (ChunkMetadata.Checksum metadata)) then
            (s, JsonAck (ChunkAck.mk (ChunkMetadata.Index metadata)
                           (ChunkMetadata.SessionID metadata) false
                           "Checksum mismatch"))
          else
            let offset := wrap64 (ChunkMetadata.Index metadata * (4 * 1024 * 1024)) in
            match WriteAt (TransferSession.File session) decryptedData offset fault with
            | Err _ | Panic _ =>
              (s, JsonAck (ChunkAck.mk (ChunkMetadata.Index metadata)
                             (ChunkMetadata.SessionID metadata) false
                             "Failed to write chunk"))
            | Ok file =>
              let receivedChunks :=
                <[ChunkMetadata.Index metadata := true]>
                  (TransferSession.ReceivedChunks session) in
              let received := Z.of_nat (size receivedChunks) in
              let session := TransferSession.received session receivedChunks file in
              let ack := ChunkAck.mk (ChunkMetadata.Index metadata)
                           (ChunkMetadata.SessionID metadata) true EmptyString in
              if received =? TransferSession.TotalChunks session then
                (complete s (ChunkMetadata.SessionID metadata)
                   (TransferSession.received session receivedChunks (Close file)),
                 JsonAck ack)
              else
                (with_sessions s
                   (<[ChunkMetadata.SessionID metadata := session]> (sessions s)),
                 JsonAck ack)
            end
        end
      end
    end
  end.

(** [handleStatus].  Go enumerates the map in no fixed order; the model
    lists the keys in the order [map_to_list] gives. *)
Definition handleStatus (s : SecureServer) (sessionID : string) : response :=
  match sessions s !! sessionID with
  | None => HttpError 404 "Session not found"
  | Some session =>
    let receivedChunks := (map_to_list (TransferSession.ReceivedChunks session)).*1 in
    JsonStatus
      (TransferStatus.mk sessionID (TransferSession.TotalChunks session)
         receivedChunks
         (percent (Z.of_nat (List.length receivedChunks))
                  (TransferSession.TotalChunks session))
         true)
  end.

(** One request to the server's mux. *)
Inductive request : Type :=
| PingReq
| HandshakeReq (method : string) (body : option HandshakeRequest) (env : HandshakeEnv)
| ChunkReq (method : string) (header : option ChunkMetadata.t)
    (body : option (list byte)) (fault : bool)
| StatusReq (sessionID : string).

Definition serve (s : SecureServer) (r : request) : SecureServer * response :=
  match r with
  | PingReq => (s, handlePing s)
  | HandshakeReq method body env => handleHandshake s method body env
  | ChunkReq method header body fault => handleChunk s method header body fault
  | StatusReq sessionID => (s, handleStatus s sessionID)
  end.

(** The server after a sequence of requests, handled one after another. *)
Definition serve_all (s : SecureServer) (rs : list request) : SecureServer :=
  fold_left (fun s r => (serve s r).1) rs s.

(** The states a server started by [NewSecureServer] can be in. *)
Inductive reachable : SecureServer -> Prop :=
| reachable_new downloadDir deviceName fingerprint :
    reachable (NewSecureServer downloadDir deviceName fingerprint)
| reachable_handler s handler :
    reachable s -> reachable (SetRequestHandler s handler)
| reachable_serve s r :
    reachable s -> reachable (serve s r).1.

End Server.

(** ** Package crypto: key derivation and the streaming cipher
    (encryption.go)

    Argon2id, the AES-CTR keystream, and the tar and gzip codecs come from
    libraries; the code uses them through the interfaces below.  The checks
    those libraries make on their arguments before doing any work are part
    of the model: [argon2.IDKey] panics when [time < 1] or [threads < 1], and
    [cipher.NewCTR] panics when the IV is not one cipher block long. *)

Class Argon2 : Type := {
  argon2_IDKey : list byte -> list byte -> Z -> Z -> Z -> nat -> list byte;
  argon2_IDKey_length : forall password salt time memory threads keyLen,
    List.length (argon2_IDKey password salt time memory threads keyLen) = keyLen
}.

Class AESCTR : Type := {
  ctr_XORKeyStream : list byte -> list byte -> list byte -> list byte
}.

(** [rand.Read]: [n] bytes of the random source, from position [pos] on. *)
Definition rand_Read (rng : nat -> byte) (pos n : nat) : list byte :=
  map rng (seq pos n).

(** [io.ReadFull(r, buf)] for a buffer of [n] bytes: the bytes read and the
    rest of the stream, or the end-of-file error. *)
Definition io_ReadFull (r : list byte) (n : nat) : outcome (list byte * list byte) :=
  if (n <=? List.length r)%nat then Ok (firstn n r, skipn n r)
  else match r with
       | [] => if (n =? 0)%nat then Ok ([], []) else Err "EOF"
       | _ => Err "unexpected EOF"
       end.

(** The panic of [cipher.NewCTR] on an IV of the wrong length.  The text is
    that of the generic implementation; Go releases that route AES through
    their own CTR code panic at the same check with a different text, so
    nothing below depends on the wording. *)
Definition NewCTR_panic : string := "cipher.NewCTR: IV length must equal block size".

Module cipher.
Section WithStream.
Context {ctr : AESCTR}.

(** [cipher.NewCTR(block, iv)].  The package documentation: the length of
    iv must be the same as the Block's block size; the function panics
    otherwise.  With a well-sized IV the result is the keystream
    transformation. *)
Definition NewCTR (block iv : list byte) : outcome (list byte -> list byte) :=
  if (List.length iv =? aes.BlockSize)%nat then Ok (ctr_XORKeyStream block iv)
  else Panic NewCTR_panic.

End WithStream.
End cipher.

Module crypto.

Definition SaltSize : nat := 32.
Definition NonceSize : nat := 12.
Definition KeySize : nat := 32.

Definition MagicBytes : string := String "S" (String "F" (String "M" (String Ascii.zero EmptyString))).
Definition Version : Z := 1.
Definition HeaderSize : nat := 64.

Section WithPrimitives.
Context {kdf : Argon2} {ctr : AESCTR}.

(** [DeriveKey] *)
Definition DeriveKey (password : string) (salt : list byte)
    (time memory : Z) (threads : Z) : outcome (list byte) :=
  if time <? 1 then Panic "argon2: number of rounds too small"
  else if threads <? 1 then Panic "argon2: parallelism degree too low"
  else Ok (argon2_IDKey (bytes_of_string password) salt time memory threads KeySize).

(** [GenerateSalt] *)
Definition GenerateSalt (rng : nat -> byte) (pos : nat) : list byte :=
  rand_Read rng pos SaltSize.

(** [EncryptStream(reader, writer, key)].  The result is what has been
    written to [writer] and how the call ends.  The nonce has the size
    [gcm.NonceSize()] reports, twelve bytes, and is written before the CTR
    stream is built from it. *)
Definition EncryptStream (reader : list byte) (key : list byte)
    (rng : nat -> byte) (pos : nat) : list byte * outcome unit :=
  match wrapf "failed to create cipher" (aes.NewCipher key) with
  | Err e => ([], Err e)
  | Panic p => ([], Panic p)
  | Ok block =>
    let nonce := rand_Read rng pos gcmNonceSize in
    match cipher.NewCTR block nonce with
    | Err e => (nonce, Err e)
    | Panic p => (nonce, Panic p)
    | Ok stream => (nonce ++ stream reader, Ok tt)
    end
  end.

(** [DecryptStream(reader, writer, key)]: what ends up in [writer]. *)
Definition DecryptStream (reader : list byte) (key : list byte)
    : outcome (list byte) :=
  block ← wrapf "failed to create cipher" (aes.NewCipher key);
  '(nonce, rest) ← wrapf "failed to read nonce" (io_ReadFull reader NonceSize);
  stream ← cipher.NewCTR block nonce;
  Ok (stream rest).

End WithPrimitives.

Section WithAEAD.
Context {aead : AESGCM}.

(** [Encrypt(plaintext, key)]; [nonce] is what [rand.Reader] delivers for
    the [gcm.NonceSize()] bytes asked of it.  [cipher.NewGCM] does not fail
    on an AES block. *)
Definition Encrypt (plaintext key nonce : list byte) : outcome (list byte) :=
  block ← wrapf "failed to create cipher" (aes.NewCipher key);
  Ok (nonce ++ gcm_seal block nonce plaintext).

(** [Decrypt(ciphertext, key)] *)
Definition Decrypt (ciphertext key : list byte) : outcome (list byte) :=
  block ← wrapf "failed to create cipher" (aes.NewCipher key);
  let nonceSize := gcmNonceSize in
  if (List.length ciphertext <? nonceSize)%nat then Err "ciphertext too short"
  else
    let nonce := firstn nonceSize ciphertext in
    let ciphertext := skipn nonceSize ciphertext in
    match gcm_open block nonce ciphertext with
    | Some plaintext => Ok plaintext
    | None => Err "failed to decrypt: cipher: message authentication failed"
    end.

End WithAEAD.
End crypto.

(** ** path/filepath, on slash-separated paths

    [Join] and [Dir] handle a path through its components; empty and [.]
    components are dropped and [..] removes the component before it.
    [Base] works on the string, as the library does. *)

Module filepath.

Fixpoint split (s cur : string) : list string :=
  match s with
  | EmptyString => [cur]
  | String c rest =>
      if Ascii.eqb c "/" then cur :: split rest EmptyString
      else split rest (cur +:+ String c EmptyString)
  end.

Definition components (s : string) : list string :=
  List.filter (fun c => negb (String.eqb c EmptyString) && negb (String.eqb c "."))
    (split s EmptyString).

Definition Clean (cs : list string) : list string :=
  fold_left (fun acc c => if String.eqb c ".." then removelast acc else acc ++ [c])
    cs [].

Definition Join (a b : string) : list string := Clean (components a ++ components b).

(** The path without the separators at its end. *)
Fixpoint trim_separators (path : string) : string :=
  match path with
  | EmptyString => EmptyString
  | String c rest =>
      match trim_separators rest with
      | EmptyString => if Ascii.eqb c "/" then EmptyString else String c EmptyString
      | rest' => String c rest'
      end
  end.

(** [filepath.Base]: [.] for the empty path; otherwise the separators at
    the end are stripped and what follows the last separator left is
    returned, which is the separator itself when nothing is left, the path
    having been made of separators only. *)
Definition Base (path : string) : string :=
  if String.eqb path EmptyString then "."
  else
    let path := List.last (split (trim_separators path) EmptyString) EmptyString in
    if String.eqb path EmptyString then "/" else path.

Definition Dir (p : list string) : list string := removelast p.

End filepath.

(** ** The files a container is made from, and the files extraction makes *)

(** A source: a regular file, or a directory with its entries in the order
    [filepath.Walk] visits them (by name). *)
#[warnings="-register-all"]
Inductive tree : Type :=
| RegularFile (data : list byte)
| Directory (children : list (string * tree)).

Inductive fsobj : Type :=
| DirObj
| FileObj (data : list byte).

(** The non-empty prefixes of a path, shortest first. *)
Fixpoint prefixes (p : list string) : list (list string) :=
  match p with
  | [] => []
  | c :: rest => [c] :: map (cons c) (prefixes rest)
  end.

Definition is_file (o : option fsobj) : bool :=
  match o with Some (FileObj _) => true | _ => false end.

Definition is_dir (o : option fsobj) : bool :=
  match o with Some DirObj => true | _ => false end.

(** [os.MkdirAll] *)
Definition MkdirAll (p : list string) (fs : gmap (list string) fsobj)
    : outcome (gmap (list string) fsobj) :=
  if existsb (fun q => is_file (fs !! q)) (prefixes p) then Err "not a directory"
  else Ok (fold_left (fun m q => <[q := DirObj]> m) (prefixes p) fs).

(** [os.Create] followed by [io.Copy] of [data] into the new file. *)
Definition CreateAndWrite (p : list string) (data : list byte)
    (fs : gmap (list string) fsobj) : outcome (gmap (list string) fsobj) :=
  if is_dir (fs !! p) then Err "is a directory"
  else match filepath.Dir p with
       | [] => Ok (<[p := FileObj data]> fs)
       | parent =>
           if is_dir (fs !! parent) then Ok (<[p := FileObj data]> fs)
           else Err "no such file or directory"
       end.

(** ** archive/tar and compress/gzip *)

Module tar.

Inductive Typeflag : Type := TypeReg | TypeDir | TypeOther.

Record Header : Type := mkHeader {
  Name : string;
  Type_ : Typeflag;
  Body : list byte
}.

End tar.

(** The writer pair [tar.NewWriter(gzip.NewWriter(&buf))], both closed, as a
    function of the entries written; the reader pair
    [tar.NewReader(gzip.NewReader(&buf))] as the entries [Next] yields,
    followed by the error that ends the stream early, if any.  [Err] is a
    failure of [gzip.NewReader]. *)
Class TarGz : Type := {
  targz_Writer : list tar.Header -> list byte;
  targz_Reader : list byte -> outcome (list tar.Header * option string)
}.

(** ** The container engine (container.go) *)

Module ContainerHeader.
Record t : Type := mk {
  Magic : list byte;
  Version : Z;
  Salt : list byte;
  Argon2Time : Z;
  Argon2Memory : Z;
  Argon2Threads : Z;
  Reserved : list byte
}.
End ContainerHeader.

(** A fixed-size byte array: [copy] fills it from the front, the rest stays zero. *)
Definition fixed (n : nat) (l : list byte) : list byte :=
  firstn n (l ++ repeat x00 n).

Definition le_bytes32 (w : Z) : list byte :=
  [byte_of_Z w; byte_of_Z (Z.shiftr w 8);
   byte_of_Z (Z.shiftr w 16); byte_of_Z (Z.shiftr w 24)].

Definition le_word32 (bs : list byte) : Z :=
  match bs with
  | [b0; b1; b2; b3] =>
      Z_of_byte b0 + Z.shiftl (Z_of_byte b1) 8
      + Z.shiftl (Z_of_byte b2) 16 + Z.shiftl (Z_of_byte b3) 24
  | _ => 0
  end.

(** [binary.Write(w, binary.LittleEndian, &header)] *)
Definition binary_Write (h : ContainerHeader.t) : list byte :=
  fixed 4 (ContainerHeader.Magic h)
  ++ le_bytes32 (ContainerHeader.Version h)
  ++ fixed 32 (ContainerHeader.Salt h)
  ++ le_bytes32 (ContainerHeader.Argon2Time h)
  ++ le_bytes32 (ContainerHeader.Argon2Memory h)
  ++ [byte_of_Z (ContainerHeader.Argon2Threads h)]
  ++ fixed 15 (ContainerHeader.Reserved h).

(** [binary.Read(r, binary.LittleEndian, &header)]: the header, and what is
    left of the file. *)
Definition binary_Read (r : list byte) : outcome (ContainerHeader.t * list byte) :=
  '(buf, rest) ← io_ReadFull r crypto.HeaderSize;
  Ok (ContainerHeader.mk
        (firstn 4 buf)
        (le_word32 (firstn 4 (skipn 4 buf)))
        (firstn 32 (skipn 8 buf))
        (le_word32 (firstn 4 (skipn 40 buf)))
        (le_word32 (firstn 4 (skipn 44 buf)))
        (Z_of_byte (nth 48 buf x00))
        (skipn 49 buf),
      rest).

(** What [ExtractContainer] is seen to call. *)
Inductive event : Type :=
| CallDeriveKey (password : string) (salt : list byte) (time memory threads : Z).

Section Container.
Context {kdf : Argon2} {ctr : AESCTR} {codec : TarGz}.

(** [addToArchive(tarWriter, source, baseDir)] as [CreateContainer] calls it,
    with [baseDir] empty: the walk visits [path] and then, for a directory,
    every entry below it; each visited path is written under the name
    [filepath.Base(path)]. *)
Fixpoint addToArchive (path : string) (t : tree) : list tar.Header :=
  match t with
  | RegularFile data => [tar.mkHeader (filepath.Base path) tar.TypeReg data]
  | Directory children =>
      tar.mkHeader (filepath.Base path) tar.TypeDir []
      :: (fix walk (cs : list (string * tree)) : list tar.Header :=
            match cs with
            | [] => []
            | (name, child) :: cs' => addToArchive (join path name) child ++ walk cs'
            end) children
  end.

(** [CreateContainer]: the bytes in the container file when the call ends,
    and how it ends.  [rng] is [rand.Reader]: the salt is read first, the
    nonce after it.  The source is given as the tree found at [sourcePath];
    failures of the file system (an unreadable source, a container file that
    cannot be created) are not modelled. *)
Definition CreateContainer (sourcePath : string) (source : tree)
    (password : string) (argon2Time argon2Memory argon2Threads : Z)
    (rng : nat -> byte) : list byte * outcome unit :=
  let salt := crypto.GenerateSalt rng 0 in
  match crypto.DeriveKey password salt argon2Time argon2Memory argon2Threads with
  | Err e => ([], Err e)
  | Panic p => ([], Panic p)
  | Ok key =>
    let header :=
      ContainerHeader.mk (bytes_of_string crypto.MagicBytes) crypto.Version salt
        argon2Time argon2Memory argon2Threads [] in
    let containerFile := binary_Write header in
    let buf := targz_Writer (addToArchive sourcePath source) in
    let '(body, r) := crypto.EncryptStream buf key rng crypto.SaltSize in
    (containerFile ++ body, wrapf "failed to encrypt data" r)
  end.

(** One turn of the extraction loop. *)
Definition extractEntry (outputPath : string) (fs : gmap (list string) fsobj)
    (header : tar.Header) : outcome (gmap (list string) fsobj) :=
  let target := filepath.Join outputPath (tar.Name header) in
  match tar.Type_ header with
  | tar.TypeDir => wrapf "failed to create directory" (MkdirAll target fs)
  | tar.TypeReg =>
      fs ← wrapf "failed to create parent directory" (MkdirAll (filepath.Dir target) fs);
      wrapf "failed to create file" (CreateAndWrite target (tar.Body header) fs)
  | tar.TypeOther => Ok fs
  end.

(** The loop over [tarReader.Next()]: the files as they are when it stops. *)
Fixpoint extractEntries (outputPath : string) (fs : gmap (list string) fsobj)
    (entries : list tar.Header) (stop : option string)
    : gmap (list string) fsobj * outcome unit :=
  match entries with
  | [] => match stop with
          | None => (fs, Ok tt)
          | Some e => (fs, Err ("failed to read tar: " +:+ e))
          end
  | header :: rest =>
      match extractEntry outputPath fs header with
      | Ok fs' => extractEntries outputPath fs' rest stop
      | Err e => (fs, Err e)
      | Panic p => (fs, Panic p)
      end
  end.

(** [ExtractContainer]: the calls made, the files afterwards, and the
    result. *)
Definition ExtractContainer (container : list byte) (outputPath password : string)
    (fs : gmap (list string) fsobj)
    : list event * (gmap (list string) fsobj * outcome unit) :=
  match wrapf "failed to read header" (binary_Read container) with
  | Err e => ([], (fs, Err e))
  | Panic p => ([], (fs, Panic p))
  | Ok (header, rest) =>
    if negb (String.eqb (string_of_list_byte (ContainerHeader.Magic header))
                        crypto.MagicBytes)
    then ([], (fs, Err "invalid container format"))
    else
      let salt := ContainerHeader.Salt header in
      let time := ContainerHeader.Argon2Time header in
      let memory := ContainerHeader.Argon2Memory header in
      let threads := ContainerHeader.Argon2Threads header in
      ([CallDeriveKey password salt time memory threads],
       match crypto.DeriveKey password salt time memory threads with
       | Err e => (fs, Err e)
       | Panic p => (fs, Panic p)
       | Ok key =>
         match wrapf "failed to decrypt data (wrong password?)"
                 (crypto.DecryptStream rest key) with
         | Err e => (fs, Err e)
         | Panic p => (fs, Panic p)
         | Ok buf =>
           match wrapf "failed to create gzip reader" (targz_Reader buf) with
           | Err e => (fs, Err e)
           | Panic p => (fs, Panic p)
           | Ok (entries, stop) => extractEntries outputPath fs entries stop
           end
         end
       end)
  end.

End Container.

(** The files a faithful extraction of [t] under the path [p] consists of. *)
Fixpoint plant (p : list string) (t : tree) (fs : gmap (list string) fsobj)
    : gmap (list string) fsobj :=
  match t with
  | RegularFile data => <[p := FileObj data]> fs
  | Directory children =>
      (fix each (cs : list (string * tree)) (fs : gmap (list string) fsobj) :=
         match cs with
         | [] => fs
         | (name, child) :: cs' => each cs' (plant (p ++ [name]) child fs)
         end) children (<[p := DirObj]> fs)
  end.

(** The error the specification calls AuthenticationFailed (wrong password
    or corrupted container), and the one it calls InvalidFormat. *)
Definition AuthenticationFailed (e : string) : bool :=
  String.prefix "failed to decrypt data (wrong password?)" e.

Definition InvalidFormat (e : string) : bool :=
  String.eqb e "invalid container format".

(** ** Notions the properties are stated with *)

(** An identity whose keys are a pair as [ed25519.GenerateKey] makes them:
    the private key is a 32-byte seed followed by the public key of that
    seed. *)
Definition generated_keys {scheme : Ed25519} (id : DeviceIdentity) : Prop :=
  exists seed, List.length seed = 32%nat
    /\ PublicKey id = ed_public seed
    /\ PrivateKey id = seed ++ ed_public seed.

(** The server after a chunk has been accepted: the write is in the
    session's file, the index is marked, and the session is dropped, its
    file closed, when the count of marked indices equals [TotalChunks]. *)
Definition accepted_chunk (s : SecureServer) (metadata : ChunkMetadata.t)
    (session : TransferSession.t) (data : list byte) : SecureServer :=
  let offset := wrap64 (ChunkMetadata.Index metadata * (4 * 1024 * 1024)) in
  let file := mkOsFile (written (TransferSession.File session) ++ [(offset, data)]) false in
  let receivedChunks :=
    <[ChunkMetadata.Index metadata := true]> (TransferSession.ReceivedChunks session) in
  if Z.of_nat (size receivedChunks) =? TransferSession.TotalChunks session
  then complete s (ChunkMetadata.SessionID metadata)
         (TransferSession.received session receivedChunks (Close file))
  else with_sessions s
         (<[ChunkMetadata.SessionID metadata :=
              TransferSession.received session receivedChunks file]> (sessions s)).

Definition success_ack (metadata : ChunkMetadata.t) : ChunkAck.t :=
  ChunkAck.mk (ChunkMetadata.Index metadata) (ChunkMetadata.SessionID metadata)
    true EmptyString.

(** What holds of every session in the table of a running server: its file
    is open, every marked index was written at a non-negative offset, and
    the count of marked indices has not met [TotalChunks] since the first
    chunk was marked. *)
Record session_ok (session : TransferSession.t) : Prop := {
  ok_open : closed (TransferSession.File session) = false;
  ok_marked : forall i b,
    TransferSession.ReceivedChunks session !! i = Some b ->
    b = true /\ 0 <= wrap64 (i * (4 * 1024 * 1024));
  ok_count :
    size (TransferSession.ReceivedChunks session) = 0%nat
    \/ Z.of_nat (size (TransferSession.ReceivedChunks session))
       <> TransferSession.TotalChunks session
}.

Definition server_ok (s : SecureServer) : Prop :=
  forall sessionID session,
    sessions s !! sessionID = Some session -> session_ok session.

(** A name with a path separator in it. *)
Fixpoint has_slash (s : string) : bool :=
  match s with
  | EmptyString => false
  | String c rest => Ascii.eqb c "/" || has_slash rest
  end.

(** Requests other than handshakes. *)
Definition no_handshake (r : request) : bool :=
  match r with
  | HandshakeReq _ _ _ => false
  | _ => true
  end.

(** ** Executable instances of the library interfaces

    Small stand-ins with the interfaces' laws, for running the model on
    concrete inputs.  They have none of the cryptographic strength of the
    real algorithms, and no theorem below depends on how they are built. *)

Module Reference.

Fixpoint bytes_eqb (a b : list byte) : bool :=
  match a, b with
  | [], [] => true
  | x :: a', y :: b' => Byte.eqb x y && bytes_eqb a' b'
  | _, _ => false
  end.

Ltac bytes_eqb_refl :=
  match goal with
  | |- bytes_eqb ?a ?a = true =>
      generalize a; intros l; induction l as [| x l IH];
      [reflexivity | cbn; rewrite IH, andb_true_r; destruct x; reflexivity]
  end.

Definition xor_byte (a b : byte) : byte :=
  byte_of_Z (Z.lxor (Z_of_byte a) (Z_of_byte b)).

Fixpoint xor_bytes (a b : list byte) : list byte :=
  match a, b with
  | x :: a', y :: b' => xor_byte x y :: xor_bytes a' b'
  | _, _ => a
  end.

#[export] Instance ed : Ed25519.
Proof.
  refine {|
    ed_public seed := sha256.Sum256 seed;
    ed_sign priv msg := sha256.Sum256 (skipn 32 priv ++ msg) ++ sha256.Sum256 msg;
    ed_verify pub msg sig :=
      bytes_eqb sig (sha256.Sum256 (pub ++ msg) ++ sha256.Sum256 msg)
  |}.
  - intros seed. reflexivity.
  - intros priv msg. reflexivity.
  - intros seed msg Hlen.
    rewrite drop_app_length' by (symmetry; exact Hlen). bytes_eqb_refl.
Defined.

#[export] Instance json : HandshakeJSON := {|
  json_Marshal req :=
    bytes_of_string
      ("{device_name:" +:+ DeviceName req
       +:+ ",device_fingerprint:" +:+ DeviceFingerprint req
       +:+ ",ephemeral_pubkey:" +:+ hex.EncodeToString (EphemeralPubKey req)
       +:+ ",file_metadata:{name:" +:+ Name (ReqFileMetadata req)
       +:+ ",size:" +:+ hex.EncodeToString (sha256.be_bytes32 (Size (ReqFileMetadata req)))
       +:+ ",mime:" +:+ Mime (ReqFileMetadata req)
       +:+ "},signature:"
       +:+ match Signature req with
           | None => "null"
           | Some sig => hex.EncodeToString sig
           end
       +:+ "}")
|}.

Definition tag (key nonce plaintext : list byte) : list byte :=
  firstn 16 (sha256.Sum256 (key ++ nonce ++ plaintext)).

#[export] Instance aead : AESGCM.
Proof.
  refine {|
    gcm_seal key nonce plaintext := plaintext ++ tag key nonce plaintext;
    gcm_open key nonce sealed :=
      let n := (List.length sealed - 16)%nat in
      let plaintext := firstn n sealed in
      if (16 <=? List.length sealed)%nat
         && bytes_eqb (skipn n sealed) (tag key nonce plaintext)
      then Some plaintext else None
  |}.
  intros key nonce plaintext _ _. cbv zeta.
  assert (Htag : List.length (tag key nonce plaintext) = 16%nat) by reflexivity.
  rewrite length_app, Htag.
  replace (List.length plaintext + 16 - 16)%nat with (List.length plaintext) by lia.
  rewrite take_app_length, drop_app_length.
  assert (Hrefl : bytes_eqb (tag key nonce plaintext) (tag key nonce plaintext) = true)
    by bytes_eqb_refl.
  rewrite Hrefl, andb_true_r.
  destruct (Nat.leb_spec 16 (List.length plaintext + 16)); [reflexivity | lia].
Defined.

#[export] Instance dh : X25519 := {|
  x25519 scalar point :=
    if (List.length scalar =? 32)%nat && (List.length point =? 32)%nat
    then Ok (xor_bytes scalar point)
    else Err "bad input length";
  Basepoint := byte_of_Z 9 :: repeat x00 31
|}.

#[export] Instance kdf : Argon2.
Proof.
  refine {|
    argon2_IDKey password salt time memory threads keyLen :=
      fixed keyLen
        (sha256.Sum256 (password ++ salt ++ le_bytes32 time ++ le_bytes32 memory
                        ++ [byte_of_Z threads]))
  |}.
  intros. unfold fixed. rewrite length_take, length_app, repeat_length. lia.
Defined.

#[export] Instance ctr : AESCTR := {|
  ctr_XORKeyStream key iv data :=
    xor_bytes data
      (flat_map (fun i => sha256.Sum256 (key ++ iv ++ le_bytes32 (Z.of_nat i)))
                (seq 0 (S (List.length data / 32))))
|}.

(** A length-prefixed archive behind a two-byte magic. *)
Definition put (bs : list byte) : list byte :=
  le_bytes32 (Z.of_nat (List.length bs)) ++ bs.

Definition get (r : list byte) : option (list byte * list byte) :=
  if (List.length r <? 4)%nat then None
  else
    let n := Z.to_nat (le_word32 (firstn 4 r)) in
    let r := skipn 4 r in
    if (List.length r <? n)%nat then None else Some (firstn n r, skipn n r).

Definition flag_byte (t : tar.Typeflag) : byte :=
  match t with tar.TypeReg => x30 | tar.TypeDir => x35 | tar.TypeOther => x32 end.

Definition flag_of (b : byte) : tar.Typeflag :=
  if Byte.eqb b x30 then tar.TypeReg
  else if Byte.eqb b x35 then tar.TypeDir else tar.TypeOther.

Fixpoint read_entries (fuel : nat) (r : list byte)
    : list tar.Header * option string :=
  match fuel, r with
  | _, [] => ([], None)
  | O, _ => ([], Some "unexpected EOF")
  | S fuel', b :: r1 =>
      match get r1 with
      | None => ([], Some "unexpected EOF")
      | Some (name, r2) =>
          match get r2 with
          | None => ([], Some "unexpected EOF")
          | Some (body, r3) =>
              let (es, stop) := read_entries fuel' r3 in
              (tar.mkHeader (string_of_list_byte name) (flag_of b) body :: es, stop)
          end
      end
  end.

#[export] Instance codec : TarGz := {|
  targz_Writer entries :=
    [x1f; x8b]
    ++ flat_map (fun e => flag_byte (tar.Type_ e)
                          :: put (bytes_of_string (tar.Name e)) ++ put (tar.Body e))
         entries;
  targz_Reader r :=
    match r with
    | x1f :: x8b :: r' => Ok (read_entries (List.length r') r')
    | _ => Err "gzip: invalid header"
    end
|}.

End Reference.

(** ** A transfer, run on the executable instances *)

Module Demo.
Import Reference.

Definition seed : list byte := repeat x07 32.

Definition identity : DeviceIdentity := GenerateIdentity seed.

Definition metadata : FileMetadata :=
  mkFileMetadata "abc.txt" 10 "application/octet-stream".

Definition client_private : list byte := repeat x02 32.
Definition server_private : list byte := repeat x03 32.
Definition sid : string := "1b4e28ba-2fa1-41d2-883f-0016d3cca427".

Definition client_public : list byte := xor_bytes client_private Basepoint.
Definition server_public : list byte := xor_bytes server_private Basepoint.

Definition request_for (size : Z) : HandshakeRequest :=
  mkHandshakeRequest "laptop" (Fingerprint identity) client_public
    (mkFileMetadata "abc.txt" size "application/octet-stream") None.

Definition env : HandshakeEnv := mkHandshakeEnv server_private sid false.

Definition new_server : SecureServer :=
  NewSecureServer "downloads" "desk" (Fingerprint identity).

(** The server once it has accepted a handshake for a file of [size] bytes. *)
Definition server_for (size : Z) : SecureServer :=
  (handleHandshake new_server POST (Some (request_for size)) env).1.

(** The key the client derives, and a chunk sealed under it. *)
Definition session_key : list byte :=
  match DeriveSharedSecret client_private server_public with
  | Ok key => key
  | _ => []
  end.

Definition sealed (plaintext : list byte) : list byte :=
  match EncryptChunk plaintext session_key (repeat x05 12) with
  | Ok c => c
  | _ => []
  end.

Definition payload : list byte := bytes_of_string "abcdefghij".

Definition chunk (index total : Z) (plaintext : list byte) (checksum : string)
    : request :=
  ChunkReq POST
    (Some (ChunkMetadata.mk index total (Z.of_nat (List.length plaintext))
             checksum sid))
    (Some (sealed plaintext)) false.

Definition good_chunk (index total : Z) : request :=
  chunk index total payload (CalculateChunkChecksum payload).

(** [serve] and [serve_all] on the executable instances. *)
Definition step (s : SecureServer) (r : request) : SecureServer * response :=
  serve s r.

Definition steps (s : SecureServer) (rs : list request) : SecureServer :=
  serve_all s rs.

Definition status (s : SecureServer) : response := handleStatus s sid.

Definition wrong_checksum : string :=
  "0000000000000000000000000000000000000000000000000000000000000000".

(** A transfer of two chunks after its first chunk has arrived. *)
Definition after_first_chunk : SecureServer :=
  steps (server_for 6291456) [good_chunk 0 2].

Definition metadata_0 : ChunkMetadata.t :=
  ChunkMetadata.mk 0 2 10 (CalculateChunkChecksum payload) sid.

Definition metadata_7 : ChunkMetadata.t :=
  ChunkMetadata.mk 7 2 10 (CalculateChunkChecksum payload) sid.

End Demo.

(** ** The container engine on concrete inputs *)

Module ContainerDemo.

Definition rng (n : nat) : byte := byte_of_Z (Z.of_nat n).

Definition hello : tree :=
  RegularFile (bytes_of_string "Hello, SecureFileManager!" ++ [x0a]).

(** [CreateContainer("hello.txt", _, "correct horse", 3, 65536, 4)] *)
Definition create_hello : list byte * outcome unit :=
  CreateContainer (kdf := Reference.kdf) (ctr := Reference.ctr)
    (codec := Reference.codec) "hello.txt" hello "correct horse" 3 65536 4 rng.

Definition extract (container : list byte) (password : string)
    : list event * (gmap (list string) fsobj * outcome unit) :=
  ExtractContainer (kdf := Reference.kdf) (ctr := Reference.ctr)
    (codec := Reference.codec) container "out" password ∅.

(** A header and nothing after it. *)
Definition header_only (magic : string) (version : Z) : list byte :=
  binary_Write
    (ContainerHeader.mk (bytes_of_string magic) version (repeat x00 32) 3 65536 4 []).

(** The directory [docs] holding [a.txt] and [sub/b.txt]. *)
Definition docs : tree :=
  Directory
    [("a.txt"%string, RegularFile (bytes_of_string "A"));
     ("sub"%string, Directory [("b.txt"%string, RegularFile (bytes_of_string "BB"))])].

End ContainerDemo.

(** ** Sessions over a run of the server: further notions *)

(** The session a request creates or is addressed to. *)
Definition target (r : request) : option string :=
  match r with
  | HandshakeReq _ _ env => Some (newUUID env)
  | ChunkReq _ (Some metadata) _ _ => Some (ChunkMetadata.SessionID metadata)
  | _ => None
  end.

(** A request that does not hand out [sessionID] again: [uuid.New] drawing
    the identifier of a session already in the table would replace it. *)
Definition keeps (sessionID : string) (r : request) : Prop :=
  match r with
  | HandshakeReq _ _ env => newUUID env <> sessionID
  | _ => True
  end.

(** [b] is a later state of the transfer [a]: what the handshake fixed is
    the same, and the marked indices and the writes have only grown. *)
Record advances (a b : TransferSession.t) : Prop := {
  adv_id : TransferSession.SessionID b = TransferSession.SessionID a;
  adv_sender : TransferSession.SenderName b = TransferSession.SenderName a;
  adv_fingerprint : TransferSession.Fingerprint b = TransferSession.Fingerprint a;
  adv_metadata : TransferSession.Metadata b = TransferSession.Metadata a;
  adv_key : TransferSession.SessionKey b = TransferSession.SessionKey a;
  adv_total : TransferSession.TotalChunks b = TransferSession.TotalChunks a;
  adv_path : TransferSession.FilePath b = TransferSession.FilePath a;
  adv_marked : forall i,
    is_Some (TransferSession.ReceivedChunks a !! i) ->
    is_Some (TransferSession.ReceivedChunks b !! i);
  adv_written :
    written (TransferSession.File a) `prefix_of` written (TransferSession.File b)
}.

(** What the handshake and the chunk handler maintain of a session in the
    table of the server [s], filed under [sessionID]. *)
Record session_wf (s : SecureServer) (sessionID : string)
    (session : TransferSession.t) : Prop := {
  wf_id : TransferSession.SessionID session = sessionID;
  wf_key : List.length (TransferSession.SessionKey session) = 32%nat;
  wf_total :
    TransferSession.TotalChunks session
    = handleHandshake_totalChunks (Size (TransferSession.Metadata session));
  wf_path :
    TransferSession.FilePath session
    = join (downloadDir s) (Name (TransferSession.Metadata session));
  wf_open : closed (TransferSession.File session) = false;
  wf_true : forall i b, TransferSession.ReceivedChunks session !! i = Some b -> b = true;
  wf_writes :
    (size (TransferSession.ReceivedChunks session)
     <= List.length (written (TransferSession.File session)))%nat
}.

(** What holds of a session deleted from the table. *)
Record dropped_wf (session : TransferSession.t) : Prop := {
  dw_closed : closed (TransferSession.File session) = true;
  dw_count :
    Z.of_nat (size (TransferSession.ReceivedChunks session))
    = TransferSession.TotalChunks session;
  dw_total : 1 <= TransferSession.TotalChunks session;
  dw_writes :
    (size (TransferSession.ReceivedChunks session)
     <= List.length (written (TransferSession.File session)))%nat
}.

(** A lowercase hex digit. *)
Definition lower_hex (c : ascii) : bool :=
  existsb (Ascii.eqb c) (list_ascii_of_string "0123456789abcdef").

(** The invariant of a running server. *)
Definition server_wf (s : SecureServer) : Prop :=
  (forall sessionID session,
      sessions s !! sessionID = Some session -> session_wf s sessionID session)
  /\ Forall dropped_wf (dropped s).

(** ** The sending client (secure_client.go)

    The client talks to the server over HTTP.  The network is taken to
    deliver every request as it was sent and every answer as it was given,
    so a request of the client is a call of the server's handler and the
    answer is what that handler returns. *)

(** What [json.Decoder.Decode] reports on a body that is not JSON but the
    text of an [http.Error]. *)
Definition json_syntax_error (text : string) : string :=
  match text with
  | EmptyString => "EOF"
  | String c _ =>
      "invalid character '" +:+ String c EmptyString
      +:+ "' looking for beginning of value"
  end.

(** Decoding an answer into a [HandshakeResponse] and into a [ChunkAck]:
    the decoder fills the fields whose names it finds and leaves the others
    zero. *)
Definition decode_handshake (resp : response) : outcome HandshakeResponse :=
  match resp with
  | HttpError _ text => Err (json_syntax_error text)
  | JsonHandshake r => Ok r
  | JsonAck a => Ok (mkHandshakeResponse false [] (ChunkAck.SessionID a) EmptyString)
  | JsonStatus st =>
      Ok (mkHandshakeResponse false [] (TransferStatus.SessionID st) EmptyString)
  | JsonPing _ _ => Ok (mkHandshakeResponse false [] EmptyString EmptyString)
  end.

Definition decode_ack (resp : response) : outcome ChunkAck.t :=
  match resp with
  | HttpError _ text => Err (json_syntax_error text)
  | JsonAck a => Ok a
  | JsonHandshake r => Ok (ChunkAck.mk 0 (RespSessionID r) false EmptyString)
  | JsonStatus st => Ok (ChunkAck.mk 0 (TransferStatus.SessionID st) false EmptyString)
  | JsonPing _ _ => Ok (ChunkAck.mk 0 EmptyString false EmptyString)
  end.

(** The size of the read buffer, [chunkSize] bytes. *)
Definition chunkBytes : nat := Z.to_nat (4 * 1024 * 1024).

Section Client.
Context {scheme : Ed25519} {codec : HandshakeJSON} {aead : AESGCM} {dh : X25519}.

(** [sendChunk]: the server after the request, and the client's verdict on
    the ACK.  [fault] is whether the server's disk refuses the write. *)
Definition sendChunk (s : SecureServer) (metadata : ChunkMetadata.t)
    (encryptedData : list byte) (fault : bool) : SecureServer * outcome unit :=
  let '(s', resp) := handleChunk s POST (Some metadata) (Some encryptedData) fault in
  (s',
   ack ← wrapf "failed to decode ACK" (decode_ack resp);
   if negb (ChunkAck.Success ack)
   then Err ("chunk rejected: " +:+ ChunkAck.Error ack)
   else Ok tt).

(** The loop of [SendFile] over the chunks, [n] turns of it: [file] is what
    is left to read, [file.Read(buffer)] takes up to [buffer] bytes, the
    length of the read buffer, from its front (none at the end of the file,
    where [io.EOF] is let pass).  [nonce i] is the nonce drawn for chunk
    [i]. *)
Fixpoint sendChunks (buffer : nat) (n : nat) (s : SecureServer) (file : list byte)
    (chunkIndex totalChunks : Z) (sessionKey : list byte) (sessionID : string)
    (nonce : Z -> list byte) (fault : Z -> bool) : SecureServer * outcome unit :=
  match n with
  | O => (s, Ok tt)
  | S n' =>
      let chunkData := firstn buffer file in
      let checksum := CalculateChunkChecksum chunkData in
      match EncryptChunk chunkData sessionKey (nonce chunkIndex) with
      | Err e =>
          (s, Err ("failed to encrypt chunk " +:+ pretty chunkIndex +:+ ": " +:+ e))
      | Panic p => (s, Panic p)
      | Ok encryptedChunk =>
          let chunkMetadata :=
            ChunkMetadata.mk chunkIndex totalChunks
              (Z.of_nat (List.length chunkData)) checksum sessionID in
          match sendChunk s chunkMetadata encryptedChunk (fault chunkIndex) with
          | (s', Ok _) =>
              sendChunks buffer n' s' (skipn buffer file) (chunkIndex + 1)
                totalChunks sessionKey sessionID nonce fault
          | (s', Err e) =>
              (s', Err ("failed to send chunk " +:+ pretty chunkIndex +:+ ": " +:+ e))
          | (s', Panic p) => (s', Panic p)
          end
      end
  end.

(** [SendFile] against the server [s]: the server afterwards, and the
    client's result.  [file] is the content found at [filePath] (a file that
    cannot be opened is not modelled), [privateKey] the 32 bytes drawn for
    the ephemeral key, [env] what the server's environment contributes to the
    handshake. *)
Definition SendFile (identity : DeviceIdentity) (deviceName : string)
    (s : SecureServer) (filePath : string) (file : list byte)
    (privateKey : list byte) (env : HandshakeEnv)
    (nonce : Z -> list byte) (fault : Z -> bool) : SecureServer * outcome unit :=
  let fileSize := Z.of_nat (List.length file) in
  match wrapf "failed to generate ephemeral key" (GenerateEphemeralKey privateKey) with
  | Err e => (s, Err e)
  | Panic p => (s, Panic p)
  | Ok (privKey, pubKey) =>
    let metadata :=
      mkFileMetadata (filepath.Base filePath) fileSize "application/octet-stream" in
    match wrapf "failed to create handshake"
            (CreateHandshakeRequest identity deviceName pubKey metadata) with
    | Err e => (s, Err e)
    | Panic p => (s, Panic p)
    | Ok handshakeReq =>
      let '(s1, resp) := handleHandshake s POST (Some handshakeReq) env in
      match wrapf "failed to decode handshake response" (decode_handshake resp) with
      | Err e => (s1, Err e)
      | Panic p => (s1, Panic p)
      | Ok handshakeResp =>
        if negb (Accepted handshakeResp)
        then (s1, Err ("transfer rejected: " +:+ Message handshakeResp))
        else
          match wrapf "failed to derive session key"
                  (DeriveSharedSecret privKey (RespEphemeralPubKey handshakeResp)) with
          | Err e => (s1, Err e)
          | Panic p => (s1, Panic p)
          | Ok sessionKey =>
            let totalChunks := SendFile_totalChunks fileSize in
            sendChunks chunkBytes (Z.to_nat totalChunks) s1 file 0 totalChunks
              sessionKey (RespSessionID handshakeResp) nonce fault
          end
      end
    end
  end.

End Client.

(** The content of a file after the positional writes made through a
    handle: a write past the end leaves a gap of zero bytes. *)
Definition pwrite (content : list byte) (off : Z) (b : list byte) : list byte :=
  let off := Z.to_nat off in
  firstn off content ++ repeat x00 (off - List.length content) ++ b
  ++ skipn (off + List.length b) content.

Definition contents (f : OsFile) : list byte :=
  fold_left (fun content w => pwrite content w.1 w.2) (written f) [].

(** The pieces a file is cut into by reads of [buffer] bytes, from piece
    [k] on, [n] of them, as the writes the server makes of them. *)
Definition pieces (buffer : nat) (file : list byte) (k n : nat)
    : list (Z * list byte) :=
  map (fun i => (Z.of_nat i * 4194304, firstn buffer (skipn (i * buffer) file)))
      (seq k n).

(** The marks of a session that has received the chunks [0 .. k-1]. *)
Fixpoint marked (k : nat) : gmap Z bool :=
  match k with
  | O => ∅
  | S k' => <[Z.of_nat k' := true]> (marked k')
  end.

(** The session [handleHandshake] files for the request [SendFile] makes. *)
Definition opened (s : SecureServer) (identity : DeviceIdentity)
    (deviceName filePath : string) (file sessionKey : list byte)
    (sessionID : string) : TransferSession.t :=
  let fileSize := Z.of_nat (List.length file) in
  TransferSession.mk sessionID deviceName (Fingerprint identity)
    (mkFileMetadata (filepath.Base filePath) fileSize "application/octet-stream")
    sessionKey (handleHandshake_totalChunks fileSize) ∅
    (join (downloadDir s) (filepath.Base filePath)) os_Create.

(** That session once the first [k] pieces of [file] have arrived, and the
    server with that session in its table. *)
Definition arrived (session : TransferSession.t) (buffer : nat)
    (file : list byte) (k : nat) (closed : bool) : TransferSession.t :=
  TransferSession.received session (marked k)
    (mkOsFile (pieces buffer file 0 k) closed).

Definition in_flight (s : SecureServer) (sessionID : string)
    (session : TransferSession.t) (buffer : nat) (file : list byte) (k : nat)
    : SecureServer :=
  with_sessions s (<[sessionID := arrived session buffer file k false]> (sessions s)).

(** The server with the session [session] in its table after [k] chunks
    have been accepted for it, [writes] being what was written. *)
Definition holding (s : SecureServer) (sessionID : string)
    (session : TransferSession.t) (k : nat) (writes : list (Z * list byte))
    : SecureServer :=
  with_sessions s
    (<[sessionID := TransferSession.received session (marked k)
                      (mkOsFile writes false)]> (sessions s)).

(** A write that is like a piece of the file as far as the server can
    tell: at the offset of the piece, with the SHA-256 of the piece. *)
Definition like_piece (write piece : Z * list byte) : Prop :=
  write.1 = piece.1
  /\ CalculateChunkChecksum write.2 = CalculateChunkChecksum piece.2.

(** What makes the handshake of [SendFile] go through: a private key
    [ed25519.Sign] accepts, a server that accepts the request and can create
    the output file, and two ephemeral keys whose X25519 products with each
    other's public key are the same [shared] secret. *)
Definition handshake_ready {dh : X25519} (identity : DeviceIdentity)
    (s : SecureServer) (privateKey : list byte) (env : HandshakeEnv)
    (shared : list byte) : Prop :=
  List.length (PrivateKey identity) = 64%nat
  /\ (forall req, onRequest s req = true)
  /\ createFails env = false
  /\ exists clientPublic serverPublic,
       x25519 privateKey Basepoint = Ok clientPublic
       /\ x25519 (ephemeralPrivate env) Basepoint = Ok serverPublic
       /\ x25519 (ephemeralPrivate env) clientPublic = Ok shared
       /\ x25519 privateKey serverPublic = Ok shared.

(** ** The container: further notions *)

(** A header as the struct holds it: every field within the range of its
    type, the arrays filled up with zero bytes. *)
Definition as_struct (h : ContainerHeader.t) : ContainerHeader.t :=
  ContainerHeader.mk
    (fixed 4 (ContainerHeader.Magic h))
    (ContainerHeader.Version h mod 2^32)
    (fixed 32 (ContainerHeader.Salt h))
    (ContainerHeader.Argon2Time h mod 2^32)
    (ContainerHeader.Argon2Memory h mod 2^32)
    (ContainerHeader.Argon2Threads h mod 256)
    (fixed 15 (ContainerHeader.Reserved h)).

(** The entries the extraction loop acts on: directories and regular
    files. *)
Definition extracted (header : tar.Header) : bool :=
  match tar.Type_ header with
  | tar.TypeOther => false
  | _ => true
  end.

(** A path made of separators and nothing else. *)
Fixpoint only_separators (path : string) : bool :=
  match path with
  | EmptyString => true
  | String c rest => Ascii.eqb c "/" && only_separators rest
  end.

(** A name that is a single path component. *)
Definition plain (name : string) : bool :=
  negb (has_slash name) && negb (String.eqb name EmptyString)
  && negb (String.eqb name ".") && negb (String.eqb name "..").

(** The names of the nodes of a tree below its root, in the order of the
    walk. *)
Fixpoint names_below (t : tree) : list string :=
  match t with
  | RegularFile _ => []
  | Directory children =>
      (fix each (cs : list (string * tree)) : list string :=
         match cs with
         | [] => []
         | (name, child) :: cs' => name :: names_below child ++ each cs'
         end) children
  end.

(** Every name in the tree is a single path component. *)
Fixpoint plain_names (t : tree) : bool :=
  match t with
  | RegularFile _ => true
  | Directory children =>
      (fix each (cs : list (string * tree)) : bool :=
         match cs with
         | [] => true
         | (name, child) :: cs' => plain name && plain_names child && each cs'
         end) children
  end.

(** ** The plain server and client (the server that follows the session
    crypto in secure_client.go, and client.go)

    The first, unencrypted protocol: a request that the receiver accepts or
    declines, then the file in the body of one POST.  The server's state is
    its busy flag [activeTransfer] and the files of the download directory;
    a request body is what [Body.Read] delivers, read by read, ended by
    [io.EOF] or by an error. *)

Module Plain.

Record TransferRequest : Type := mkTransferRequest {
  Metadata : FileMetadata;
  SenderIP : string
}.

Record TransferResponse : Type := mkTransferResponse {
  Accepted : bool;
  Message : string
}.

Record Server : Type := mkServer {
  downloadDir : string;
  onRequest : TransferRequest -> bool;
  activeTransfer : bool;
  files : gmap string (list byte)
}.

Definition with_active (s : Server) (active : bool) : Server :=
  mkServer (downloadDir s) (onRequest s) active (files s).

Definition with_file (s : Server) (path : string) (content : list byte) : Server :=
  mkServer (downloadDir s) (onRequest s) (activeTransfer s)
    (<[path := content]> (files s)).

(** [http.Error], a plain body written with a status, or a JSON answer. *)
Inductive reply : Type :=
| Error (code : Z) (text : string)
| Text (code : Z) (text : string)
| Json (r : TransferResponse).

Definition status (r : reply) : Z :=
  match r with
  | Error code _ => code
  | Text code _ => code
  | Json _ => 200
  end.

(** [NewServer]: idle, every request accepted. *)
Definition NewServer (downloadDir : string) (files : gmap string (list byte))
    : Server :=
  mkServer downloadDir (fun _ => true) false files.

Definition SetRequestHandler (s : Server) (handler : TransferRequest -> bool)
    : Server :=
  mkServer (downloadDir s) handler (activeTransfer s) (files s).

Definition handlePing (s : Server) : reply := Text 200 "pong".

(** [handleRequest]; [body] is the decoded request ([None] when the JSON
    does not decode), [remoteAddr] the address the request came from. *)
Definition handleRequest (s : Server) (method : string)
    (body : option TransferRequest) (remoteAddr : string) : Server * reply :=
  if negb (String.eqb method POST) then (s, Error 405 "Method not allowed")
  else match body with
  | None => (s, Error 400 "Invalid request")
  | Some req =>
    let req := mkTransferRequest (Metadata req) remoteAddr in
    if activeTransfer s then
      (s, Json (mkTransferResponse false "Busy with another transfer"))
    else
      let accepted := onRequest s req in
      if accepted
      then (with_active s true, Json (mkTransferResponse accepted "Transfer accepted"))
      else (s, Json (mkTransferResponse accepted "Transfer rejected"))
  end.

Record Body : Type := mkBody {
  reads : list (list byte);
  failure : option string
}.

(** The loop of [handleSend]: what is in the output file when it stops,
    and the answer.  [writeFails i] is whether the disk refuses the write
    of the [i]-th read; a refused write leaves nothing of that read in the
    file. *)
Fixpoint receive (content : list byte) (reads : list (list byte))
    (failure : option string) (i : nat) (writeFails : nat -> bool)
    : list byte * reply :=
  match reads with
  | [] =>
      match failure with
      | None => (content, Text 200 "OK")
      | Some _ => (content, Error 500 "Failed to read file")
      end
  | buffer :: rest =>
      if (0 <? List.length buffer)%nat && writeFails i
      then (content, Error 500 "Failed to write file")
      else receive (content ++ buffer) rest failure (S i) writeFails
  end.

(** [handleSend]; [filename] is the header [X-File-Name] (empty when it is
    missing), [createFails] whether [os.Create] fails.  The deferred
    function clears [activeTransfer] however the handler ends, once the
    method has been checked. *)
Definition handleSend (s : Server) (method filename : string) (body : Body)
    (createFails : bool) (writeFails : nat -> bool) : Server * reply :=
  if negb (String.eqb method POST) then (s, Error 405 "Method not allowed")
  else if String.eqb filename EmptyString
  then (with_active s false, Error 400 "Missing filename")
  else
    let outputPath := join (downloadDir s) filename in
    if createFails then (with_active s false, Error 500 "Failed to create file")
    else
      let '(content, answer) :=
        receive [] (reads body) (failure body) 0 writeFails in
      (with_active (with_file s outputPath content) false, answer).

(** Decoding an answer into a [TransferResponse]. *)
Definition decode (r : reply) : outcome TransferResponse :=
  match r with
  | Json resp => Ok resp
  | Error _ text => Err (json_syntax_error text)
  | Text _ text => Err (json_syntax_error text)
  end.

(** [Client.SendFile] against the server [s].  [deliver] is how the
    transport hands the body to the server, read by read. *)
Definition SendFile (s : Server) (filePath : string) (file : list byte)
    (remoteAddr : string) (deliver : list byte -> list (list byte))
    (createFails : bool) (writeFails : nat -> bool) : Server * outcome unit :=
  let metadata :=
    mkFileMetadata (filepath.Base filePath) (Z.of_nat (List.length file))
      "application/octet-stream" in
  let reqData := mkTransferRequest metadata EmptyString in
  let '(s1, resp) := handleRequest s POST (Some reqData) remoteAddr in
  match wrapf "failed to decode response" (decode resp) with
  | Err e => (s1, Err e)
  | Panic p => (s1, Panic p)
  | Ok transferResp =>
    if negb (Accepted transferResp)
    then (s1, Err ("transfer rejected: " +:+ Message transferResp))
    else
      let '(s2, sendResp) :=
        handleSend s1 POST (filepath.Base filePath) (mkBody (deliver file) None)
          createFails writeFails in
      if status sendResp =? 200 then (s2, Ok tt)
      else (s2, Err ("server returned error: " +:+ pretty (status sendResp)))
  end.

End Plain.

(** ** The peer-to-peer transfer (package sync, transfer manager)

    The sender writes to a libp2p stream, the receiver reads from it: the
    length of the file name and the name, the size of the file, then for
    each chunk the length of its ciphertext and the ciphertext, and at the
    end the SHA-256 of the file.  The stream is the list of its bytes;
    failures of the network are not modelled. *)

(** Go's [copy(dst, src)]: as many bytes as both have. *)
Definition copy (dst src : list byte) : list byte :=
  firstn (List.length dst) src ++ skipn (List.length src) dst.

Definition le_bytes64 (w : Z) : list byte :=
  le_bytes32 w ++ le_bytes32 (Z.shiftr w 32).

Definition le_word64 (bs : list byte) : Z :=
  le_word32 (firstn 4 bs) + Z.shiftl (le_word32 (skipn 4 bs)) 32.

(** [binary.Read] of a [uint32] and of an [int64], little-endian. *)
Definition read_uint32 (r : list byte) : outcome (Z * list byte) :=
  '(buf, rest) ← io_ReadFull r 4;
  Ok (le_word32 buf, rest).

Definition read_int64 (r : list byte) : outcome (Z * list byte) :=
  '(buf, rest) ← io_ReadFull r 8;
  Ok (wrap64 (le_word64 buf), rest).

Module TransferManager.

(** A row of the transfer history, as [recordTransfer] makes it. *)
Record TransferHistory : Type := mkTransferHistory {
  PeerID : string;
  FilePath : string;
  FileSize : Z;
  Direction : string;
  Status : string
}.

Definition recordTransfer (peerID filePath : string) (fileSize : Z)
    (direction status : string) : TransferHistory :=
  mkTransferHistory peerID filePath fileSize direction status.

Definition demoKey : string := "temporary-key-for-demo-purposes".

(** The receiver's key: 32 zero bytes with the demonstration key copied
    over them. *)
Definition receiverKey : list byte :=
  copy (repeat x00 32) (bytes_of_string demoKey).

(** The sender's key.  [io.ReadFull(file, key)] fills the key from the
    file: with 32 bytes or more to read, the key is the first 32 bytes of
    the file; an empty file gives [io.EOF], which is let pass, and the key
    stays zero; a shorter file gives [io.ErrUnexpectedEOF] with its bytes at
    the front of the key, and the demonstration key is copied over them. *)
Definition senderKey (file : list byte) : list byte :=
  let key := repeat x00 32 in
  match io_ReadFull file 32 with
  | Ok (buf, _) => buf
  | Err e =>
      if String.eqb e "EOF" then key
      else copy (copy key file) (bytes_of_string demoKey)
  | Panic _ => key
  end.

Section WithAEAD.
Context {aead : AESGCM}.

(** The chunk loop of [SendFile]: the frames written and the bytes fed to
    the hasher.  [buffer] is the length of the read buffer, [nonce i] the
    nonce drawn for the [i]-th chunk; the loop ends at the first read that
    returns nothing. *)
Fixpoint sendLoop (fuel : nat) (buffer : nat) (file key : list byte)
    (nonce : nat -> list byte) (i : nat) : outcome (list byte * list byte) :=
  match fuel with
  | O => Ok ([], [])
  | S fuel' =>
      match firstn buffer file with
      | [] => Ok ([], [])
      | chunk =>
          encrypted ← wrapf "failed to encrypt chunk"
                        (crypto.Encrypt chunk key (nonce i));
          '(frames, hashed) ← sendLoop fuel' buffer (skipn buffer file) key nonce (S i);
          Ok (le_bytes32 (Z.of_nat (List.length encrypted)) ++ encrypted ++ frames,
              chunk ++ hashed)
      end
  end.

(** [SendFile]: what has been written to the stream, and the row recorded. *)
Definition SendFile (peerID filePath : string) (file : list byte)
    (nonce : nat -> list byte) : outcome (list byte * TransferHistory) :=
  let fileSize := Z.of_nat (List.length file) in
  let filename := filepath.Base filePath in
  let key := senderKey file in
  '(frames, hashed) ← sendLoop (S (List.length file)) chunkBytes file key nonce 0;
  let checksum := sha256.Sum256 hashed in
  Ok (le_bytes32 (Z.of_nat (String.length filename))
      ++ bytes_of_string filename
      ++ le_bytes64 fileSize
      ++ frames ++ checksum,
      recordTransfer peerID filePath fileSize "send" "completed").

(** The chunk loop of [handleIncomingTransfer]: what has been written to
    the output file when it stops, and, when all [fileSize] bytes have
    arrived, the bytes hashed and the rest of the stream. *)
Fixpoint receiveLoop (fuel : nat) (stream key : list byte)
    (received fileSize : Z) (content : list byte)
    : list byte * option (list byte * list byte) :=
  if received <? fileSize then
    match fuel with
    | O => (content, None)
    | S fuel' =>
        match read_uint32 stream with
        | Ok (chunkSize, stream) =>
            match io_ReadFull stream (Z.to_nat chunkSize) with
            | Ok (encryptedChunk, stream) =>
                match crypto.Decrypt encryptedChunk key with
                | Ok decrypted =>
                    receiveLoop fuel' stream key
                      (wrap64 (received + Z.of_nat (List.length decrypted)))
                      fileSize (content ++ decrypted)
                | _ => (content, None)
                end
            | _ => (content, None)
            end
        | _ => (content, None)
        end
    end
  else (content, Some (content, stream)).

(** [handleIncomingTransfer]: the files of the download directory
    afterwards, and the rows recorded.  [createFails] is whether the output
    file cannot be created. *)
Definition handleIncomingTransfer (peerID downloadDir : string)
    (files : gmap string (list byte)) (stream : list byte) (createFails : bool)
    : gmap string (list byte) * list TransferHistory :=
  match read_uint32 stream with
  | Ok (filenameLen, stream) =>
    match io_ReadFull stream (Z.to_nat filenameLen) with
    | Ok (filenameBytes, stream) =>
      let filename := string_of_list_byte filenameBytes in
      match read_int64 stream with
      | Ok (fileSize, stream) =>
        let outputPath := join downloadDir filename in
        if createFails then (files, [])
        else
          let key := receiverKey in
          let '(content, done) :=
            receiveLoop (List.length stream) stream key 0 fileSize [] in
          let files := <[outputPath := content]> files in
          match done with
          | None => (files, [])
          | Some (hashed, stream) =>
              match io_ReadFull stream 32 with
              | Ok (expectedChecksum, _) =>
                  if Reference.bytes_eqb expectedChecksum (sha256.Sum256 hashed)
                  then (files,
                        [recordTransfer peerID outputPath fileSize "receive" "completed"])
                  else (delete outputPath files, [])
              | _ => (files, [])
              end
          end
      | _ => (files, [])
      end
    | _ => (files, [])
    end
  | _ => (files, [])
  end.

End WithAEAD.
End TransferManager.

(** ** Pairing (internal/sync/pairing.go) *)

(** encoding/base64, the standard encoding with padding. *)
Module base64.

Definition encodeStd : string :=
  "ABCDEFGHIJKLMNOPQRSTUVWXYZabcdefghijklmnopqrstuvwxyz0123456789+/".

Definition char (n : Z) : ascii :=
  match String.get (Z.to_nat (Z.land n 63)) encodeStd with
  | Some c => c
  | None => "="%char
  end.

Fixpoint EncodeToString (src : list byte) : string :=
  match src with
  | [] => EmptyString
  | [b0] =>
      let val := Z.shiftl (Z_of_byte b0) 16 in
      String (char (Z.shiftr val 18)) (String (char (Z.shiftr val 12)) "==")
  | [b0; b1] =>
      let val := Z.lor (Z.shiftl (Z_of_byte b0) 16) (Z.shiftl (Z_of_byte b1) 8) in
      String (char (Z.shiftr val 18))
        (String (char (Z.shiftr val 12)) (String (char (Z.shiftr val 6)) "="))
  | b0 :: b1 :: b2 :: rest =>
      let val := Z.lor (Z.lor (Z.shiftl (Z_of_byte b0) 16) (Z.shiftl (Z_of_byte b1) 8))
                       (Z_of_byte b2) in
      String (char (Z.shiftr val 18))
        (String (char (Z.shiftr val 12))
           (String (char (Z.shiftr val 6))
              (String (char val) (EncodeToString rest))))
  end.

End base64.

Module pairing.

Definition digits : string := "0123456789".

(** [rand.Int(rand.Reader, max)]: a value in [[0, max)], the [i]-th draw
    from the random source. *)
Definition rand_Int (rng : nat -> Z) (i : nat) (max : Z) : Z := rng i mod max.

(** The loop of [generatePIN] over the [n] places of the PIN left to
    fill. *)
Fixpoint fill (n : nat) (i : nat) (rng : nat -> Z) : outcome string :=
  match n with
  | O => Ok EmptyString
  | S n' =>
      let num := rand_Int rng i (Z.of_nat (String.length digits)) in
      match String.get (Z.to_nat num) digits with
      | None => Panic "runtime error: index out of range"
      | Some c =>
          rest ← fill n' (S i) rng;
          Ok (String c rest)
      end
  end.

(** [generatePIN]; [make] panics on a negative length. *)
Definition generatePIN (length : Z) (rng : nat -> Z) : outcome string :=
  if length <? 0 then Panic "runtime error: makeslice: len out of range"
  else fill (Z.to_nat length) 0 rng.

(** [generateAccountID]; the two arguments are the peer identifiers as
    [String] prints them.  Slicing the encoding to its first 32 characters
    panics when it has fewer. *)
Definition generateAccountID (peer1 peer2 : string) : outcome string :=
  let combined := peer1 +:+ peer2 in
  let encoded := base64.EncodeToString (bytes_of_string combined) in
  if (String.length encoded <? 32)%nat
  then Panic ("runtime error: slice bounds out of range [:32] with length "
              +:+ pretty (String.length encoded))
  else Ok (substring 0 32 encoded).

End pairing.

(** ** Discovery (internal/airdrop/discovery.go)

    What [mdns.Query] delivers is a list of service entries; [ScanDevices]
    collects them into the table of devices, keyed by the text of the IPv4
    address.  The time stamp of a device is left out. *)

Module discovery.

Record ServiceEntry : Type := mkServiceEntry {
  AddrV4 : option string;
  InfoFields : list string;
  EntryPort : Z;
  Host : string
}.

Record DeviceInfo : Type := mkDeviceInfo {
  Name : string;
  IP : string;
  Port : Z;
  Hostname : string
}.

(** A TXT record that carries a name: longer than five bytes, beginning
    with [name=]. *)
Definition names (txt : string) : bool :=
  (5 <? String.length txt)%nat && String.eqb (substring 0 5 txt) "name=".

(** The loop over the TXT records: the last one that carries a name
    decides, the scanning device's own name is the default. *)
Definition deviceName_of (self : string) (fields : list string) : string :=
  fold_left
    (fun deviceName txt =>
       if names txt then substring 5 (String.length txt - 5) txt else deviceName)
    fields self.

(** One turn of the loop over the entries. *)
Definition collect (self : string) (devices : gmap string DeviceInfo)
    (entry : ServiceEntry) : gmap string DeviceInfo :=
  match AddrV4 entry with
  | None => devices
  | Some ip =>
      let deviceName := deviceName_of self (InfoFields entry) in
      if String.eqb deviceName self then devices
      else <[ip := mkDeviceInfo deviceName ip (EntryPort entry) (Host entry)]> devices
  end.

(** [ScanDevices]: the table after the scan, and the devices returned (in
    the order [map_to_list] gives; Go's is not fixed). *)
Definition scan (self : string) (entries : list ServiceEntry)
    : gmap string DeviceInfo :=
  fold_left (collect self) entries ∅.

Definition ScanDevices (self : string) (entries : list ServiceEntry)
    : list DeviceInfo :=
  (map_to_list (scan self entries)).*2.

End discovery.

(** Where a device of the table comes from. *)
Definition listed_from (self : string) (entries : list discovery.ServiceEntry)
    (ip : string) (device : discovery.DeviceInfo) : Prop :=
  discovery.IP device = ip
  /\ discovery.Name device <> self
  /\ exists entry,
       entry ∈ entries
       /\ discovery.AddrV4 entry = Some ip
       /\ discovery.Name device = discovery.deviceName_of self (discovery.InfoFields entry)
       /\ discovery.Port device = discovery.EntryPort entry
       /\ discovery.Hostname device = discovery.Host entry
       /\ exists txt, txt ∈ discovery.InfoFields entry /\ discovery.names txt = true.

(** A decimal digit. *)
Definition is_digit (c : ascii) : bool :=
  existsb (Ascii.eqb c) (list_ascii_of_string "0123456789").

(** ** The client, run on the executable instances *)

Module ClientDemo.

Definition nonce (i : Z) : list byte := repeat x05 12.

Definition no_fault (i : Z) : bool := false.

Definition fault_at (j i : Z) : bool := i =? j.

(** The X25519 product of the two demonstration keys. *)
Definition shared : list byte :=
  Reference.xor_bytes Demo.client_private Demo.server_public.

(** [SendFile] of the file [docs/abc.txt] with the content [file]. *)
Definition send (s : SecureServer) (file : list byte) (fault : Z -> bool)
    : SecureServer * outcome unit :=
  SendFile (scheme := Reference.ed) (codec := Reference.json)
    (aead := Reference.aead) (dh := Reference.dh)
    Demo.identity "laptop" s "docs/abc.txt" file Demo.client_private Demo.env
    nonce fault.

(** The session the server files for it. *)
Definition session (s : SecureServer) (file : list byte) : TransferSession.t :=
  opened s Demo.identity "laptop" "docs/abc.txt" file (sha256.Sum256 shared) Demo.sid.

(** A server whose user declines every request. *)
Definition declining : SecureServer :=
  SetRequestHandler Demo.new_server (fun _ => false).

End ClientDemo.

(** ** The peer-to-peer transfer, run on the executable instances *)

Module P2PDemo.

Definition nonce (i : nat) : list byte := repeat x05 12.

(** A file of forty bytes. *)
Definition forty : list byte := repeat x41 40.

Definition send (file : list byte)
    : outcome (list byte * TransferManager.TransferHistory) :=
  TransferManager.SendFile (aead := Reference.aead) "12D3KooWsender"
    "docs/abc.txt" file nonce.

Definition receive (stream : list byte)
    : gmap string (list byte) * list TransferManager.TransferHistory :=
  TransferManager.handleIncomingTransfer (aead := Reference.aead)
    "12D3KooWsender" "downloads" ∅ stream false.

End P2PDemo.

(** * Properties *)

(** ** SHA-256 test vectors *)

Example sha256_abc :
  hex.EncodeToString (sha256.Sum256 (bytes_of_string "abc"))
  = "ba7816bf8f01cfea414140de5dae2223b00361a396177a9cb410ff61f20015ad"%string.
Proof. vm_compute. reflexivity. Qed.

Example sha256_empty :
  hex.EncodeToString (sha256.Sum256 [])
  = "e3b0c44298fc1c149afbf4c8996fb92427ae41e4649b934ca495991b7852b855"%string.
Proof. vm_compute. reflexivity. Qed.

Lemma Sum256_length (data : list byte) : List.length (sha256.Sum256 data) = 32%nat.
Proof. reflexivity. Qed.

(** ** Chunk counts *)

Lemma wrap64_small (z : Z) : - 2^63 <= z < 2^63 -> wrap64 z = z.
Proof.
  intros Hz. unfold wrap64.
  rewrite Z.mod_small by lia. lia.
Qed.

Lemma totalChunks_nonneg (s : Z) :
  0 <= s < 2^63 ->
  handleHandshake_totalChunks s
  = if s mod 4194304 =? 0 then s / 4194304 else s / 4194304 + 1.
Proof.
  intros Hs. unfold handleHandshake_totalChunks, div64, rem64.
  change (4 * 1024 * 1024) with 4194304.
  rewrite Z.quot_div_nonneg, Z.rem_mod_nonneg by lia.
  assert (Hq : 0 <= s / 4194304 < 2^41).
  { split; [apply Z.div_pos; lia | apply Z.div_lt_upper_bound; lia]. }
  rewrite wrap64_small by lia.
  destruct (s mod 4194304 =? 0); [reflexivity | apply wrap64_small; lia].
Qed.

Lemma ceil_div_chunks (s : Z) :
  ceil_div s CHUNK_SIZE
  = if s mod 4194304 =? 0 then s / 4194304 else s / 4194304 + 1.
Proof.
  unfold ceil_div, CHUNK_SIZE.
  destruct (Z.eqb_spec (s mod 4194304) 0) as [H0 | Hn0].
  - rewrite Z.div_opp_l_z by lia. lia.
  - rewrite Z.div_opp_l_nz by lia. lia.
Qed.

(** C6. For a file size [s] that a Go [int64] can hold and that is not
    negative, the client's [SendFile] and the server's [handleHandshake]
    compute the same number of chunks, and that number is the ceiling of
    [s / 4194304]. *)
Theorem total_chunks_agree (s : Z) :
  0 <= s < 2^63 ->
  SendFile_totalChunks s = handleHandshake_totalChunks s
  /\ handleHandshake_totalChunks s = ceil_div s CHUNK_SIZE.
Proof.
  intros Hs. split.
  - reflexivity.
  - rewrite totalChunks_nonneg by exact Hs. symmetry. apply ceil_div_chunks.
Qed.

Lemma total_chunks_agree_witness :
  (0 <= 6291456 < 2^63)
  /\ SendFile_totalChunks 6291456 = handleHandshake_totalChunks 6291456
  /\ handleHandshake_totalChunks 6291456 = ceil_div 6291456 CHUNK_SIZE.
Proof.
  split; [lia | apply (total_chunks_agree 6291456); lia].
Defined.

Example totalChunks_6MiB : handleHandshake_totalChunks 6291456 = 2.
Proof. reflexivity. Qed.

Example totalChunks_exact_multiple : handleHandshake_totalChunks (3 * 4194304) = 3.
Proof. reflexivity. Qed.

Example totalChunks_zero : handleHandshake_totalChunks 0 = 0.
Proof. reflexivity. Qed.

(** ** The fingerprint *)

Lemma digit_lower_hex (n : N) : lower_hex_or_colon (hex.digit n) = true.
Proof.
  unfold hex.digit. generalize (N.to_nat n) as k. intros k.
  do 17 (destruct k as [| k]; [reflexivity |]).
  reflexivity.
Qed.

Lemma fingerprint_of_hash (h : list byte) :
  List.length h = 32%nat ->
  let fingerprint := hex.EncodeToString h in
  let formatted :=
    formatFingerprint (String.length fingerprint) fingerprint 0 EmptyString in
  formatted
  = String.concat ":" (map (fun b => hex.EncodeToString [b]) (firstn 16 h))
  /\ String.length formatted = 47%nat
  /\ forallb lower_hex_or_colon (list_ascii_of_string formatted) = true.
Proof.
  intros Hlen.
  do 32 (destruct h as [| ? h]; [discriminate Hlen |]).
  destruct h; [| discriminate Hlen].
  cbv zeta. split; [reflexivity | split; [reflexivity |]].
  cbv -[lower_hex_or_colon hex.digit N.shiftr N.land Byte.to_N andb].
  rewrite !digit_lower_hex. reflexivity.
Qed.

Lemma append_inj_l (p a b : string) : p +:+ a = p +:+ b -> a = b.
Proof.
  induction p as [| c p IH]; cbn; intros H; [exact H |].
  injection H as H. apply IH, H.
Qed.

Lemma key_paths_differ (dataDir : string) :
  join dataDir "device.pub" <> join dataDir "device.key".
Proof.
  unfold join. intros H. apply append_inj_l in H. discriminate H.
Qed.

Section IdentityFacts.
Context {scheme : Ed25519}.

Lemma LoadOrGenerateIdentity_fingerprint dataDir fs seed :
  let id := (LoadOrGenerateIdentity dataDir fs seed).1 in
  Fingerprint id = generateFingerprint (PublicKey id).
Proof.
  unfold LoadOrGenerateIdentity.
  destruct (fs !! join dataDir "device.pub"), (fs !! join dataDir "device.key");
    reflexivity.
Qed.

Lemma LoadOrGenerateIdentity_stable dataDir fs seed seed' :
  let r := LoadOrGenerateIdentity dataDir fs seed in
  LoadOrGenerateIdentity dataDir r.2 seed' = r.
Proof.
  pose proof (key_paths_differ dataDir) as Hne.
  cbv zeta. unfold LoadOrGenerateIdentity.
  destruct (fs !! join dataDir "device.pub") as [pub |] eqn:Hpub;
    [destruct (fs !! join dataDir "device.key") as [priv |] eqn:Hpriv |];
    cbn [fst snd].
  - rewrite Hpub, Hpriv. reflexivity.
  - rewrite lookup_insert_ne by congruence.
    rewrite !lookup_insert_eq. reflexivity.
  - rewrite lookup_insert_ne by congruence.
    rewrite !lookup_insert_eq. reflexivity.
Qed.

(** C7. The fingerprint of a public key is the first sixteen bytes of its
    SHA-256, each as two lowercase hex digits, joined by colons: 47
    characters, all of them lowercase hex digits or colons.  Whatever
    [LoadOrGenerateIdentity] returned (keys read from the two files, or
    freshly generated and saved), its fingerprint is [generateFingerprint]
    of its public key, and loading again from the files it left returns the
    identical identity, fingerprint included. *)
Theorem fingerprint_pure_and_stable :
  (forall pubKey : list byte,
     generateFingerprint pubKey = fingerprint_spec pubKey
     /\ String.length (generateFingerprint pubKey) = 47%nat
     /\ forallb lower_hex_or_colon
          (list_ascii_of_string (generateFingerprint pubKey)) = true)
  /\ (forall dataDir fs seed seed',
        let r := LoadOrGenerateIdentity dataDir fs seed in
        Fingerprint r.1 = generateFingerprint (PublicKey r.1)
        /\ LoadOrGenerateIdentity dataDir r.2 seed' = r).
Proof.
  split.
  - intros pubKey.
    apply (fingerprint_of_hash (sha256.Sum256 pubKey) (Sum256_length pubKey)).
  - intros dataDir fs seed seed'. split.
    + apply LoadOrGenerateIdentity_fingerprint.
    + apply LoadOrGenerateIdentity_stable.
Qed.

End IdentityFacts.

Example fingerprint_of_zero_key :
  generateFingerprint (repeat x00 32)
  = "66:68:7a:ad:f8:62:bd:77:6c:8f:c1:8b:8e:9f:8e:20"%string.
Proof. vm_compute. reflexivity. Qed.

(** ** The signed handshake request *)

Section HandshakeFacts.
Context {scheme : Ed25519} {codec : HandshakeJSON}.

Lemma GenerateIdentity_generated_keys (seed : list byte) :
  List.length seed = 32%nat -> generated_keys (GenerateIdentity seed).
Proof. intros Hlen. exists seed. repeat split. exact Hlen. Qed.

(** Started on a directory that lacks a key file, [LoadOrGenerateIdentity]
    returns generated keys; later loads return the same identity. *)
Lemma LoadOrGenerateIdentity_generated_keys dataDir fs (seed : list byte) :
  List.length seed = 32%nat ->
  fs !! join dataDir "device.pub" = None \/ fs !! join dataDir "device.key" = None ->
  generated_keys (LoadOrGenerateIdentity dataDir fs seed).1.
Proof.
  intros Hlen Hnone. unfold LoadOrGenerateIdentity.
  destruct (fs !! join dataDir "device.pub"), (fs !! join dataDir "device.key");
    try (apply GenerateIdentity_generated_keys, Hlen).
  destruct Hnone; discriminate.
Qed.

Lemma with_Signature_None (req : HandshakeRequest) sig :
  with_Signature (with_Signature req sig) None = with_Signature req None.
Proof. reflexivity. Qed.

(** C8. For an identity with generated keys, [CreateHandshakeRequest]
    returns a request whose signature is the identity's signature over the
    serialization of that same request with the signature field nil, and
    [VerifyHandshakeRequest] on it with the identity's public key answers
    true and leaves the request as it was. *)
Theorem handshake_sign_verify (identity : DeviceIdentity) (deviceName : string)
    (ephemeralPubKey : list byte) (metadata : FileMetadata) :
  generated_keys identity ->
  exists req sig,
    CreateHandshakeRequest identity deviceName ephemeralPubKey metadata = Ok req
    /\ Signature req = Some sig
    /\ Sign identity (json_Marshal (with_Signature req None)) = Ok sig
    /\ VerifyHandshakeRequest req (PublicKey identity) = (Ok true, req).
Proof.
  intros (seed & Hlen & Hpub & Hpriv).
  set (req0 := mkHandshakeRequest deviceName (Fingerprint identity)
                 ephemeralPubKey metadata None).
  set (sig := ed_sign (PrivateKey identity) (json_Marshal req0)).
  assert (Hsign : forall data,
             Sign identity data = Ok (ed_sign (PrivateKey identity) data)).
  { intros data. unfold Sign, ed25519.Sign.
    rewrite Hpriv, length_app, Hlen, ed_public_length. reflexivity. }
  exists (with_Signature req0 (Some sig)), sig.
  split; [| split; [| split]].
  - unfold CreateHandshakeRequest. fold req0. rewrite Hsign. reflexivity.
  - reflexivity.
  - rewrite with_Signature_None. apply Hsign.
  - unfold VerifyHandshakeRequest, VerifySignature, ed25519.Verify.
    rewrite with_Signature_None.
    change (with_Signature req0 None) with req0.
    change (default [] (Signature (with_Signature req0 (Some sig)))) with sig.
    change (with_Signature req0 (Signature (with_Signature req0 (Some sig))))
      with (with_Signature req0 (Some sig)).
    rewrite Hpub, ed_public_length. cbn [Nat.eqb ed25519.PublicKeySize].
    unfold sig. rewrite ed_sign_length. cbn [Nat.eqb ed25519.SignatureSize andb].
    rewrite Hpriv, ed_sign_verify by exact Hlen. reflexivity.
Qed.

End HandshakeFacts.

Lemma handshake_sign_verify_witness :
  generated_keys (scheme := Reference.ed) Demo.identity
  /\ exists req sig,
       CreateHandshakeRequest (scheme := Reference.ed) (codec := Reference.json)
         Demo.identity "laptop" (repeat x01 32) Demo.metadata = Ok req
       /\ Signature req = Some sig
       /\ Sign (scheme := Reference.ed) Demo.identity
            (json_Marshal (HandshakeJSON := Reference.json)
               (with_Signature req None)) = Ok sig
       /\ VerifyHandshakeRequest (scheme := Reference.ed) (codec := Reference.json)
            req (PublicKey Demo.identity) = (Ok true, req).
Proof.
  assert (H : generated_keys (scheme := Reference.ed) Demo.identity).
  { exists Demo.seed. repeat split. }
  split; [exact H |].
  exact (handshake_sign_verify (scheme := Reference.ed) (codec := Reference.json)
           Demo.identity "laptop" (repeat x01 32) Demo.metadata H).
Defined.

(** ** The chunk handler *)

Lemma WriteAt_Ok (f : OsFile) (b : list byte) (off : Z) (fault : bool) (f' : OsFile) :
  WriteAt f b off fault = Ok f' <->
  closed f = false /\ 0 <= off /\ fault = false
  /\ f' = mkOsFile (written f ++ [(off, b)]) false.
Proof.
  unfold WriteAt.
  destruct (closed f), (Z.ltb_spec off 0), fault; split;
    try discriminate; try (intros (? & ? & ? & ?); discriminate || lia).
  - intros [= <-]. repeat split; lia.
  - intros (_ & _ & _ & ->). reflexivity.
Qed.

Lemma NewCipher_32 (key : list byte) :
  List.length key = 32%nat -> aes.NewCipher key = Ok key.
Proof. intros H. unfold aes.NewCipher. rewrite H. reflexivity. Qed.

Section ChunkFacts.
Context {aead : AESGCM} {dh : X25519}.

(** What the client seals with a session key the server opens with it. *)
Lemma DecryptChunk_EncryptChunk plaintext key nonce :
  List.length key = 32%nat -> List.length nonce = 12%nat ->
  exists encrypted,
    EncryptChunk plaintext key nonce = Ok encrypted
    /\ DecryptChunk encrypted key = Ok plaintext.
Proof.
  intros Hkey Hnonce. unfold EncryptChunk, DecryptChunk.
  rewrite (NewCipher_32 key Hkey). cbn.
  eexists. split; [reflexivity |].
  rewrite length_app, Hnonce. unfold gcmNonceSize. cbn [Nat.ltb Nat.leb Nat.add].
  rewrite take_app_length', drop_app_length' by (symmetry; exact Hnonce).
  rewrite gcm_open_seal by assumption. reflexivity.
Qed.

(** The one path through [handleChunk] that changes the server. *)
Lemma handleChunk_accepts s metadata session encryptedData decryptedData :
  sessions s !! ChunkMetadata.SessionID metadata = Some session ->
  DecryptChunk encryptedData (TransferSession.SessionKey session) = Ok decryptedData ->
  CalculateChunkChecksum decryptedData = ChunkMetadata.Checksum metadata ->
  closed (TransferSession.File session) = false ->
  0 <= wrap64 (ChunkMetadata.Index metadata * (4 * 1024 * 1024)) ->
  handleChunk s POST (Some metadata) (Some encryptedData) false
  = (accepted_chunk s metadata session decryptedData, JsonAck (success_ack metadata)).
Proof.
  intros Hs Hdec Hsum Hopen Hoff.
  unfold handleChunk, accepted_chunk. cbn [String.eqb negb]. rewrite String.eqb_refl. cbn [negb].
  rewrite Hs, Hdec, Hsum, String.eqb_refl. cbn [negb].
  pose proof (proj2 (WriteAt_Ok (TransferSession.File session) decryptedData
    (wrap64 (ChunkMetadata.Index metadata * (4 * 1024 * 1024))) false _)
    (conj Hopen (conj Hoff (conj eq_refl eq_refl)))) as Hw.
  rewrite Hw. cbn [TransferSession.TotalChunks TransferSession.received].
  destruct (_ =? _); reflexivity.
Qed.

(** Every other path leaves the server as it was and does not answer with a
    success ACK. *)
Lemma handleChunk_inv s method header body fault :
  ((handleChunk s method header body fault).1 = s
   /\ forall ack, (handleChunk s method header body fault).2 = JsonAck ack ->
                  ChunkAck.Success ack = false)
  \/ exists metadata session encryptedData decryptedData,
       method = POST /\ header = Some metadata /\ body = Some encryptedData
       /\ fault = false
       /\ sessions s !! ChunkMetadata.SessionID metadata = Some session
       /\ DecryptChunk encryptedData (TransferSession.SessionKey session)
          = Ok decryptedData
       /\ CalculateChunkChecksum decryptedData = ChunkMetadata.Checksum metadata
       /\ closed (TransferSession.File session) = false
       /\ 0 <= wrap64 (ChunkMetadata.Index metadata * (4 * 1024 * 1024))
       /\ handleChunk s method header body fault
          = (accepted_chunk s metadata session decryptedData,
             JsonAck (success_ack metadata)).
Proof.
  unfold handleChunk at 1 2.
  destruct (String.eqb_spec method POST) as [-> | Hm]; cbn [negb];
    [| left; split; [reflexivity | intros ack [=]]].
  destruct header as [metadata |]; [| left; split; [reflexivity | intros ack [=]]].
  destruct (sessions s !! ChunkMetadata.SessionID metadata) as [session |] eqn:Hs;
    [| left; split; [reflexivity | intros ack [=]]].
  destruct body as [encryptedData |]; [| left; split; [reflexivity | intros ack [=]]].
  destruct (DecryptChunk encryptedData (TransferSession.SessionKey session))
    as [decryptedData | e | p] eqn:Hdec;
    try (left; split; [reflexivity | intros ack [=]]).
  destruct (String.eqb_spec (CalculateChunkChecksum decryptedData)
              (ChunkMetadata.Checksum metadata)) as [Hsum | Hsum]; cbn [negb];
    [| left; split; [reflexivity | intros ack [= <-]; reflexivity]].
  destruct (WriteAt (TransferSession.File session) decryptedData
              (wrap64 (ChunkMetadata.Index metadata * (4 * 1024 * 1024))) fault)
    as [file | e | p] eqn:Hw;
    try (left; split; [reflexivity | intros ack [= <-]; reflexivity]).
  apply WriteAt_Ok in Hw as (Hopen & Hoff & -> & ->).
  right. exists metadata, session, encryptedData, decryptedData.
  repeat (split; [first [reflexivity | assumption] |]).
  apply handleChunk_accepts; assumption.
Qed.

End ChunkFacts.

Example demo_handshake_accepted :
  (Demo.step Demo.new_server (HandshakeReq POST (Some (Demo.request_for 6291456)) Demo.env)).2
  = JsonHandshake (mkHandshakeResponse true Demo.server_public Demo.sid "Transfer accepted").
Proof. vm_compute. reflexivity. Qed.

Example demo_keys_agree :
  TransferSession.SessionKey <$> (sessions (Demo.server_for 6291456) !! Demo.sid)
  = Some Demo.session_key.
Proof. vm_compute. reflexivity. Qed.

Example demo_transfer_completes :
  let s := Demo.steps (Demo.server_for 10) [Demo.good_chunk 0 1] in
  sessions s !! Demo.sid = None
  /\ (fun d => (written (TransferSession.File d), closed (TransferSession.File d)))
       <$> dropped s
     = [([(0, Demo.payload)], true)].
Proof. vm_compute. split; reflexivity. Qed.

Section ChunkProperties.
Context {aead : AESGCM} {dh : X25519}.

Lemma wrap64_chunk_offset (i : Z) :
  - 2^41 <= i < 2^41 -> wrap64 (i * (4 * 1024 * 1024)) = i * 4194304.
Proof. intros Hi. apply wrap64_small. lia. Qed.

(** C4, as the code has it. A chunk request answered with a success ACK
    carries decoded metadata whose index, times 4194304 and reduced to 64
    bits, is a non-negative file offset; for an index of magnitude below
    2^41 (no overflow) the index itself is therefore non-negative.  A
    request whose index lies in [-2^41, 0) leaves the server unchanged:
    nothing is written or marked.  The index is not compared with
    [TotalChunks]: on a known session with an open file, a body that
    decrypts, a matching checksum, a non-negative offset and no disk fault,
    the chunk is written and marked and the answer is the success ACK,
    whatever [TotalChunks] is. *)
Theorem chunk_ack_offset_nonneg s method header body fault :
  (forall ack,
     (handleChunk s method header body fault).2 = JsonAck ack ->
     ChunkAck.Success ack = true ->
     exists metadata,
       header = Some metadata
       /\ ChunkAck.Index ack = ChunkMetadata.Index metadata
       /\ 0 <= wrap64 (ChunkMetadata.Index metadata * 4194304)
       /\ (- 2^41 <= ChunkMetadata.Index metadata < 2^41 ->
           0 <= ChunkMetadata.Index metadata))
  /\ (forall metadata,
        header = Some metadata ->
        - 2^41 <= ChunkMetadata.Index metadata < 0 ->
        (handleChunk s method header body fault).1 = s)
  /\ (forall metadata session encryptedData decryptedData,
        method = POST -> header = Some metadata -> body = Some encryptedData ->
        fault = false ->
        sessions s !! ChunkMetadata.SessionID metadata = Some session ->
        DecryptChunk encryptedData (TransferSession.SessionKey session)
        = Ok decryptedData ->
        CalculateChunkChecksum decryptedData = ChunkMetadata.Checksum metadata ->
        closed (TransferSession.File session) = false ->
        0 <= wrap64 (ChunkMetadata.Index metadata * 4194304) ->
        handleChunk s method header body fault
        = (accepted_chunk s metadata session decryptedData,
           JsonAck (success_ack metadata))).
Proof.
  split; [| split].
  - intros ack Hack Hok.
    destruct (handleChunk_inv s method header body fault)
      as [[_ Hfail] | (metadata & session & enc & data & -> & -> & -> & ->
                       & Hs & Hdec & Hsum & Hopen & Hoff & Hrun)].
    + rewrite (Hfail ack Hack) in Hok. discriminate.
    + rewrite Hrun in Hack. cbn in Hack. injection Hack as <-.
      exists metadata. repeat split; [exact Hoff |].
      intros Hi. rewrite wrap64_chunk_offset in Hoff by exact Hi. lia.
  - intros metadata' Hheader Hi.
    destruct (handleChunk_inv s method header body fault)
      as [[Hsame _] | (metadata & session & enc & data & -> & -> & -> & ->
                       & Hs & Hdec & Hsum & Hopen & Hoff & Hrun)];
      [exact Hsame |].
    injection Hheader as <-.
    rewrite wrap64_chunk_offset in Hoff by lia. lia.
  - intros metadata session enc data -> -> -> -> Hs Hdec Hsum Hopen Hoff.
    apply handleChunk_accepts; assumption.
Qed.

(** C5. On a known session, when the body decrypts and the SHA-256 of the
    plaintext differs from the checksum in the metadata, the answer is the
    ACK with [success = false] and the error text [Checksum mismatch], and
    the server, the session's file included, is unchanged.  And whatever a
    chunk request is, it either leaves the server unchanged or appends to
    the session's file one write, of the plaintext its body decrypts to,
    whose SHA-256 equals the checksum the sender declared. *)
Theorem checksum_mismatch_not_written s metadata session encryptedData decryptedData fault :
  sessions s !! ChunkMetadata.SessionID metadata = Some session ->
  DecryptChunk encryptedData (TransferSession.SessionKey session) = Ok decryptedData ->
  CalculateChunkChecksum decryptedData <> ChunkMetadata.Checksum metadata ->
  handleChunk s POST (Some metadata) (Some encryptedData) fault
  = (s, JsonAck (ChunkAck.mk (ChunkMetadata.Index metadata)
                   (ChunkMetadata.SessionID metadata) false "Checksum mismatch"))
  /\ (forall method' header' body' fault',
        (handleChunk s method' header' body' fault').1 = s
        \/ exists metadata' session' encrypted' data',
             header' = Some metadata' /\ body' = Some encrypted'
             /\ sessions s !! ChunkMetadata.SessionID metadata' = Some session'
             /\ DecryptChunk encrypted' (TransferSession.SessionKey session') = Ok data'
             /\ CalculateChunkChecksum data' = ChunkMetadata.Checksum metadata'
             /\ (handleChunk s method' header' body' fault').1
                = accepted_chunk s metadata' session' data').
Proof.
  intros Hs Hdec Hsum. split.
  - unfold handleChunk. rewrite String.eqb_refl. cbn [negb].
    rewrite Hs, Hdec.
    destruct (String.eqb_spec (CalculateChunkChecksum decryptedData)
                (ChunkMetadata.Checksum metadata)) as [Heq | _];
      [contradiction | reflexivity].
  - intros method' header' body' fault'.
    destruct (handleChunk_inv s method' header' body' fault')
      as [[Hsame _] | (metadata' & session' & enc' & data' & _ & -> & -> & _
                       & Hs' & Hdec' & Hsum' & _ & _ & Hrun)].
    + left. exact Hsame.
    + right. exists metadata', session', enc', data'.
      rewrite Hrun. repeat split; assumption.
Qed.

End ChunkProperties.

(** C4, as the specification states it, fails: a session of two chunks,
    and a well-sealed chunk with a matching checksum and index 7.  The
    server answers with a success ACK, writes the plaintext at offset
    7 * 4194304 and marks index 7 received. *)
Lemma chunk_index_beyond_total_accepted :
  TransferSession.TotalChunks <$> (sessions (Demo.server_for 6291456) !! Demo.sid)
  = Some 2
  /\ (Demo.step (Demo.server_for 6291456) (Demo.good_chunk 7 2)).2
     = JsonAck (ChunkAck.mk 7 Demo.sid true EmptyString)
  /\ (fun d => (TransferSession.ReceivedChunks d !! 7,
                written (TransferSession.File d)))
       <$> (sessions (Demo.step (Demo.server_for 6291456) (Demo.good_chunk 7 2)).1
              !! Demo.sid)
     = Some (Some true, [(29360128, Demo.payload)])
  /\ ~ (0 <= 7 < 2).
Proof.
  split; [vm_compute; reflexivity |].
  split; [vm_compute; reflexivity |].
  split; [vm_compute; reflexivity | lia].
Qed.

(** With a single chunk expected, one chunk of index 5 even completes the
    transfer: the session is dropped and its file closed, with the data at
    offset 5 * 4194304 and nothing at offset 0. *)
Example stray_chunk_completes_transfer :
  let s := Demo.steps (Demo.server_for 10) [Demo.good_chunk 5 1] in
  sessions s !! Demo.sid = None
  /\ (fun d => (written (TransferSession.File d), closed (TransferSession.File d)))
       <$> dropped s
     = [([(20971520, Demo.payload)], true)].
Proof. vm_compute. split; reflexivity. Qed.

Lemma chunk_ack_offset_nonneg_witness :
  (exists metadata,
      Some (ChunkMetadata.mk 7 2 10 (CalculateChunkChecksum Demo.payload) Demo.sid)
      = Some metadata
      /\ 7 = ChunkMetadata.Index metadata
      /\ 0 <= wrap64 (ChunkMetadata.Index metadata * 4194304)
      /\ (- 2^41 <= ChunkMetadata.Index metadata < 2^41 ->
          0 <= ChunkMetadata.Index metadata))
  /\ (Demo.step (Demo.server_for 6291456) (Demo.good_chunk (-1) 2)).1
     = Demo.server_for 6291456
  /\ (exists session,
        sessions (Demo.server_for 6291456) !! Demo.sid = Some session
        /\ TransferSession.TotalChunks session = 2
        /\ Demo.step (Demo.server_for 6291456) (Demo.good_chunk 7 2)
           = (accepted_chunk (Demo.server_for 6291456) Demo.metadata_7 session
                Demo.payload,
              JsonAck (success_ack Demo.metadata_7))).
Proof.
  split; [| split].
  - apply (proj1 (chunk_ack_offset_nonneg (aead := Reference.aead)
                    (Demo.server_for 6291456) POST
                    (Some (ChunkMetadata.mk 7 2 10
                             (CalculateChunkChecksum Demo.payload) Demo.sid))
                    (Some (Demo.sealed Demo.payload)) false)
             (ChunkAck.mk 7 Demo.sid true EmptyString)).
    + vm_compute. reflexivity.
    + reflexivity.
  - apply (proj1 (proj2 (chunk_ack_offset_nonneg (aead := Reference.aead)
                    (Demo.server_for 6291456) POST
                    (Some (ChunkMetadata.mk (-1) 2 10
                             (CalculateChunkChecksum Demo.payload) Demo.sid))
                    (Some (Demo.sealed Demo.payload)) false))
             _ eq_refl).
    cbn. lia.
  - assert (Hs : exists session,
               sessions (Demo.server_for 6291456) !! Demo.sid = Some session
               /\ TransferSession.TotalChunks session = 2
               /\ TransferSession.SessionKey session = Demo.session_key
               /\ closed (TransferSession.File session) = false).
    { vm_compute. eexists. repeat split. }
    destruct Hs as (session & Hs & Htotal & Hkey & Hopen).
    exists session. split; [exact Hs |]. split; [exact Htotal |].
    refine (proj2 (proj2 (chunk_ack_offset_nonneg (aead := Reference.aead)
                            (Demo.server_for 6291456) POST (Some Demo.metadata_7)
                            (Some (Demo.sealed Demo.payload)) false))
              Demo.metadata_7 session (Demo.sealed Demo.payload) Demo.payload
              eq_refl eq_refl eq_refl eq_refl Hs _ eq_refl Hopen _).
    + rewrite Hkey. vm_compute. reflexivity.
    + vm_compute. discriminate.
Defined.

Lemma checksum_mismatch_not_written_witness :
  Demo.step (Demo.server_for 6291456) (Demo.chunk 1 2 Demo.payload Demo.wrong_checksum)
  = (Demo.server_for 6291456,
     JsonAck (ChunkAck.mk 1 Demo.sid false "Checksum mismatch")).
Proof.
  assert (Hs : exists session,
             sessions (Demo.server_for 6291456) !! Demo.sid = Some session
             /\ TransferSession.SessionKey session = Demo.session_key).
  { vm_compute. eexists. split; reflexivity. }
  destruct Hs as (session & Hs & Hkey).
  refine (proj1 (checksum_mismatch_not_written (aead := Reference.aead)
                   (Demo.server_for 6291456)
                   (ChunkMetadata.mk 1 2 10 Demo.wrong_checksum Demo.sid)
                   session (Demo.sealed Demo.payload) Demo.payload false Hs _ _)).
  - rewrite Hkey. vm_compute. reflexivity.
  - vm_compute. discriminate.
Defined.

(** ** Sessions over the life of a server *)

Section SessionFacts.
Context {aead : AESGCM} {dh : X25519}.

Lemma handleHandshake_inv s method body env :
  (handleHandshake s method body env).1 = s
  /\ (forall resp, (handleHandshake s method body env).2 = JsonHandshake resp ->
                   Accepted resp = false)
  \/ exists req privKey pubKey sessionKey,
       method = POST /\ body = Some req
       /\ GenerateEphemeralKey (ephemeralPrivate env) = Ok (privKey, pubKey)
       /\ DeriveSharedSecret privKey (EphemeralPubKey req) = Ok sessionKey
       /\ handleHandshake s method body env
          = (with_sessions s
               (<[newUUID env :=
                    TransferSession.mk (newUUID env) (DeviceName req)
                      (DeviceFingerprint req) (ReqFileMetadata req) sessionKey
                      (handleHandshake_totalChunks (Size (ReqFileMetadata req))) ∅
                      (join (downloadDir s) (Name (ReqFileMetadata req)))
                      os_Create]> (sessions s)),
             JsonHandshake
               (mkHandshakeResponse true pubKey (newUUID env) "Transfer accepted")).
Proof.
  unfold handleHandshake at 1 2.
  destruct (String.eqb_spec method POST) as [-> | Hm]; cbn [negb];
    [| left; split; [reflexivity | intros resp [=]]].
  destruct body as [req |]; [| left; split; [reflexivity | intros resp [=]]].
  destruct (onRequest s req) eqn:Hacc; cbn [negb];
    [| left; split; [reflexivity | intros resp [= <-]; reflexivity]].
  destruct (GenerateEphemeralKey (ephemeralPrivate env)) as [[privKey pubKey] | e | p] eqn:Hgen;
    try (left; split; [reflexivity | intros resp [=]]).
  destruct (DeriveSharedSecret privKey (EphemeralPubKey req)) as [sessionKey | e | p] eqn:Hkey;
    try (left; split; [reflexivity | intros resp [=]]).
  destruct (createFails env) eqn:Hcreate;
    [left; split; [reflexivity | intros resp [=]] |].
  right. exists req, privKey, pubKey, sessionKey.
  repeat (split; [first [reflexivity | assumption] |]).
  unfold handleHandshake. rewrite String.eqb_refl, Hacc, Hgen, Hkey, Hcreate.
  reflexivity.
Qed.

Lemma size_insert_pos (m : gmap Z bool) (i : Z) (b : bool) :
  size (<[i := b]> m) <> 0%nat.
Proof.
  intros H. apply map_size_empty_iff in H.
  exact (insert_non_empty m i b H).
Qed.

Lemma accepted_chunk_ok s metadata session data :
  server_ok s ->
  sessions s !! ChunkMetadata.SessionID metadata = Some session ->
  0 <= wrap64 (ChunkMetadata.Index metadata * (4 * 1024 * 1024)) ->
  server_ok (accepted_chunk s metadata session data).
Proof.
  intros Hok Hs Hoff sessionID session'. unfold accepted_chunk.
  destruct (Z.eqb_spec
    (Z.of_nat (size (<[ChunkMetadata.Index metadata := true]>
                       (TransferSession.ReceivedChunks session))))
    (TransferSession.TotalChunks session)) as [Heq | Hne]; cbn [sessions complete with_sessions].
  - intros Hl. apply lookup_delete_Some in Hl as [_ Hl]. exact (Hok _ _ Hl).
  - destruct (decide (ChunkMetadata.SessionID metadata = sessionID)) as [<- | Hother].
    + rewrite lookup_insert_eq. intros [= <-].
      destruct (Hok _ _ Hs) as [Hopen Hmarked _]. split; cbn.
      * reflexivity.
      * intros i b.
        destruct (decide (ChunkMetadata.Index metadata = i)) as [<- | Hi].
        -- rewrite lookup_insert_eq. intros [= <-]. split; [reflexivity | exact Hoff].
        -- rewrite lookup_insert_ne by exact Hi. apply Hmarked.
      * right. exact Hne.
    + rewrite lookup_insert_ne by exact Hother. apply Hok.
Qed.

Lemma serve_ok s r : server_ok s -> server_ok (serve s r).1.
Proof.
  intros Hok. destruct r as [| method body env | method header body fault | sessionID];
    cbn [serve fst]; try exact Hok.
  - destruct (handleHandshake_inv s method body env)
      as [[-> _] | (req & privKey & pubKey & sessionKey & _ & _ & _ & _ & ->)];
      [exact Hok |].
    cbn [fst]. intros sessionID session. cbn [sessions with_sessions].
    destruct (decide (newUUID env = sessionID)) as [<- | Hother].
    + rewrite lookup_insert_eq. intros [= <-]. split; cbn.
      * reflexivity.
      * intros i b. rewrite lookup_empty. discriminate.
      * left. apply map_size_empty.
    + rewrite lookup_insert_ne by exact Hother. apply Hok.
  - destruct (handleChunk_inv s method header body fault)
      as [[-> _] | (metadata & session & enc & data & _ & _ & _ & _
                    & Hs & _ & _ & _ & Hoff & ->)];
      [exact Hok |].
    cbn [fst]. apply accepted_chunk_ok; assumption.
Qed.

Lemma reachable_ok s : reachable s -> server_ok s.
Proof.
  induction 1 as [downloadDir deviceName fingerprint | s handler _ IH | s r _ IH].
  - intros sessionID session. cbn. rewrite lookup_empty. discriminate.
  - exact IH.
  - apply serve_ok, IH.
Qed.

(** A session that needs zero chunks survives every request that is not a
    handshake. *)
Lemma zero_session_stays (rs : list request) :
  forall s sessionID session,
    forallb no_handshake rs = true ->
    sessions s !! sessionID = Some session ->
    TransferSession.TotalChunks session = 0 ->
    closed (TransferSession.File session) = false ->
    exists session',
      sessions (serve_all s rs) !! sessionID = Some session'
      /\ TransferSession.TotalChunks session' = 0
      /\ closed (TransferSession.File session') = false.
Proof.
  induction rs as [| r rs IH]; intros s sessionID session Hrs Hs Hzero Hopen.
  - exists session. repeat split; assumption.
  - cbn [forallb] in Hrs. apply andb_true_iff in Hrs as [Hr Hrs].
    unfold serve_all. cbn [fold_left]. fold (serve_all (serve s r).1 rs).
    destruct r as [| method body env | method header body fault | sid'];
      cbn [serve fst]; try discriminate Hr; try (eapply IH; eassumption).
    destruct (handleChunk_inv s method header body fault)
      as [[-> _] | (metadata & session0 & enc & data & _ & _ & _ & _
                    & Hs0 & _ & _ & _ & _ & ->)];
      [eapply IH; eassumption |].
    cbn [fst]. unfold accepted_chunk.
    destruct (decide (ChunkMetadata.SessionID metadata = sessionID)) as [Hsame | Hother].
    + rewrite Hsame in Hs0 |- *. rewrite Hs in Hs0. injection Hs0 as <-.
      rewrite Hzero.
      destruct (Z.eqb_spec
        (Z.of_nat (size (<[ChunkMetadata.Index metadata := true]>
                           (TransferSession.ReceivedChunks session)))) 0) as [Heq | _].
      * exfalso. apply (size_insert_pos (TransferSession.ReceivedChunks session)
                          (ChunkMetadata.Index metadata) true). lia.
      * eapply IH; [exact Hrs | cbn; apply lookup_insert_eq | exact Hzero | reflexivity].
    + destruct (_ =? _).
      * eapply IH; [exact Hrs | | exact Hzero | exact Hopen].
        cbn. rewrite lookup_delete_ne by exact Hother. exact Hs.
      * eapply IH; [exact Hrs | | exact Hzero | exact Hopen].
        cbn. rewrite lookup_insert_ne by exact Hother. exact Hs.
Qed.


(** C10. In a server reachable from [NewSecureServer], posting again a
    chunk whose index the session has already marked, well sealed, with a
    matching checksum and no disk fault, is answered with the success ACK;
    the session stays in the table with the same set of marked indices and
    the same [TotalChunks], no session is dropped, and the completion test
    (count of marked indices equal to [TotalChunks]) is false before and
    after, as it was when the chunk was first delivered. *)
Theorem repost_is_idempotent s metadata session encryptedData decryptedData :
  reachable s ->
  sessions s !! ChunkMetadata.SessionID metadata = Some session ->
  TransferSession.ReceivedChunks session !! ChunkMetadata.Index metadata = Some true ->
  DecryptChunk encryptedData (TransferSession.SessionKey session) = Ok decryptedData ->
  CalculateChunkChecksum decryptedData = ChunkMetadata.Checksum metadata ->
  exists session',
    handleChunk s POST (Some metadata) (Some encryptedData) false
    = (with_sessions s (<[ChunkMetadata.SessionID metadata := session']> (sessions s)),
       JsonAck (success_ack metadata))
    /\ TransferSession.ReceivedChunks session' = TransferSession.ReceivedChunks session
    /\ size (TransferSession.ReceivedChunks session')
       = size (TransferSession.ReceivedChunks session)
    /\ TransferSession.TotalChunks session' = TransferSession.TotalChunks session
    /\ (Z.of_nat (size (TransferSession.ReceivedChunks session))
        =? TransferSession.TotalChunks session) = false
    /\ (Z.of_nat (size (TransferSession.ReceivedChunks session'))
        =? TransferSession.TotalChunks session') = false.
Proof.
  intros Hreach Hs Hmarked Hdec Hsum.
  destruct (reachable_ok s Hreach _ _ Hs) as [Hopen Hoff Hcount].
  destruct (Hoff _ _ Hmarked) as [_ Hoff'].
  rewrite (handleChunk_accepts s metadata session encryptedData decryptedData)
    by assumption.
  unfold accepted_chunk. rewrite (insert_id _ _ _ Hmarked).
  assert (Hne : Z.of_nat (size (TransferSession.ReceivedChunks session))
                <> TransferSession.TotalChunks session).
  { destruct Hcount as [Hzero | Hne]; [| exact Hne].
    apply map_size_empty_iff in Hzero. rewrite Hzero, lookup_empty in Hmarked.
    discriminate. }
  apply Z.eqb_neq in Hne. rewrite Hne.
  eexists. split; [reflexivity |]. cbn. repeat split; exact Hne.
Qed.

End SessionFacts.

Example demo_reachable (size : Z) (rs : list request) :
  reachable (aead := Reference.aead) (dh := Reference.dh)
    (Demo.steps (Demo.server_for size) rs).
Proof.
  unfold Demo.steps.
  assert (H : reachable (aead := Reference.aead) (dh := Reference.dh)
                (Demo.server_for size)).
  { apply (reachable_serve (aead := Reference.aead) (dh := Reference.dh)
             Demo.new_server (HandshakeReq POST (Some (Demo.request_for size)) Demo.env)).
    apply reachable_new. }
  revert H. generalize (Demo.server_for size) as s.
  induction rs as [| r rs IH]; intros s H; [exact H |].
  apply (IH (serve s r).1). apply reachable_serve, H.
Qed.


(** Once a chunk has been accepted for such a session the quotient is 1/0. *)
Example zero_size_session_after_a_chunk :
  match Demo.status (Demo.steps (Demo.server_for 0) [Demo.good_chunk 0 0]) with
  | JsonStatus st =>
      TransferStatus.TotalChunks st = 0
      /\ TransferStatus.ReceivedChunks st = [0]
      /\ PrimFloat.is_infinity (TransferStatus.Progress st) = true
  | _ => False
  end.
Proof. vm_compute. repeat split. Qed.

(** When the first delivery completed the transfer there is no session
    left to re-post to: the same request is then answered with status 400. *)
Example repost_after_completion :
  (Demo.step (Demo.steps (Demo.server_for 10) [Demo.good_chunk 0 1])
     (Demo.good_chunk 0 1)).2
  = HttpError 400 "Invalid session".
Proof. vm_compute. reflexivity. Qed.

Lemma repost_is_idempotent_witness :
  exists session,
    sessions Demo.after_first_chunk !! Demo.sid = Some session
    /\ TransferSession.ReceivedChunks session !! 0 = Some true
    /\ exists session',
         Demo.step Demo.after_first_chunk (Demo.good_chunk 0 2)
         = (with_sessions Demo.after_first_chunk
              (<[Demo.sid := session']> (sessions Demo.after_first_chunk)),
            JsonAck (success_ack Demo.metadata_0))
         /\ TransferSession.ReceivedChunks session'
            = TransferSession.ReceivedChunks session
         /\ size (TransferSession.ReceivedChunks session')
            = size (TransferSession.ReceivedChunks session)
         /\ TransferSession.TotalChunks session' = TransferSession.TotalChunks session
         /\ (Z.of_nat (size (TransferSession.ReceivedChunks session))
             =? TransferSession.TotalChunks session) = false
         /\ (Z.of_nat (size (TransferSession.ReceivedChunks session'))
             =? TransferSession.TotalChunks session') = false.
Proof.
  assert (Hs : exists session,
             sessions Demo.after_first_chunk !! Demo.sid = Some session
             /\ TransferSession.ReceivedChunks session !! 0 = Some true
             /\ TransferSession.SessionKey session = Demo.session_key).
  { vm_compute. eexists. repeat split. }
  destruct Hs as (session & Hs & Hmarked & Hkey).
  exists session. split; [exact Hs |]. split; [exact Hmarked |].
  refine (repost_is_idempotent (aead := Reference.aead) (dh := Reference.dh)
            Demo.after_first_chunk Demo.metadata_0 session
            (Demo.sealed Demo.payload) Demo.payload
            (demo_reachable 6291456 [Demo.good_chunk 0 2]) Hs Hmarked _ _).
  - rewrite Hkey. vm_compute. reflexivity.
  - reflexivity.
Defined.

(** ** The container engine *)

Lemma length_fixed (n : nat) (l : list byte) : List.length (fixed n l) = n.
Proof. unfold fixed. rewrite length_take, length_app, repeat_length. lia. Qed.

Lemma length_binary_Write (h : ContainerHeader.t) :
  List.length (binary_Write h) = crypto.HeaderSize.
Proof.
  unfold binary_Write. rewrite !length_app, !length_fixed. reflexivity.
Qed.

Lemma length_rand_Read (rng : nat -> byte) (pos n : nat) :
  List.length (rand_Read rng pos n) = n.
Proof. unfold rand_Read. rewrite length_map. apply length_seq. Qed.

Section ContainerFacts.
Context {kdf : Argon2} {ctr : AESCTR} {codec : TarGz}.

Lemma NewCTR_nonce (block iv : list byte) :
  List.length iv = 12%nat -> cipher.NewCTR block iv = Panic NewCTR_panic.
Proof. intros H. unfold cipher.NewCTR. rewrite H. reflexivity. Qed.

Lemma DeriveKey_cases password salt time memory threads :
  (exists msg, crypto.DeriveKey password salt time memory threads = Panic msg)
  \/ exists key,
       crypto.DeriveKey password salt time memory threads = Ok key
       /\ List.length key = 32%nat.
Proof.
  unfold crypto.DeriveKey.
  destruct (time <? 1); [left; eexists; reflexivity |].
  destruct (threads <? 1); [left; eexists; reflexivity |].
  right. eexists. split; [reflexivity | apply argon2_IDKey_length].
Qed.

(** The nonce is written, then building the CTR stream from it panics:
    twelve bytes are not a cipher block. *)
Lemma EncryptStream_panics reader key rng pos :
  List.length key = 32%nat ->
  crypto.EncryptStream reader key rng pos
  = (rand_Read rng pos 12, Panic NewCTR_panic).
Proof.
  intros Hkey. unfold crypto.EncryptStream.
  rewrite (NewCipher_32 key Hkey). cbn [wrapf].
  rewrite NewCTR_nonce by apply length_rand_Read. reflexivity.
Qed.

Lemma DecryptStream_never_Ok reader key :
  match crypto.DecryptStream reader key with
  | Ok _ => False
  | Err e =>
      e = "failed to create cipher: crypto/aes: invalid key size"
      \/ e = "failed to read nonce: EOF"
      \/ e = "failed to read nonce: unexpected EOF"
  | Panic p => p = NewCTR_panic /\ (12 <= List.length reader)%nat
  end.
Proof.
  unfold crypto.DecryptStream.
  destruct (aes.NewCipher key) as [block | e | p] eqn:Hblock; cbn.
  - unfold io_ReadFull, crypto.NonceSize.
    destruct (Nat.leb_spec 12 (List.length reader)) as [Hlen | Hlen]; cbn.
    + rewrite NewCTR_nonce by (rewrite length_take; lia). cbn. split; [reflexivity | exact Hlen].
    + destruct reader; cbn; [right; left | right; right]; reflexivity.
  - unfold aes.NewCipher in Hblock. destruct (_ || _); [discriminate |].
    injection Hblock as <-. left. reflexivity.
  - unfold aes.NewCipher in Hblock. destruct (_ || _); discriminate.
Qed.

(** How [DecryptStream] ends does not depend on the key: there is nothing
    in the stream by which a wrong key could be told from the right one. *)
Lemma DecryptStream_key_blind reader key key' :
  List.length key = 32%nat -> List.length key' = 32%nat ->
  match crypto.DecryptStream reader key, crypto.DecryptStream reader key' with
  | Err e, Err e' => e = e'
  | Panic p, Panic p' => p = p'
  | _, _ => False
  end.
Proof.
  intros Hkey Hkey'. unfold crypto.DecryptStream.
  rewrite (NewCipher_32 key Hkey), (NewCipher_32 key' Hkey'). cbn.
  unfold io_ReadFull, crypto.NonceSize.
  destruct (Nat.leb_spec 12 (List.length reader)) as [Hlen | Hlen]; cbn.
  - rewrite !NewCTR_nonce by (rewrite length_take; lia). reflexivity.
  - destruct reader; reflexivity.
Qed.

Lemma DecryptStream_nonce_only key nonce :
  List.length key = 32%nat -> List.length nonce = 12%nat ->
  crypto.DecryptStream nonce key = Panic NewCTR_panic.
Proof.
  intros Hkey Hnonce. unfold crypto.DecryptStream.
  rewrite (NewCipher_32 key Hkey). cbn.
  unfold io_ReadFull, crypto.NonceSize. rewrite Hnonce. cbn.
  rewrite NewCTR_nonce by (rewrite length_take; lia). reflexivity.
Qed.

(** What [CreateContainer] does, for every input: it panics, either in
    [argon2.IDKey] on parameters out of range, before the container file
    exists, or in [cipher.NewCTR], after the header and the nonce have been
    written. *)
Lemma CreateContainer_cases sourcePath source password time memory threads rng :
  (exists msg,
      CreateContainer sourcePath source password time memory threads rng
      = ([], Panic msg))
  \/ exists key,
       crypto.DeriveKey password (crypto.GenerateSalt rng 0) time memory threads = Ok key
       /\ CreateContainer sourcePath source password time memory threads rng
          = (binary_Write
               (ContainerHeader.mk (bytes_of_string crypto.MagicBytes) crypto.Version
                  (crypto.GenerateSalt rng 0) time memory threads [])
             ++ rand_Read rng 32 12,
             Panic NewCTR_panic).
Proof.
  unfold CreateContainer.
  destruct (DeriveKey_cases password (crypto.GenerateSalt rng 0) time memory threads)
    as [[msg ->] | (key & -> & Hkey)].
  - left. exists msg. reflexivity.
  - right. exists key. split; [reflexivity |].
    rewrite EncryptStream_panics by exact Hkey. reflexivity.
Qed.

(** C2, what the code does instead. [CreateContainer] never returns: for
    every source, password, parameters and random stream the call ends in a
    panic, so no container is produced that [ExtractContainer] could bring
    back. *)
Theorem CreateContainer_never_returns sourcePath source password time memory threads rng :
  exists written msg,
    CreateContainer sourcePath source password time memory threads rng
    = (written, Panic msg).
Proof.
  destruct (CreateContainer_cases sourcePath source password time memory threads rng)
    as [[msg ->] | (key & _ & ->)]; eauto.
Qed.

Lemma binary_Read_Write (h : ContainerHeader.t) (rest : list byte) :
  exists h',
    binary_Read (binary_Write h ++ rest) = Ok (h', rest)
    /\ ContainerHeader.Magic h' = fixed 4 (ContainerHeader.Magic h).
Proof.
  unfold binary_Read, io_ReadFull.
  pose proof (length_binary_Write h) as Hlen.
  rewrite length_app, Hlen.
  destruct (Nat.leb_spec crypto.HeaderSize (crypto.HeaderSize + List.length rest));
    [| lia].
  rewrite take_app_length', drop_app_length' by (symmetry; exact Hlen).
  cbn. eexists. split; [reflexivity |]. cbn.
  unfold binary_Write. rewrite take_app_length' by (symmetry; apply length_fixed).
  reflexivity.
Qed.

(** C1, what the code does instead. Whatever the source, the passwords, the
    parameters and the random stream, extracting the file [CreateContainer]
    leaves behind never succeeds and never fails with the wrong-password
    error either: it panics in [cipher.NewCTR], or, when no container was
    written at all, fails reading the header. *)
Theorem extraction_never_reports_wrong_password
    sourcePath source password time memory threads rng outputPath password' fs :
  match (ExtractContainer
           (CreateContainer sourcePath source password time memory threads rng).1
           outputPath password' fs).2.2 with
  | Ok _ => False
  | Err e => AuthenticationFailed e = false
  | Panic _ => True
  end.
Proof.
  destruct (CreateContainer_cases sourcePath source password time memory threads rng)
    as [[msg ->] | (key & _ & ->)]; cbn [fst].
  - reflexivity.
  - unfold ExtractContainer.
    destruct (binary_Read_Write
                (ContainerHeader.mk (bytes_of_string crypto.MagicBytes) crypto.Version
                   (crypto.GenerateSalt rng 0) time memory threads [])
                (rand_Read rng 32 12)) as (h' & -> & Hmagic).
    cbn [wrapf]. rewrite Hmagic. cbn [ContainerHeader.Magic].
    change (String.eqb (string_of_list_byte (fixed 4 (bytes_of_string crypto.MagicBytes)))
              crypto.MagicBytes) with true.
    cbn [negb snd].
    destruct (DeriveKey_cases password' (ContainerHeader.Salt h')
                (ContainerHeader.Argon2Time h') (ContainerHeader.Argon2Memory h')
                (ContainerHeader.Argon2Threads h')) as [[msg ->] | (key' & -> & Hkey')].
    + exact I.
    + rewrite DecryptStream_nonce_only by (exact Hkey' || apply length_rand_Read).
      exact I.
Qed.

(** C3, as the code has it.  Of a container whose header can be read:
    when the magic is not the four bytes [SFM\0] it is rejected with the
    invalid-format error, nothing is extracted, and [DeriveKey] is not
    called.  The version field plays no part, whatever the magic: two
    containers whose headers differ in nothing but the version, with the
    same bytes after the header, are treated alike.  So when the magic is
    right the container goes on to key derivation whatever its version:
    [DeriveKey] is called, once, on the password and on the salt and the
    parameters of the header. *)
Theorem bad_magic_rejected_before_DeriveKey container outputPath password fs header rest :
  binary_Read container = Ok (header, rest) ->
  (string_of_list_byte (ContainerHeader.Magic header) <> crypto.MagicBytes ->
   ExtractContainer container outputPath password fs
   = ([], (fs, Err "invalid container format")))
  /\ (forall container' version,
        binary_Read container'
        = Ok (ContainerHeader.mk (ContainerHeader.Magic header) version
                (ContainerHeader.Salt header) (ContainerHeader.Argon2Time header)
                (ContainerHeader.Argon2Memory header)
                (ContainerHeader.Argon2Threads header)
                (ContainerHeader.Reserved header), rest) ->
        ExtractContainer container' outputPath password fs
        = ExtractContainer container outputPath password fs)
  /\ (string_of_list_byte (ContainerHeader.Magic header) = crypto.MagicBytes ->
      (ExtractContainer container outputPath password fs).1
      = [CallDeriveKey password (ContainerHeader.Salt header)
           (ContainerHeader.Argon2Time header) (ContainerHeader.Argon2Memory header)
           (ContainerHeader.Argon2Threads header)]).
Proof.
  intros Hread. split; [| split].
  - intros Hmagic. unfold ExtractContainer. rewrite Hread. cbn [wrapf].
    destruct (String.eqb_spec (string_of_list_byte (ContainerHeader.Magic header))
                crypto.MagicBytes) as [Heq | _]; [contradiction | reflexivity].
  - intros container' version Hread'.
    unfold ExtractContainer. rewrite Hread, Hread'. reflexivity.
  - intros Hmagic. unfold ExtractContainer. rewrite Hread. cbn [wrapf].
    rewrite Hmagic, String.eqb_refl. reflexivity.
Qed.

End ContainerFacts.

Example create_hello_panics :
  ContainerDemo.create_hello.2 = Panic NewCTR_panic
  /\ List.length ContainerDemo.create_hello.1 = 76%nat.
Proof. vm_compute. split; reflexivity. Qed.

Example extract_hello_wrong_password :
  (ContainerDemo.extract ContainerDemo.create_hello.1 "Tr0ub4dor").2.2
  = Panic NewCTR_panic.
Proof. vm_compute. reflexivity. Qed.

Example extract_hello_right_password :
  (ContainerDemo.extract ContainerDemo.create_hello.1 "correct horse").2.2
  = Panic NewCTR_panic.
Proof. vm_compute. reflexivity. Qed.

(** C3, as the specification states it, fails: a header with the right
    magic and version 2.  [ExtractContainer] does not reject it as an
    invalid format; it calls [DeriveKey] and fails later, reading the
    nonce. *)
Lemma unsupported_version_reaches_DeriveKey :
  (match binary_Read (ContainerDemo.header_only crypto.MagicBytes 2) with
   | Ok (header, _) => ContainerHeader.Version header
   | _ => 0
   end) = 2
  /\ 2 <> crypto.Version
  /\ ContainerDemo.extract (ContainerDemo.header_only crypto.MagicBytes 2) "secret"
     = ([CallDeriveKey "secret" (repeat x00 32) 3 65536 4],
        (∅, Err "failed to decrypt data (wrong password?): failed to read nonce: EOF"))
  /\ InvalidFormat "failed to decrypt data (wrong password?): failed to read nonce: EOF"
     = false.
Proof.
  split; [vm_compute; reflexivity |].
  split; [discriminate |].
  split; vm_compute; reflexivity.
Qed.

Lemma bad_magic_rejected_before_DeriveKey_witness :
  ContainerDemo.extract (ContainerDemo.header_only "ZIP!" 1) "secret"
  = ([], (∅, Err "invalid container format"))
  /\ (ContainerDemo.extract (ContainerDemo.header_only crypto.MagicBytes 7) "secret").1
     = [CallDeriveKey "secret" (repeat x00 32) 3 65536 4].
Proof.
  split.
  - refine (proj1 (bad_magic_rejected_before_DeriveKey (kdf := Reference.kdf)
                     (ctr := Reference.ctr) (codec := Reference.codec)
                     (ContainerDemo.header_only "ZIP!" 1) "out" "secret" ∅
                     (ContainerHeader.mk (bytes_of_string "ZIP!") 1 (repeat x00 32)
                        3 65536 4 (repeat x00 15))
                     [] _) _).
    + vm_compute. reflexivity.
    + vm_compute. discriminate.
  - refine (proj2 (proj2 (bad_magic_rejected_before_DeriveKey (kdf := Reference.kdf)
                     (ctr := Reference.ctr) (codec := Reference.codec)
                     (ContainerDemo.header_only crypto.MagicBytes 7) "out" "secret" ∅
                     (ContainerHeader.mk (bytes_of_string crypto.MagicBytes) 7
                        (repeat x00 32) 3 65536 4 (repeat x00 15))
                     [] _)) _).
    + vm_compute. reflexivity.
    + vm_compute. reflexivity.
Defined.

Lemma has_slash_app (a b : string) :
  has_slash (a +:+ b) = has_slash a || has_slash b.
Proof.
  induction a as [| c a IH]; [reflexivity |].
  change (String c a +:+ b) with (String c (a +:+ b)).
  cbn [has_slash]. rewrite IH. apply orb_assoc.
Qed.

Lemma split_no_slash (s cur : string) :
  has_slash cur = false ->
  Forall (fun c => has_slash c = false) (filepath.split s cur).
Proof.
  revert cur. induction s as [| c s IH]; intros cur Hcur; cbn [filepath.split].
  - constructor; [exact Hcur | constructor].
  - destruct (Ascii.eqb c "/") eqn:Hc.
    + constructor; [exact Hcur | apply IH; reflexivity].
    + apply IH. rewrite has_slash_app, Hcur. cbn [has_slash]. rewrite Hc. reflexivity.
Qed.

Lemma last_Forall {A : Type} (P : A -> Prop) (l : list A) (d : A) :
  Forall P l -> P d -> P (List.last l d).
Proof.
  induction 1 as [| c l Hc Hl IH]; intros Hd; [exact Hd |].
  cbn [List.last]. destruct l; [exact Hc | apply IH, Hd].
Qed.

(** A base name is free of separators, unless it is the separator. *)
Lemma Base_no_slash (p : string) :
  filepath.Base p = "/"%string \/ has_slash (filepath.Base p) = false.
Proof.
  unfold filepath.Base.
  destruct (String.eqb p EmptyString); [right; reflexivity |].
  cbv zeta.
  destruct (String.eqb (List.last _ _) EmptyString); [left; reflexivity | right].
  apply (last_Forall (fun c => has_slash c = false)); [| reflexivity].
  apply split_no_slash. reflexivity.
Qed.

(** Whatever the source, no entry of the archive carries a directory in
    its name: [addToArchive] writes base names only, and a base name holds
    a separator only when it is the separator. *)
Lemma addToArchive_base_names (t : tree) :
  forall path,
    Forall (fun h => tar.Name h = "/"%string \/ has_slash (tar.Name h) = false)
      (addToArchive path t).
Proof.
  revert t. fix IH 1. intros [data | children] path; cbn [addToArchive].
  - constructor; [apply Base_no_slash | constructor].
  - constructor; [apply Base_no_slash |].
    induction children as [| [name child] cs IHcs]; [constructor |].
    apply Forall_app. split; [apply IH | exact IHcs].
Qed.

(** The archive of a directory names every entry by its base name alone, so
    extraction puts [a.txt], [sub] and [b.txt] side by side with [docs]. *)
Example archive_names_are_base_names :
  tar.Name <$> addToArchive "docs" ContainerDemo.docs
  = ["docs"; "a.txt"; "sub"; "b.txt"]%string.
Proof. vm_compute. reflexivity. Qed.

Example archive_loses_directory_structure :
  let extracted :=
    (extractEntries "out" ∅ (addToArchive "docs" ContainerDemo.docs) None).1 in
  let expected := plant ["out"; "docs"]%string ContainerDemo.docs ∅ in
  expected !! ["out"; "docs"; "sub"; "b.txt"]%string
  = Some (FileObj (bytes_of_string "BB"))
  /\ extracted !! ["out"; "docs"; "sub"; "b.txt"]%string = None
  /\ extracted !! ["out"; "b.txt"]%string = Some (FileObj (bytes_of_string "BB"))
  /\ extracted !! ["out"; "docs"]%string = Some DirObj
  /\ extracted !! ["out"; "docs"; "a.txt"]%string = None.
Proof. vm_compute. repeat split. Qed.

Example reference_codec_round_trip :
  targz_Reader (TarGz := Reference.codec)
    (targz_Writer (TarGz := Reference.codec) (addToArchive "docs" ContainerDemo.docs))
  = Ok (addToArchive "docs" ContainerDemo.docs, None).
Proof. vm_compute. reflexivity. Qed.


(** ** Sessions over a run of the server, continued *)

Section RunFacts.
Context {aead : AESGCM} {dh : X25519}.

Lemma accepted_chunk_config s metadata session data :
  let s' := accepted_chunk s metadata session data in
  downloadDir s' = downloadDir s /\ deviceName s' = deviceName s
  /\ identityFingerprint s' = identityFingerprint s /\ onRequest s' = onRequest s.
Proof.
  unfold accepted_chunk. destruct (_ =? _); repeat split.
Qed.

Lemma serve_dropped s r : dropped s `prefix_of` dropped (serve s r).1.
Proof.
  destruct r as [| method body env | method header body fault | sid0];
    cbn [serve fst]; try reflexivity.
  - destruct (handleHandshake_inv s method body env)
      as [[-> _] | (req & privKey & pubKey & sessionKey & _ & _ & _ & _ & ->)];
      reflexivity.
  - destruct (handleChunk_inv s method header body fault)
      as [[-> _] | (metadata & session & enc & data & _ & -> & _ & _
                    & _ & _ & _ & _ & _ & ->)];
      [reflexivity |].
    cbn [fst]. unfold accepted_chunk.
    destruct (_ =? _); cbn [dropped complete with_sessions];
      [apply prefix_app_r |]; reflexivity.
Qed.

(** X1. One request changes at most the session it names: the server's
    configuration and accept callback stay as they were, every session
    filed under another identifier is left exactly as it was, and the list
    of completed sessions only grows at its end. *)
Theorem serve_frame s r :
  let s' := (serve s r).1 in
  (downloadDir s' = downloadDir s /\ deviceName s' = deviceName s
   /\ identityFingerprint s' = identityFingerprint s /\ onRequest s' = onRequest s)
  /\ (forall sessionID, target r <> Some sessionID ->
        sessions s' !! sessionID = sessions s !! sessionID)
  /\ dropped s `prefix_of` dropped s'.
Proof.
  destruct r as [| method body env | method header body fault | sid0];
    cbn [serve fst target]; try (repeat split; reflexivity).
  - destruct (handleHandshake_inv s method body env)
      as [[-> _] | (req & privKey & pubKey & sessionKey & _ & _ & _ & _ & ->)];
      [repeat split; reflexivity |].
    cbn [fst]. split; [repeat split |]. split; [| reflexivity].
    intros sessionID Hne. cbn [sessions with_sessions].
    apply lookup_insert_ne. congruence.
  - destruct (handleChunk_inv s method header body fault)
      as [[-> _] | (metadata & session & enc & data & _ & -> & _ & _
                    & _ & _ & _ & _ & _ & ->)];
      [repeat split; reflexivity |].
    cbn [fst]. split; [apply accepted_chunk_config |].
    unfold accepted_chunk. destruct (_ =? _); cbn [sessions dropped complete with_sessions].
    + split; [| apply prefix_app_r; reflexivity].
      intros sessionID Hne. apply lookup_delete_ne. congruence.
    + split; [| reflexivity].
      intros sessionID Hne. apply lookup_insert_ne. congruence.
Qed.


Lemma advances_refl a : advances a a.
Proof. split; try reflexivity. intros i Hi. exact Hi. Qed.

Lemma advances_trans a b c : advances a b -> advances b c -> advances a c.
Proof.
  intros [] []. split; try congruence.
  - intros i Hi. auto.
  - etransitivity; eassumption.
Qed.

Lemma advances_received session i file :
  written (TransferSession.File session) `prefix_of` written file ->
  advances session
    (TransferSession.received session
       (<[i := true]> (TransferSession.ReceivedChunks session)) file).
Proof.
  intros Hw. split; try reflexivity; cbn; [| exact Hw].
  intros j Hj. destruct (decide (i = j)) as [<- | Hne].
  - rewrite lookup_insert_eq. eexists. reflexivity.
  - rewrite lookup_insert_ne by exact Hne. exact Hj.
Qed.

(** One request and a session of the table: the session stays, advanced,
    or it is deleted on completion. *)
Lemma serve_advances s r sessionID session :
  sessions s !! sessionID = Some session ->
  keeps sessionID r ->
  (exists session',
      sessions (serve s r).1 !! sessionID = Some session'
      /\ advances session session'
      /\ closed (TransferSession.File session')
         = closed (TransferSession.File session))
  \/ (sessions (serve s r).1 !! sessionID = None
      /\ exists session',
           dropped (serve s r).1 = dropped s ++ [session']
           /\ advances session session'
           /\ closed (TransferSession.File session') = true
           /\ Z.of_nat (size (TransferSession.ReceivedChunks session'))
              = TransferSession.TotalChunks session').
Proof.
  intros Hs Hkeeps.
  assert (Hstay : forall s', sessions s' !! sessionID = sessions s !! sessionID ->
            exists session',
              sessions s' !! sessionID = Some session'
              /\ advances session session'
              /\ closed (TransferSession.File session')
                 = closed (TransferSession.File session)).
  { intros s' Hsame. exists session. rewrite Hsame.
    split; [exact Hs | split; [apply advances_refl | reflexivity]]. }
  destruct r as [| method body env | method header body fault | sid0];
    cbn [serve fst]; try (left; apply Hstay; reflexivity).
  - left. apply Hstay.
    destruct (handleHandshake_inv s method body env)
      as [[-> _] | (req & privKey & pubKey & sessionKey & _ & _ & _ & _ & ->)];
      [reflexivity |].
    cbn [fst sessions with_sessions]. apply lookup_insert_ne. exact Hkeeps.
  - destruct (handleChunk_inv s method header body fault)
      as [[-> _] | (metadata & session0 & enc & data & _ & _ & _ & _
                    & Hs0 & _ & _ & Hopen & _ & ->)];
      [left; apply Hstay; reflexivity |].
    cbn [fst]. unfold accepted_chunk.
    destruct (decide (ChunkMetadata.SessionID metadata = sessionID)) as [Hsame | Hother].
    + rewrite Hsame in Hs0 |- *. rewrite Hs in Hs0. injection Hs0 as <-.
      destruct (Z.eqb_spec
        (Z.of_nat (size (<[ChunkMetadata.Index metadata := true]>
                           (TransferSession.ReceivedChunks session))))
        (TransferSession.TotalChunks session)) as [Heq | Hne];
        cbn [sessions dropped complete with_sessions].
      * right. split; [apply lookup_delete_eq |].
        eexists. split; [reflexivity |].
        split; [| split; [reflexivity | exact Heq]].
        apply advances_received. cbn. apply prefix_app_r. reflexivity.
      * left. rewrite lookup_insert_eq. eexists. split; [reflexivity |].
        split; [| symmetry; exact Hopen].
        apply advances_received. cbn. apply prefix_app_r. reflexivity.
    + left. apply Hstay. destruct (_ =? _); cbn [sessions complete with_sessions].
      * apply lookup_delete_ne. exact Hother.
      * apply lookup_insert_ne. exact Hother.
Qed.

Lemma serve_all_cons s r rs : serve_all s (r :: rs) = serve_all (serve s r).1 rs.
Proof. reflexivity. Qed.

Lemma dropped_serve_all rs : forall s, dropped s `prefix_of` dropped (serve_all s rs).
Proof.
  induction rs as [| r rs IH]; intros s; [reflexivity |].
  rewrite serve_all_cons. etransitivity; [| apply IH].
  apply serve_dropped.
Qed.

(** X3. Over any run of requests in which no handshake draws the
    identifier of a given session again, that session either is still in
    the table, with the sender, file metadata, session key, [TotalChunks]
    and file path the handshake fixed, its marked indices and its writes
    only grown and its file as open as before, or it has been deleted from
    the table on completion: then it is among the completed sessions, its
    file is closed and the number of its marked indices equals
    [TotalChunks].  A session never leaves the table in any other way. *)
Theorem session_progress (rs : list request) :
  forall s sessionID session,
    sessions s !! sessionID = Some session ->
    Forall (keeps sessionID) rs ->
    (exists session',
        sessions (serve_all s rs) !! sessionID = Some session'
        /\ advances session session'
        /\ closed (TransferSession.File session')
           = closed (TransferSession.File session))
    \/ (sessions (serve_all s rs) !! sessionID = None
        /\ exists session',
             session' ∈ dropped (serve_all s rs)
             /\ advances session session'
             /\ closed (TransferSession.File session') = true
             /\ Z.of_nat (size (TransferSession.ReceivedChunks session'))
                = TransferSession.TotalChunks session').
Proof.
  induction rs as [| r rs IH]; intros s sessionID session Hs Hrs.
  - left. exists session. split; [exact Hs | split; [apply advances_refl | reflexivity]].
  - apply Forall_cons in Hrs as [Hr Hrs]. rewrite serve_all_cons.
    destruct (serve_advances s r sessionID session Hs Hr)
      as [(session1 & Hs1 & Hadv & Hclosed)
         | (Hnone & session1 & Hdrop & Hadv & Hclosed & Hcount)].
    + destruct (IH _ _ _ Hs1 Hrs)
        as [(session2 & Hs2 & Hadv2 & Hclosed2)
           | (Hnone & session2 & Hin & Hadv2 & Hclosed2 & Hcount)].
      * left. exists session2. split; [exact Hs2 |].
        split; [eapply advances_trans; eassumption | congruence].
      * right. split; [exact Hnone |]. exists session2.
        split; [exact Hin |]. split; [eapply advances_trans; eassumption |].
        split; assumption.
    + right. split.
      * clear IH Hdrop. revert Hnone. generalize (serve s r).1 as s1.
        induction rs as [| r' rs IH']; intros s1 Hnone; [exact Hnone |].
        apply Forall_cons in Hrs as [Hr' Hrs]. rewrite serve_all_cons.
        apply IH'; [exact Hrs |].
        destruct r' as [| method body env | method header body fault | sid0];
          cbn [serve fst]; try exact Hnone.
        -- destruct (handleHandshake_inv s1 method body env)
             as [[-> _] | (req & privKey & pubKey & sessionKey & _ & _ & _ & _ & ->)];
             [exact Hnone |].
           cbn [fst sessions with_sessions].
           rewrite lookup_insert_ne by exact Hr'. exact Hnone.
        -- destruct (handleChunk_inv s1 method header body fault)
             as [[-> _] | (metadata & session0 & enc & data & _ & _ & _ & _
                           & Hs0 & _ & _ & _ & _ & ->)];
             [exact Hnone |].
           cbn [fst]. unfold accepted_chunk.
           destruct (decide (ChunkMetadata.SessionID metadata = sessionID))
             as [Hsame | Hother]; [congruence |].
           destruct (_ =? _); cbn [sessions complete with_sessions].
           ++ rewrite lookup_delete_ne by exact Hother. exact Hnone.
           ++ rewrite lookup_insert_ne by exact Hother. exact Hnone.
      * exists session1.
        split; [| split; [exact Hadv | split; [exact Hclosed | exact Hcount]]].
        destruct (dropped_serve_all rs (serve s r).1) as [k Hk].
        rewrite Hk, Hdrop. apply elem_of_app. left. apply elem_of_app. right.
        apply list_elem_of_singleton. reflexivity.
Qed.

Lemma DeriveSharedSecret_length privateKey peerPublicKey sessionKey :
  DeriveSharedSecret privateKey peerPublicKey = Ok sessionKey ->
  List.length sessionKey = 32%nat.
Proof.
  unfold DeriveSharedSecret.
  destruct (x25519 privateKey peerPublicKey); cbn; [| discriminate | discriminate].
  intros [= <-]. apply Sum256_length.
Qed.

Lemma session_wf_config s s' sessionID session :
  downloadDir s' = downloadDir s ->
  session_wf s sessionID session -> session_wf s' sessionID session.
Proof. intros Hdir []. split; try assumption. rewrite Hdir. assumption. Qed.

Lemma size_insert_le (m : gmap Z bool) (i : Z) (b : bool) :
  (size (<[i := b]> m) <= S (size m))%nat.
Proof. rewrite map_size_insert. destruct (m !! i); cbn; lia. Qed.

Lemma serve_wf s r : server_wf s -> server_wf (serve s r).1.
Proof.
  intros [Htable Hdropped].
  destruct r as [| method body env | method header body fault | sid0];
    cbn [serve fst]; try (split; assumption).
  - destruct (handleHandshake_inv s method body env)
      as [[-> _] | (req & privKey & pubKey & sessionKey & _ & _ & _ & Hkey & ->)];
      [split; assumption |].
    cbn [fst]. split; [| exact Hdropped].
    intros sessionID session. cbn [sessions with_sessions].
    destruct (decide (newUUID env = sessionID)) as [<- | Hother].
    + rewrite lookup_insert_eq. intros [= <-].
      split; cbn; try reflexivity; try lia.
      * eapply DeriveSharedSecret_length, Hkey.
      * intros i b. rewrite lookup_empty. discriminate.
    + rewrite lookup_insert_ne by exact Hother. intros Hl.
      apply (session_wf_config s); [reflexivity | apply Htable, Hl].
  - destruct (handleChunk_inv s method header body fault)
      as [[-> _] | (metadata & session & enc & data & _ & _ & _ & _
                    & Hs & _ & _ & _ & _ & ->)];
      [split; assumption |].
    cbn [fst]. destruct (Htable _ _ Hs) as [Hid Hkey Htotal Hpath Hopen Htrue Hwrites].
    pose proof (size_insert_le (TransferSession.ReceivedChunks session)
                  (ChunkMetadata.Index metadata) true) as Hle.
    pose proof (size_insert_pos (TransferSession.ReceivedChunks session)
                  (ChunkMetadata.Index metadata) true) as Hpos.
    unfold accepted_chunk.
    destruct (Z.eqb_spec
      (Z.of_nat (size (<[ChunkMetadata.Index metadata := true]>
                         (TransferSession.ReceivedChunks session))))
      (TransferSession.TotalChunks session)) as [Heq | Hne];
      unfold server_wf; cbn [sessions dropped complete with_sessions]; split.
    + intros sessionID session' Hl. apply lookup_delete_Some in Hl as [_ Hl].
      apply (session_wf_config s); [reflexivity | apply Htable, Hl].
    + apply Forall_app. split; [exact Hdropped |].
      constructor; [| constructor]. split; cbn.
      * reflexivity.
      * exact Heq.
      * rewrite <- Heq. lia.
      * rewrite length_app. cbn. lia.
    + intros sessionID session'.
      destruct (decide (ChunkMetadata.SessionID metadata = sessionID)) as [Hsame | Hother].
      * rewrite Hsame, lookup_insert_eq. intros [= <-].
        split; cbn; try assumption; try reflexivity.
        -- congruence.
        -- intros i b. destruct (decide (ChunkMetadata.Index metadata = i)) as [<- | Hi].
           ++ rewrite lookup_insert_eq. congruence.
           ++ rewrite lookup_insert_ne by exact Hi. apply Htrue.
        -- rewrite length_app. cbn. lia.
      * rewrite lookup_insert_ne by exact Hother. intros Hl.
        apply (session_wf_config s); [reflexivity | apply Htable, Hl].
    + exact Hdropped.
Qed.

(** X4. In every state a server started by [NewSecureServer] can reach,
    each session of the table is filed under its own identifier, has a
    32-byte session key, the [TotalChunks] computed from the announced file
    size, a path under the download directory and an open file, every mark
    is [true], and there are at least as many writes in its file as marked
    indices.  Each session deleted from the table has a closed file and
    exactly [TotalChunks] marked indices, with [TotalChunks] at least 1: a
    file is closed when, and only when, its transfer completed. *)
Theorem reachable_sessions_wf s : reachable s -> server_wf s.
Proof.
  induction 1 as [downloadDir deviceName fingerprint | s handler _ IH | s r _ IH].
  - split; [| constructor].
    intros sessionID session. cbn. rewrite lookup_empty. discriminate.
  - destruct IH as [Htable Hdropped]. split; [| exact Hdropped].
    intros sessionID session Hl.
    apply (session_wf_config s); [reflexivity | apply Htable, Hl].
  - apply serve_wf, IH.
Qed.

(** X5. [handleHandshake] does not look at the signature of the request:
    whatever is put in the signature field, as long as the accept callback
    gives the same verdict, the server ends in the same state and sends the
    same answer.  Nothing in the handler calls [VerifyHandshakeRequest]. *)
Theorem handleHandshake_ignores_signature s method req sig env :
  onRequest s (with_Signature req sig) = onRequest s req ->
  handleHandshake s method (Some (with_Signature req sig)) env
  = handleHandshake s method (Some req) env.
Proof.
  intros Hverdict. unfold handleHandshake. rewrite Hverdict. reflexivity.
Qed.

(** X6. Key agreement.  When [handleHandshake] accepts, the answer carries
    the server's ephemeral public key and the identifier under which the
    new session is filed, with no chunk marked and an open, empty file; the
    session key is 32 bytes long; and a client whose X25519 product with
    the server's public key equals the server's product with the client's
    public key derives, by [DeriveSharedSecret], exactly the key stored in
    the session. *)
Theorem handshake_keys_agree s method req env s' resp clientPrivate :
  handleHandshake s method (Some req) env = (s', JsonHandshake resp) ->
  Accepted resp = true ->
  x25519 clientPrivate (RespEphemeralPubKey resp)
  = x25519 (ephemeralPrivate env) (EphemeralPubKey req) ->
  exists session,
    sessions s' !! RespSessionID resp = Some session
    /\ x25519 (ephemeralPrivate env) Basepoint = Ok (RespEphemeralPubKey resp)
    /\ DeriveSharedSecret clientPrivate (RespEphemeralPubKey resp)
       = Ok (TransferSession.SessionKey session)
    /\ List.length (TransferSession.SessionKey session) = 32%nat
    /\ TransferSession.ReceivedChunks session = ∅
    /\ TransferSession.File session = os_Create.
Proof.
  intros Hrun Hacc Hdh.
  destruct (handleHandshake_inv s method (Some req) env)
    as [[_ Hrej] | (req' & privKey & pubKey & sessionKey & _ & [= <-] & Hgen & Hkey & Hrun')].
  { rewrite Hrun in Hrej. rewrite (Hrej resp eq_refl) in Hacc. discriminate. }
  rewrite Hrun in Hrun'. injection Hrun' as -> ->.
  cbn [RespSessionID RespEphemeralPubKey] in *.
  unfold GenerateEphemeralKey in Hgen.
  destruct (x25519 (ephemeralPrivate env) Basepoint) as [pub | e | p] eqn:Hpub;
    cbn in Hgen; try discriminate.
  injection Hgen as <- <-.
  eexists. split; [cbn; apply lookup_insert_eq |].
  cbn [TransferSession.SessionKey TransferSession.ReceivedChunks TransferSession.File].
  split; [reflexivity |].
  split; [unfold DeriveSharedSecret in *; rewrite Hdh; exact Hkey |].
  split; [eapply DeriveSharedSecret_length, Hkey | split; reflexivity].
Qed.

End RunFacts.

Lemma session_progress_witness :
  exists session,
    sessions (Demo.server_for 6291456) !! Demo.sid = Some session
    /\ ((exists session',
            sessions (Demo.steps (Demo.server_for 6291456)
                        [Demo.good_chunk 0 2; Demo.good_chunk 1 2]) !! Demo.sid
            = Some session'
            /\ advances session session'
            /\ closed (TransferSession.File session')
               = closed (TransferSession.File session))
        \/ (sessions (Demo.steps (Demo.server_for 6291456)
                        [Demo.good_chunk 0 2; Demo.good_chunk 1 2]) !! Demo.sid
            = None
            /\ exists session',
                 session' ∈ dropped (Demo.steps (Demo.server_for 6291456)
                                       [Demo.good_chunk 0 2; Demo.good_chunk 1 2])
                 /\ advances session session'
                 /\ closed (TransferSession.File session') = true
                 /\ Z.of_nat (size (TransferSession.ReceivedChunks session'))
                    = TransferSession.TotalChunks session')).
Proof.
  assert (Hs : exists session,
             sessions (Demo.server_for 6291456) !! Demo.sid = Some session).
  { vm_compute. eexists. reflexivity. }
  destruct Hs as (session & Hs).
  exists session. split; [exact Hs |].
  apply (session_progress (aead := Reference.aead) (dh := Reference.dh)
           [Demo.good_chunk 0 2; Demo.good_chunk 1 2]
           (Demo.server_for 6291456) Demo.sid session Hs).
  repeat constructor.
Defined.

Lemma reachable_sessions_wf_witness :
  server_wf (Demo.steps (Demo.server_for 10) [Demo.good_chunk 0 1]).
Proof.
  apply (reachable_sessions_wf (aead := Reference.aead) (dh := Reference.dh)).
  apply demo_reachable.
Defined.

Lemma handleHandshake_ignores_signature_witness :
  handleHandshake (dh := Reference.dh) Demo.new_server POST
    (Some (with_Signature (Demo.request_for 10) (Some [x00]))) Demo.env
  = handleHandshake (dh := Reference.dh) Demo.new_server POST
      (Some (Demo.request_for 10)) Demo.env.
Proof.
  apply (handleHandshake_ignores_signature (dh := Reference.dh)).
  reflexivity.
Defined.

Lemma handshake_keys_agree_witness :
  exists session,
    sessions (Demo.server_for 10) !! Demo.sid = Some session
    /\ x25519 (X25519 := Reference.dh) Demo.server_private
         (Basepoint (X25519 := Reference.dh))
       = Ok Demo.server_public
    /\ DeriveSharedSecret (dh := Reference.dh) Demo.client_private Demo.server_public
       = Ok (TransferSession.SessionKey session)
    /\ List.length (TransferSession.SessionKey session) = 32%nat
    /\ TransferSession.ReceivedChunks session = ∅
    /\ TransferSession.File session = os_Create.
Proof.
  refine (handshake_keys_agree (dh := Reference.dh) Demo.new_server POST
            (Demo.request_for 10) Demo.env (Demo.server_for 10)
            (mkHandshakeResponse true Demo.server_public Demo.sid "Transfer accepted")
            Demo.client_private _ eq_refl _).
  - vm_compute. reflexivity.
  - vm_compute. reflexivity.
Defined.

(** ** Sealing and opening *)

Lemma digit_is_lower_hex (n : N) : lower_hex (hex.digit n) = true.
Proof.
  unfold hex.digit. generalize (N.to_nat n) as k. intros k.
  do 17 (destruct k as [| k]; [reflexivity |]).
  reflexivity.
Qed.

Lemma EncodeToString_lower_hex (bs : list byte) :
  String.length (hex.EncodeToString bs) = (2 * List.length bs)%nat
  /\ forallb lower_hex (list_ascii_of_string (hex.EncodeToString bs)) = true.
Proof.
  induction bs as [| v bs [IHlen IHhex]]; [split; reflexivity |].
  split.
  - cbn [hex.EncodeToString String.length List.length]. rewrite IHlen. lia.
  - cbn [hex.EncodeToString list_ascii_of_string forallb].
    rewrite !digit_is_lower_hex, IHhex. reflexivity.
Qed.

Lemma DecodeString_EncodeToString (bs : list byte) :
  hex.DecodeString (hex.EncodeToString bs) = bs.
Proof.
  induction bs as [| v bs IH]; [reflexivity |].
  cbn [hex.EncodeToString hex.DecodeString]. rewrite IH. f_equal.
  destruct v; vm_compute; reflexivity.
Qed.

(** X7. The checksum of a chunk is 64 lowercase hex digits, and two chunks
    have the same checksum string exactly when their SHA-256 digests are
    equal: the string comparison in [handleChunk] loses nothing of the
    digest (and a checksum sent in upper case can never match). *)
Theorem checksum_is_the_digest (a b : list byte) :
  String.length (CalculateChunkChecksum a) = 64%nat
  /\ forallb lower_hex (list_ascii_of_string (CalculateChunkChecksum a)) = true
  /\ (CalculateChunkChecksum a = CalculateChunkChecksum b
      <-> sha256.Sum256 a = sha256.Sum256 b).
Proof.
  unfold CalculateChunkChecksum.
  destruct (EncodeToString_lower_hex (sha256.Sum256 a)) as [Hlen Hhex].
  split; [rewrite Hlen, Sum256_length; reflexivity |].
  split; [exact Hhex |].
  split; [| intros ->; reflexivity].
  intros Heq. apply (f_equal hex.DecodeString) in Heq.
  rewrite !DecodeString_EncodeToString in Heq. exact Heq.
Qed.

Section SealFacts.
Context {aead : AESGCM}.

(** X8. What [EncryptChunk] makes under a 32-byte key and a 12-byte nonce
    is the nonce followed by the sealed plaintext, and [DecryptChunk] under
    the same key gives the plaintext back. *)
Theorem chunk_seal_open plaintext key nonce :
  List.length key = 32%nat -> List.length nonce = 12%nat ->
  EncryptChunk plaintext key nonce = Ok (nonce ++ gcm_seal key nonce plaintext)
  /\ DecryptChunk (nonce ++ gcm_seal key nonce plaintext) key = Ok plaintext
  /\ (12 <= List.length (nonce ++ gcm_seal key nonce plaintext))%nat.
Proof.
  intros Hkey Hnonce.
  destruct (DecryptChunk_EncryptChunk plaintext key nonce Hkey Hnonce)
    as (encrypted & Henc & Hdec).
  assert (Hshape : EncryptChunk plaintext key nonce
                   = Ok (nonce ++ gcm_seal key nonce plaintext)).
  { unfold EncryptChunk. rewrite (NewCipher_32 key Hkey). reflexivity. }
  rewrite Hshape in Henc. injection Henc as <-.
  split; [exact Hshape | split; [exact Hdec |]].
  rewrite length_app, Hnonce. lia.
Qed.

Lemma DecryptChunk_short ciphertext key :
  (List.length ciphertext < 12)%nat ->
  DecryptChunk ciphertext key = Err "crypto/aes: invalid key size"
  \/ DecryptChunk ciphertext key = Err "ciphertext too short".
Proof.
  intros Hlen.
  assert (Hlt : (List.length ciphertext <? gcmNonceSize)%nat = true)
    by (apply Nat.ltb_lt; exact Hlen).
  unfold DecryptChunk, aes.NewCipher.
  destruct (_ || _); cbn [mbind outcome_bind]; [right | left; reflexivity].
  rewrite Hlt. reflexivity.
Qed.

(** X9. A chunk body shorter than the 12-byte nonce, the empty body
    included, is never handed to the AEAD: [DecryptChunk] fails on it
    whatever the key, and [handleChunk] answers a known session with status
    500 and leaves the server, the session's file included, as it was. *)
Theorem truncated_chunk_rejected s metadata session body fault :
  (List.length body < 12)%nat ->
  sessions s !! ChunkMetadata.SessionID metadata = Some session ->
  (forall key, exists e, DecryptChunk body key = Err e)
  /\ handleChunk s POST (Some metadata) (Some body) fault
     = (s, HttpError 500 "Failed to decrypt chunk").
Proof.
  intros Hlen Hs. split.
  - intros key. destruct (DecryptChunk_short body key Hlen) as [-> | ->];
      eexists; reflexivity.
  - unfold handleChunk. rewrite String.eqb_refl. cbn [negb]. rewrite Hs.
    destruct (DecryptChunk_short body (TransferSession.SessionKey session) Hlen)
      as [-> | ->]; reflexivity.
Qed.

(** X10. Package crypto's [Encrypt] and [Decrypt]: under a 32-byte key and
    a 12-byte nonce, [Encrypt] returns the nonce followed by the sealed
    plaintext and [Decrypt] of that returns the plaintext; under such a key
    [Decrypt] refuses every input shorter than the nonce with [ciphertext
    too short], and neither function panics on a key of any length: a key
    that is not 16, 24 or 32 bytes long makes both fail with the wrapped
    [aes.NewCipher] error. *)
Theorem Encrypt_Decrypt plaintext key nonce :
  List.length key = 32%nat -> List.length nonce = 12%nat ->
  crypto.Encrypt plaintext key nonce = Ok (nonce ++ gcm_seal key nonce plaintext)
  /\ crypto.Decrypt (nonce ++ gcm_seal key nonce plaintext) key = Ok plaintext
  /\ (forall short, (List.length short < 12)%nat ->
        crypto.Decrypt short key = Err "ciphertext too short")
  /\ (forall key' data,
        aes.NewCipher key' = Err "crypto/aes: invalid key size" ->
        crypto.Encrypt data key' nonce
        = Err "failed to create cipher: crypto/aes: invalid key size"
        /\ crypto.Decrypt data key'
           = Err "failed to create cipher: crypto/aes: invalid key size").
Proof.
  intros Hkey Hnonce. unfold crypto.Encrypt, crypto.Decrypt.
  rewrite (NewCipher_32 key Hkey). cbn [wrapf mbind outcome_bind].
  split; [reflexivity |]. split; [| split].
  - assert (Hge : (List.length (nonce ++ gcm_seal key nonce plaintext)
                   <? gcmNonceSize)%nat = false).
    { apply Nat.ltb_ge. rewrite length_app, Hnonce. unfold gcmNonceSize. lia. }
    rewrite Hge. unfold gcmNonceSize.
    rewrite take_app_length', drop_app_length' by (symmetry; exact Hnonce).
    rewrite gcm_open_seal by assumption. reflexivity.
  - intros short Hshort.
    assert (Hlt : (List.length short <? gcmNonceSize)%nat = true)
      by (apply Nat.ltb_lt; exact Hshort).
    rewrite Hlt. reflexivity.
  - intros key' data ->. split; reflexivity.
Qed.

End SealFacts.

Lemma chunk_seal_open_witness :
  EncryptChunk (aead := Reference.aead) Demo.payload Demo.session_key (repeat x05 12)
  = Ok (repeat x05 12
        ++ gcm_seal (AESGCM := Reference.aead) Demo.session_key (repeat x05 12)
             Demo.payload)
  /\ DecryptChunk (aead := Reference.aead)
       (repeat x05 12
        ++ gcm_seal (AESGCM := Reference.aead) Demo.session_key (repeat x05 12)
             Demo.payload) Demo.session_key
     = Ok Demo.payload
  /\ (12 <= List.length
              (repeat x05 12
               ++ gcm_seal (AESGCM := Reference.aead) Demo.session_key
                    (repeat x05 12) Demo.payload))%nat.
Proof.
  apply (chunk_seal_open (aead := Reference.aead) Demo.payload Demo.session_key
           (repeat x05 12)); vm_compute; reflexivity.
Defined.

Lemma truncated_chunk_rejected_witness :
  (forall key, exists e,
      DecryptChunk (aead := Reference.aead) [x01; x02; x03] key = Err e)
  /\ Demo.step (Demo.server_for 10)
       (ChunkReq POST (Some Demo.metadata_0) (Some [x01; x02; x03]) false)
     = (Demo.server_for 10, HttpError 500 "Failed to decrypt chunk").
Proof.
  assert (Hs : exists session,
             sessions (Demo.server_for 10) !! Demo.sid = Some session).
  { vm_compute. eexists. reflexivity. }
  destruct Hs as (session & Hs).
  apply (truncated_chunk_rejected (aead := Reference.aead) (Demo.server_for 10)
           Demo.metadata_0 session [x01; x02; x03] false).
  - cbn. lia.
  - exact Hs.
Defined.

Lemma Encrypt_Decrypt_witness :
  crypto.Decrypt (aead := Reference.aead)
    (repeat x05 12
     ++ gcm_seal (AESGCM := Reference.aead) (repeat x09 32) (repeat x05 12)
          Demo.payload) (repeat x09 32)
  = Ok Demo.payload.
Proof.
  refine (proj1 (proj2 (Encrypt_Decrypt (aead := Reference.aead) Demo.payload
                          (repeat x09 32) (repeat x05 12) _ _)));
    reflexivity.
Defined.

(** ** The sending client against the server *)

Lemma chunkBytes_Z : Z.of_nat chunkBytes = 4194304.
Proof. unfold chunkBytes. rewrite Z2Nat.id; [reflexivity | discriminate]. Qed.

Section Chunking.
Variable C : nat.
Hypothesis HC : Z.of_nat C = 4194304.

Lemma offset_nat (k : nat) : Z.to_nat (Z.of_nat k * 4194304) = (k * C)%nat.
Proof. apply Nat2Z.inj. rewrite Nat2Z.inj_mul, HC, Z2Nat.id; lia. Qed.

Lemma pieces_snoc (file : list byte) (k n : nat) :
  pieces C file k (S n)
  = pieces C file k n
    ++ [(Z.of_nat (k + n) * 4194304, firstn C (skipn ((k + n) * C) file))].
Proof. unfold pieces. rewrite seq_S, map_app. reflexivity. Qed.

Lemma pwrite_next (file : list byte) (k : nat) :
  (k * C <= List.length file)%nat ->
  pwrite (firstn (k * C) file) (Z.of_nat k * 4194304) (firstn C (skipn (k * C) file))
  = firstn (S k * C) file.
Proof.
  intros Hk. unfold pwrite. cbv zeta. rewrite offset_nat.
  rewrite take_take, Nat.min_id.
  rewrite length_take, Nat.min_l by exact Hk.
  rewrite Nat.sub_diag. cbn [repeat app].
  rewrite (drop_ge (firstn (k * C) file)) by (rewrite length_take; lia).
  rewrite app_nil_r, take_take_drop. f_equal. lia.
Qed.

(** The writes of the first [n] pieces, applied in order to an empty file,
    give the first [n] chunks' worth of the file. *)
Lemma fold_pieces (file : list byte) (n : nat) :
  (n = 0%nat \/ (n - 1) * C <= List.length file)%nat ->
  fold_left (fun content w => pwrite content w.1 w.2) (pieces C file 0 n) []
  = firstn (n * C) file.
Proof.
  induction n as [| n IH]; intros Hn; [reflexivity |].
  rewrite pieces_snoc, fold_left_app. cbn [fold_left fst snd Nat.add].
  assert (Hle : (n * C <= List.length file)%nat).
  { destruct Hn as [Hn | Hn]; [discriminate |].
    replace (S n - 1)%nat with n in Hn by lia. exact Hn. }
  rewrite IH; [apply pwrite_next, Hle |].
  destruct n as [| n']; [left; reflexivity | right].
  replace (S n' - 1)%nat with n' by lia.
  etransitivity; [| exact Hle]. apply Nat.mul_le_mono_r. lia.
Qed.

(** The number of chunks of a file of [len] bytes, and where its last chunk
    begins. *)
Lemma totalChunks_bounds (len : nat) :
  Z.of_nat len < 2^63 ->
  exists total : nat,
    SendFile_totalChunks (Z.of_nat len) = Z.of_nat total
    /\ (len <= total * C)%nat
    /\ (total = 0%nat <-> len = 0%nat)
    /\ (total = 0%nat \/ (total - 1) * C < len)%nat
    /\ Z.of_nat total <= 2^41.
Proof.
  intros Hlen.
  change (SendFile_totalChunks (Z.of_nat len))
    with (handleHandshake_totalChunks (Z.of_nat len)).
  rewrite totalChunks_nonneg by lia.
  pose proof (Z.div_mod (Z.of_nat len) 4194304 ltac:(lia)) as Hdm.
  pose proof (Z.mod_pos_bound (Z.of_nat len) 4194304 ltac:(lia)) as Hmod.
  assert (Hq : 0 <= Z.of_nat len / 4194304) by (apply Z.div_pos; lia).
  destruct (Z.eqb_spec (Z.of_nat len mod 4194304) 0) as [Hz | Hnz].
  - exists (Z.to_nat (Z.of_nat len / 4194304)).
    rewrite Z2Nat.id by exact Hq.
    split; [reflexivity |].
    assert (Hmul : Z.of_nat (Z.to_nat (Z.of_nat len / 4194304) * C)
                   = Z.of_nat len / 4194304 * 4194304)
      by (rewrite Nat2Z.inj_mul, HC, Z2Nat.id by exact Hq; reflexivity).
    assert (Hmul1 : Z.to_nat (Z.of_nat len / 4194304) <> 0%nat ->
              Z.of_nat ((Z.to_nat (Z.of_nat len / 4194304) - 1) * C)
              = (Z.of_nat len / 4194304 - 1) * 4194304).
    { intros Hne. rewrite Nat2Z.inj_mul, HC, Nat2Z.inj_sub, Z2Nat.id by lia.
      reflexivity. }
    repeat split; lia.
  - exists (Z.to_nat (Z.of_nat len / 4194304 + 1)).
    rewrite Z2Nat.id by lia.
    split; [reflexivity |].
    assert (Hmul : Z.of_nat (Z.to_nat (Z.of_nat len / 4194304 + 1) * C)
                   = (Z.of_nat len / 4194304 + 1) * 4194304)
      by (rewrite Nat2Z.inj_mul, HC, Z2Nat.id by lia; reflexivity).
    assert (Hmul1 : Z.of_nat ((Z.to_nat (Z.of_nat len / 4194304 + 1) - 1) * C)
                    = Z.of_nat len / 4194304 * 4194304).
    { rewrite Nat2Z.inj_mul, HC, Nat2Z.inj_sub, Z2Nat.id by lia. lia. }
    repeat split; lia.
Qed.

End Chunking.

Lemma marked_above (k : nat) (j : Z) : Z.of_nat k <= j -> marked k !! j = None.
Proof.
  induction k as [| k IH]; intros Hj; [apply lookup_empty |].
  cbn [marked]. rewrite lookup_insert_ne by lia. apply IH. lia.
Qed.

Lemma size_marked (k : nat) : size (marked k) = k.
Proof.
  induction k as [| k IH]; [apply map_size_empty |].
  cbn [marked]. rewrite map_size_insert_None by (apply marked_above; lia).
  rewrite IH. reflexivity.
Qed.

Lemma totalChunks_nonneg_of (len : nat) (total : nat) :
  SendFile_totalChunks (Z.of_nat len) = Z.of_nat total ->
  handleHandshake_totalChunks (Z.of_nat len) = Z.of_nat total.
Proof. intros H. exact H. Qed.

Section ClientFacts.
Context {scheme : Ed25519} {codec : HandshakeJSON} {aead : AESGCM} {dh : X25519}.

Section Loop.
Variable C : nat.
Hypothesis HC : Z.of_nat C = 4194304.
Variables (s : SecureServer) (sessionID : string) (session : TransferSession.t).
Variables (file : list byte) (total : nat).
Variables (nonce : Z -> list byte) (fault : Z -> bool) (declared : Z).
Hypothesis Hkey : List.length (TransferSession.SessionKey session) = 32%nat.
Hypothesis Htotal : TransferSession.TotalChunks session = Z.of_nat total.
Hypothesis Hbound : Z.of_nat total <= 2^41.
Hypothesis Hnonce : forall i, List.length (nonce i) = 12%nat.

Lemma in_flight_lookup (k : nat) :
  sessions (in_flight s sessionID session C file k) !! sessionID
  = Some (arrived session C file k false).
Proof. cbn. apply lookup_insert_eq. Qed.

(** A chunk the server accepts without completing the transfer. *)
Lemma sendChunks_step (m k : nat) :
  (S k < total)%nat -> fault (Z.of_nat k) = false ->
  sendChunks C (S m) (in_flight s sessionID session C file k) (skipn (k * C) file)
    (Z.of_nat k) declared (TransferSession.SessionKey session) sessionID nonce fault
  = sendChunks C m (in_flight s sessionID session C file (S k))
      (skipn (S k * C) file) (Z.of_nat (S k)) declared
      (TransferSession.SessionKey session) sessionID nonce fault.
Proof.
  intros Hk Hfault. cbn [sendChunks].
  destruct (DecryptChunk_EncryptChunk (firstn C (skipn (k * C) file))
              (TransferSession.SessionKey session) (nonce (Z.of_nat k))
              Hkey (Hnonce _)) as (encrypted & -> & Hdec).
  unfold sendChunk. rewrite Hfault.
  rewrite (handleChunk_accepts _ _ (arrived session C file k false) _
             (firstn C (skipn (k * C) file)));
    [| apply in_flight_lookup | exact Hdec | reflexivity | reflexivity
     | cbn [ChunkMetadata.Index]; rewrite wrap64_chunk_offset; lia].
  cbn [decode_ack wrapf mbind outcome_bind success_ack ChunkAck.Success negb].
  unfold accepted_chunk.
  cbn [ChunkMetadata.Index ChunkMetadata.SessionID arrived
       TransferSession.ReceivedChunks TransferSession.TotalChunks
       TransferSession.File TransferSession.received written].
  change (<[Z.of_nat k := true]> (marked k)) with (marked (S k)).
  rewrite size_marked, Htotal.
  destruct (Z.eqb_spec (Z.of_nat (S k)) (Z.of_nat total)) as [Heq | _]; [lia |].
  rewrite wrap64_chunk_offset by lia.
  replace (Z.of_nat k + 1) with (Z.of_nat (S k)) by lia.
  rewrite drop_drop. replace (k * C + C)%nat with (S k * C)%nat by lia.
  f_equal. unfold in_flight, with_sessions. cbn [sessions downloadDir deviceName
    identityFingerprint onRequest dropped].
  rewrite insert_insert_eq. unfold arrived.
  rewrite (pieces_snoc C file 0 k). reflexivity.
Qed.

(** The chunk that completes the transfer. *)
Lemma sendChunks_last (m k : nat) :
  S k = total -> fault (Z.of_nat k) = false ->
  sendChunks C (S m) (in_flight s sessionID session C file k) (skipn (k * C) file)
    (Z.of_nat k) declared (TransferSession.SessionKey session) sessionID nonce fault
  = sendChunks C m (complete s sessionID (arrived session C file (S k) true))
      (skipn (S k * C) file) (Z.of_nat (S k)) declared
      (TransferSession.SessionKey session) sessionID nonce fault.
Proof.
  intros Hk Hfault. cbn [sendChunks].
  destruct (DecryptChunk_EncryptChunk (firstn C (skipn (k * C) file))
              (TransferSession.SessionKey session) (nonce (Z.of_nat k))
              Hkey (Hnonce _)) as (encrypted & -> & Hdec).
  unfold sendChunk. rewrite Hfault.
  rewrite (handleChunk_accepts _ _ (arrived session C file k false) _
             (firstn C (skipn (k * C) file)));
    [| apply in_flight_lookup | exact Hdec | reflexivity | reflexivity
     | cbn [ChunkMetadata.Index]; rewrite wrap64_chunk_offset; lia].
  cbn [decode_ack wrapf mbind outcome_bind success_ack ChunkAck.Success negb].
  unfold accepted_chunk.
  cbn [ChunkMetadata.Index ChunkMetadata.SessionID arrived
       TransferSession.ReceivedChunks TransferSession.TotalChunks
       TransferSession.File TransferSession.received written].
  change (<[Z.of_nat k := true]> (marked k)) with (marked (S k)).
  rewrite size_marked, Htotal.
  destruct (Z.eqb_spec (Z.of_nat (S k)) (Z.of_nat total)) as [_ | Hne]; [| lia].
  rewrite wrap64_chunk_offset by lia.
  replace (Z.of_nat k + 1) with (Z.of_nat (S k)) by lia.
  rewrite drop_drop. replace (k * C + C)%nat with (S k * C)%nat by lia.
  f_equal. unfold in_flight, with_sessions, complete, Close.
  cbn [sessions downloadDir deviceName identityFingerprint onRequest dropped
       written TransferSession.received].
  rewrite delete_insert_eq. unfold arrived.
  rewrite (pieces_snoc C file 0 k). reflexivity.
Qed.

(** A chunk whose write the server's disk refuses. *)
Lemma sendChunks_fault (m k : nat) :
  fault (Z.of_nat k) = true ->
  sendChunks C (S m) (in_flight s sessionID session C file k) (skipn (k * C) file)
    (Z.of_nat k) declared (TransferSession.SessionKey session) sessionID nonce fault
  = (in_flight s sessionID session C file k,
     Err ("failed to send chunk " +:+ pretty (Z.of_nat k)
          +:+ ": chunk rejected: Failed to write chunk")).
Proof.
  intros Hfault. cbn [sendChunks].
  destruct (DecryptChunk_EncryptChunk (firstn C (skipn (k * C) file))
              (TransferSession.SessionKey session) (nonce (Z.of_nat k))
              Hkey (Hnonce _)) as (encrypted & -> & Hdec).
  unfold sendChunk, handleChunk. rewrite Hfault, String.eqb_refl. cbn [negb].
  cbn [ChunkMetadata.SessionID]. rewrite in_flight_lookup.
  change (TransferSession.SessionKey (arrived session C file k false))
    with (TransferSession.SessionKey session).
  rewrite Hdec. cbn [ChunkMetadata.Checksum]. rewrite String.eqb_refl. cbn [negb].
  unfold WriteAt. cbn [arrived TransferSession.File TransferSession.received closed].
  destruct (_ <? 0); reflexivity.
Qed.

(** [n] chunks in a row, none of them the last. *)
Lemma sendChunks_run (m n : nat) :
  forall k,
    (k + n < total)%nat ->
    (forall i, (k <= i < k + n)%nat -> fault (Z.of_nat i) = false) ->
    sendChunks C (n + m) (in_flight s sessionID session C file k) (skipn (k * C) file)
      (Z.of_nat k) declared (TransferSession.SessionKey session) sessionID nonce fault
    = sendChunks C m (in_flight s sessionID session C file (k + n))
        (skipn ((k + n) * C) file) (Z.of_nat (k + n)) declared
        (TransferSession.SessionKey session) sessionID nonce fault.
Proof.
  induction n as [| n IH]; intros k Hk Hfault.
  - rewrite Nat.add_0_r. reflexivity.
  - change (S n + m)%nat with (S (n + m)).
    rewrite sendChunks_step by (try apply Hfault; lia).
    rewrite IH by (try (intros i Hi; apply Hfault); lia).
    replace (S k + n)%nat with (k + S n)%nat by lia. reflexivity.
Qed.

End Loop.

(** Up to the first chunk: the handshake goes through and the loop starts
    on the session the server has filed. *)
Lemma SendFile_handshake identity deviceName s filePath file privateKey env
    nonce fault shared :
  handshake_ready identity s privateKey env shared ->
  SendFile identity deviceName s filePath file privateKey env nonce fault
  = sendChunks chunkBytes
      (Z.to_nat (SendFile_totalChunks (Z.of_nat (List.length file))))
      (in_flight s (newUUID env)
         (opened s identity deviceName filePath file (sha256.Sum256 shared)
            (newUUID env))
         chunkBytes file 0)
      file 0 (SendFile_totalChunks (Z.of_nat (List.length file)))
      (sha256.Sum256 shared) (newUUID env) nonce fault.
Proof.
  intros (Hpriv & Hacc & Hcreate & clientPublic & serverPublic
          & Hclient & Hserver & Hss & Hcs).
  unfold SendFile, GenerateEphemeralKey. rewrite Hclient.
  cbn [mbind outcome_bind wrapf].
  unfold CreateHandshakeRequest, Sign, ed25519.Sign. rewrite Hpriv.
  cbn [Nat.eqb ed25519.PrivateKeySize mbind outcome_bind wrapf].
  unfold handleHandshake, GenerateEphemeralKey, DeriveSharedSecret.
  rewrite String.eqb_refl, Hacc, Hserver.
  cbn [negb mbind outcome_bind EphemeralPubKey with_Signature].
  rewrite Hss, Hcreate.
  cbn [mbind outcome_bind decode_handshake wrapf Accepted negb RespEphemeralPubKey
       RespSessionID].
  rewrite Hcs. cbn [mbind outcome_bind wrapf]. reflexivity.
Qed.

(** X11. A transfer from end to end.  When the handshake goes through,
    every nonce has twelve bytes and the server's disk takes every write,
    [SendFile] on a file that is not empty returns without error, and the
    server has then completed the session: it is deleted from the table and
    filed among the completed ones, its output file, at the download
    directory joined with the base name of the sent path, is closed, every
    chunk index [0 .. total-1] is marked, and the positional writes made
    through the file, applied in order, give exactly the bytes of the file
    that was sent. *)
Theorem SendFile_delivers identity deviceName s filePath file privateKey env
    nonce fault shared :
  handshake_ready identity s privateKey env shared ->
  (forall i, List.length (nonce i) = 12%nat) ->
  (forall i, fault i = false) ->
  (0 < List.length file)%nat ->
  Z.of_nat (List.length file) < 2^63 ->
  exists done,
    SendFile identity deviceName s filePath file privateKey env nonce fault
    = (complete s (newUUID env) done, Ok tt)
    /\ done
       = arrived (opened s identity deviceName filePath file (sha256.Sum256 shared)
                    (newUUID env)) chunkBytes file
           (Z.to_nat (SendFile_totalChunks (Z.of_nat (List.length file)))) true
    /\ closed (TransferSession.File done) = true
    /\ contents (TransferSession.File done) = file
    /\ TransferSession.FilePath done = join (downloadDir s) (filepath.Base filePath)
    /\ Z.of_nat (size (TransferSession.ReceivedChunks done))
       = TransferSession.TotalChunks done.
Proof.
  intros Hready Hnonce Hfault Hpos Hlen.
  destruct (totalChunks_bounds chunkBytes chunkBytes_Z (List.length file) Hlen)
    as (total & Htotal & Hcover & Hzero & Hlast & Hbound).
  rewrite (SendFile_handshake _ _ _ _ _ _ _ _ _ _ Hready).
  rewrite Htotal, Nat2Z.id.
  destruct total as [| k]; [lia |].
  set (session := opened s identity deviceName filePath file (sha256.Sum256 shared)
                    (newUUID env)).
  assert (Hkey : List.length (TransferSession.SessionKey session) = 32%nat)
    by apply Sum256_length.
  assert (Htot : TransferSession.TotalChunks session = Z.of_nat (S k))
    by exact Htotal.
  eexists. split; [| split; [reflexivity |]].
  - pose proof (sendChunks_run chunkBytes s (newUUID env) session file (S k)
                  nonce fault (Z.of_nat (S k)) Hkey Htot Hbound Hnonce 1 k 0
                  ltac:(lia) ltac:(intros; apply Hfault)) as Hrun.
    pose proof (sendChunks_last chunkBytes s (newUUID env) session file (S k)
                  nonce fault (Z.of_nat (S k)) Hkey Htot Hbound Hnonce 0 k
                  eq_refl (Hfault _)) as Hlast'.
    rewrite Nat.add_1_r in Hrun. cbn [Nat.add Nat.mul skipn] in Hrun.
    exact (eq_trans Hrun Hlast').
  - split; [reflexivity |]. split; [| split; [reflexivity |]].
    + unfold contents. cbn [arrived TransferSession.File TransferSession.received written].
      rewrite (fold_pieces chunkBytes chunkBytes_Z) by lia.
      apply take_ge. exact Hcover.
    + cbn [arrived TransferSession.ReceivedChunks TransferSession.TotalChunks
           TransferSession.received opened].
      rewrite size_marked. symmetry. exact Htotal.
Qed.

(** X12. A disk fault on the server stops the client and leaves the
    transfer half done.  When the server's disk refuses the write of chunk
    [j], the first write it refuses, [SendFile] returns the error
    [failed to send chunk j: chunk rejected: Failed to write chunk] and
    sends nothing more; the session stays in the server's table with its
    file open, the chunks [0 .. j-1] written and marked and nothing else. *)
Theorem SendFile_stops_at_disk_fault identity deviceName s filePath file privateKey
    env nonce fault shared (j : nat) :
  handshake_ready identity s privateKey env shared ->
  (forall i, List.length (nonce i) = 12%nat) ->
  Z.of_nat (List.length file) < 2^63 ->
  Z.of_nat j < SendFile_totalChunks (Z.of_nat (List.length file)) ->
  fault (Z.of_nat j) = true ->
  (forall i, (i < j)%nat -> fault (Z.of_nat i) = false) ->
  SendFile identity deviceName s filePath file privateKey env nonce fault
  = (in_flight s (newUUID env)
       (opened s identity deviceName filePath file (sha256.Sum256 shared)
          (newUUID env)) chunkBytes file j,
     Err ("failed to send chunk " +:+ pretty (Z.of_nat j)
          +:+ ": chunk rejected: Failed to write chunk")).
Proof.
  intros Hready Hnonce Hlen Hj Hfault Hbefore.
  destruct (totalChunks_bounds chunkBytes chunkBytes_Z (List.length file) Hlen)
    as (total & Htotal & _ & _ & _ & Hbound).
  rewrite (SendFile_handshake _ _ _ _ _ _ _ _ _ _ Hready).
  rewrite Htotal in Hj |- *. rewrite Nat2Z.id.
  set (session := opened s identity deviceName filePath file (sha256.Sum256 shared)
                    (newUUID env)).
  assert (Hkey : List.length (TransferSession.SessionKey session) = 32%nat)
    by apply Sum256_length.
  assert (Htot : TransferSession.TotalChunks session = Z.of_nat total)
    by exact Htotal.
  replace total with (j + S (total - j - 1))%nat at 1 by lia.
  pose proof (sendChunks_run chunkBytes s (newUUID env) session file total
                nonce fault (Z.of_nat total) Hkey Htot Hbound Hnonce
                (S (total - j - 1)) j 0 ltac:(lia)
                ltac:(intros i Hi; apply Hbefore; lia)) as Hrun.
  pose proof (sendChunks_fault chunkBytes s (newUUID env) session file
                nonce fault (Z.of_nat total) Hkey Hnonce (total - j - 1) j Hfault)
    as Hstop.
  cbn [Nat.add Nat.mul skipn] in Hrun.
  exact (eq_trans Hrun Hstop).
Qed.

(** X13. An empty file.  When the handshake goes through, [SendFile] on a
    file of no bytes sends no chunk and returns without error; the server is
    left with the session in its table, [TotalChunks] zero, nothing marked
    and an open, empty output file, and whatever requests follow, short of
    another handshake, that session stays there and its file stays open:
    the sender is told of success while the receiver never finishes. *)
Theorem SendFile_empty_file identity deviceName s filePath privateKey env
    nonce fault shared :
  handshake_ready identity s privateKey env shared ->
  let session := opened s identity deviceName filePath [] (sha256.Sum256 shared)
                   (newUUID env) in
  SendFile identity deviceName s filePath [] privateKey env nonce fault
  = (with_sessions s (<[newUUID env := session]> (sessions s)), Ok tt)
  /\ TransferSession.TotalChunks session = 0
  /\ TransferSession.File session = os_Create
  /\ (forall rs,
        forallb no_handshake rs = true ->
        exists session',
          sessions (serve_all
                      (SendFile identity deviceName s filePath [] privateKey env
                         nonce fault).1 rs) !! newUUID env
          = Some session'
          /\ closed (TransferSession.File session') = false).
Proof.
  intros Hready session.
  assert (Hrun : SendFile identity deviceName s filePath [] privateKey env nonce fault
                 = (with_sessions s (<[newUUID env := session]> (sessions s)), Ok tt)).
  { rewrite (SendFile_handshake _ _ _ _ _ _ _ _ _ _ Hready). reflexivity. }
  split; [exact Hrun |]. split; [reflexivity |]. split; [reflexivity |].
  intros rs Hrs. rewrite Hrun. cbn [fst].
  destruct (zero_session_stays rs
              (with_sessions s (<[newUUID env := session]> (sessions s)))
              (newUUID env) session Hrs)
    as (session' & Hs' & _ & Hopen);
    [cbn; apply lookup_insert_eq | reflexivity | reflexivity |].
  exists session'. split; assumption.
Qed.

(** X14. A receiver that declines.  When the accept callback of the server
    says no, [SendFile] returns the error [transfer rejected: Transfer
    rejected by user] without sending a chunk, and the server is as it was:
    no session, no output file. *)
Theorem SendFile_rejected identity deviceName s filePath file privateKey env
    nonce fault clientPublic :
  List.length (PrivateKey identity) = 64%nat ->
  x25519 privateKey Basepoint = Ok clientPublic ->
  (forall req, onRequest s req = false) ->
  SendFile identity deviceName s filePath file privateKey env nonce fault
  = (s, Err "transfer rejected: Transfer rejected by user").
Proof.
  intros Hpriv Hclient Hdecline.
  unfold SendFile, GenerateEphemeralKey. rewrite Hclient.
  cbn [mbind outcome_bind wrapf].
  unfold CreateHandshakeRequest, Sign, ed25519.Sign. rewrite Hpriv.
  cbn [Nat.eqb ed25519.PrivateKeySize mbind outcome_bind wrapf].
  unfold handleHandshake. rewrite String.eqb_refl, Hdecline. reflexivity.
Qed.

End ClientFacts.

Lemma demo_handshake_ready :
  handshake_ready (dh := Reference.dh) Demo.identity Demo.new_server
    Demo.client_private Demo.env ClientDemo.shared.
Proof.
  split; [vm_compute; reflexivity |].
  split; [intros req; reflexivity |].
  split; [reflexivity |].
  exists Demo.client_public, Demo.server_public.
  repeat split; vm_compute; reflexivity.
Defined.

Lemma SendFile_delivers_witness :
  exists done,
    ClientDemo.send Demo.new_server Demo.payload ClientDemo.no_fault
    = (complete Demo.new_server Demo.sid done, Ok tt)
    /\ done
       = arrived (ClientDemo.session Demo.new_server Demo.payload) chunkBytes
           Demo.payload
           (Z.to_nat (SendFile_totalChunks (Z.of_nat (List.length Demo.payload))))
           true
    /\ closed (TransferSession.File done) = true
    /\ contents (TransferSession.File done) = Demo.payload
    /\ TransferSession.FilePath done
       = join (downloadDir Demo.new_server) (filepath.Base "docs/abc.txt")
    /\ Z.of_nat (size (TransferSession.ReceivedChunks done))
       = TransferSession.TotalChunks done.
Proof.
  refine (SendFile_delivers (scheme := Reference.ed) (codec := Reference.json)
            (aead := Reference.aead) (dh := Reference.dh)
            Demo.identity "laptop" Demo.new_server "docs/abc.txt" Demo.payload
            Demo.client_private Demo.env ClientDemo.nonce ClientDemo.no_fault
            ClientDemo.shared demo_handshake_ready _ _ _ _).
  - intros i. reflexivity.
  - intros i. reflexivity.
  - cbn. lia.
  - vm_compute. reflexivity.
Defined.

Lemma SendFile_stops_at_disk_fault_witness :
  ClientDemo.send Demo.new_server Demo.payload (ClientDemo.fault_at 0)
  = (in_flight Demo.new_server Demo.sid
       (ClientDemo.session Demo.new_server Demo.payload) chunkBytes Demo.payload 0,
     Err "failed to send chunk 0: chunk rejected: Failed to write chunk").
Proof.
  refine (SendFile_stops_at_disk_fault (scheme := Reference.ed)
            (codec := Reference.json) (aead := Reference.aead) (dh := Reference.dh)
            Demo.identity "laptop" Demo.new_server "docs/abc.txt" Demo.payload
            Demo.client_private Demo.env ClientDemo.nonce (ClientDemo.fault_at 0)
            ClientDemo.shared 0 demo_handshake_ready _ _ _ _ _).
  - intros i. reflexivity.
  - vm_compute. reflexivity.
  - vm_compute. reflexivity.
  - reflexivity.
  - intros i Hi. lia.
Defined.

Lemma SendFile_empty_file_witness :
  ClientDemo.send Demo.new_server [] ClientDemo.no_fault
  = (with_sessions Demo.new_server
       (<[Demo.sid := ClientDemo.session Demo.new_server []]>
          (sessions Demo.new_server)), Ok tt).
Proof.
  exact (proj1 (SendFile_empty_file (scheme := Reference.ed)
                  (codec := Reference.json) (aead := Reference.aead)
                  (dh := Reference.dh)
                  Demo.identity "laptop" Demo.new_server "docs/abc.txt"
                  Demo.client_private Demo.env ClientDemo.nonce ClientDemo.no_fault
                  ClientDemo.shared demo_handshake_ready)).
Defined.

Lemma SendFile_rejected_witness :
  ClientDemo.send ClientDemo.declining Demo.payload ClientDemo.no_fault
  = (ClientDemo.declining, Err "transfer rejected: Transfer rejected by user").
Proof.
  refine (SendFile_rejected (scheme := Reference.ed) (codec := Reference.json)
            (dh := Reference.dh)
            Demo.identity "laptop" ClientDemo.declining "docs/abc.txt" Demo.payload
            Demo.client_private Demo.env ClientDemo.nonce ClientDemo.no_fault
            Demo.client_public _ _ _).
  - vm_compute. reflexivity.
  - vm_compute. reflexivity.
  - intros req. reflexivity.
Defined.

(** The same transfer, computed: ten bytes sent, one chunk, the session
    completed and the file closed with the ten bytes in it. *)
Example demo_SendFile_runs :
  let r := ClientDemo.send Demo.new_server Demo.payload ClientDemo.no_fault in
  r.2 = Ok tt
  /\ sessions r.1 !! Demo.sid = None
  /\ (fun d => (TransferSession.FilePath d, contents (TransferSession.File d),
                closed (TransferSession.File d))) <$> dropped r.1
     = [("downloads/abc.txt"%string, Demo.payload, true)].
Proof. vm_compute. repeat split. Qed.

(** ** The container header and the archive *)

Lemma Z_of_byte_of_Z (z : Z) : Z_of_byte (byte_of_Z z) = z mod 256.
Proof.
  unfold Z_of_byte, byte_of_Z.
  change 255 with (Z.ones 8). rewrite Z.land_ones by lia.
  change (2 ^ 8) with 256.
  pose proof (Z.mod_pos_bound z 256 ltac:(lia)) as Hm.
  destruct (Byte.of_N (Z.to_N (z mod 256))) as [b |] eqn:Hb.
  - apply Byte.to_of_N in Hb. rewrite Hb. apply Z2N.id. lia.
  - apply Byte.of_N_None_iff in Hb. lia.
Qed.

Lemma le_word32_le_bytes32 (w : Z) : le_word32 (le_bytes32 w) = w mod 2^32.
Proof.
  unfold le_bytes32, le_word32. rewrite !Z_of_byte_of_Z.
  rewrite !Z.shiftr_div_pow2, !Z.shiftl_mul_pow2 by lia.
  change (2 ^ 8) with 256. change (2 ^ 16) with (256 * 256).
  change (2 ^ 24) with (256 * 256 * 256).
  change (2 ^ 32) with (256 * (256 * (256 * 256))).
  rewrite <- !Z.div_div by lia.
  rewrite !Z.rem_mul_r by lia.
  lia.
Qed.

Tactic Notation "explode" ident(l) integer(n) :=
  do n (destruct l as [| ? l]; [discriminate |]); destruct l; [| discriminate].

(** What [binary.Read] finds in the bytes [binary.Write] made. *)
Lemma binary_Read_binary_Write (h : ContainerHeader.t) (rest : list byte) :
  binary_Read (binary_Write h ++ rest) = Ok (as_struct h, rest).
Proof.
  unfold binary_Read, io_ReadFull.
  pose proof (length_binary_Write h) as Hlen.
  rewrite length_app, Hlen.
  destruct (Nat.leb_spec crypto.HeaderSize (crypto.HeaderSize + List.length rest));
    [| lia].
  rewrite take_app_length', drop_app_length' by (symmetry; exact Hlen).
  cbn [mbind outcome_bind]. unfold binary_Write, as_struct.
  pose proof (length_fixed 4 (ContainerHeader.Magic h)) as Hm.
  pose proof (length_fixed 32 (ContainerHeader.Salt h)) as Hs.
  pose proof (length_fixed 15 (ContainerHeader.Reserved h)) as Hr.
  revert Hm Hs Hr.
  generalize (fixed 4 (ContainerHeader.Magic h)) as m.
  generalize (fixed 32 (ContainerHeader.Salt h)) as salt.
  generalize (fixed 15 (ContainerHeader.Reserved h)) as r.
  intros r salt m Hm Hs Hr.
  explode m 4. explode salt 32. explode r 15.
  unfold le_bytes32. cbn [app firstn skipn nth].
  repeat match goal with
         | |- context [le_word32 [byte_of_Z ?w; ?b1; ?b2; ?b3]] =>
             change [byte_of_Z w; b1; b2; b3] with (le_bytes32 w)
         end.
  rewrite !le_word32_le_bytes32, Z_of_byte_of_Z. reflexivity.
Qed.

Lemma fixed_id (n : nat) (l : list byte) : List.length l = n -> fixed n l = l.
Proof. intros Hl. unfold fixed. apply take_app_length'. symmetry. exact Hl. Qed.

(** X15. The container header round-trips.  A header whose arrays have
    their declared sizes (magic 4, salt 32, reserved 15 bytes) and whose
    numbers fit their types (32 bits for the version, the Argon2 time and
    memory, 8 bits for the threads) is written by [binary.Write] as exactly
    64 bytes, and [binary.Read] on those bytes, whatever follows them in the
    file, returns that same header and leaves the rest to be read next. *)
Theorem header_round_trip (h : ContainerHeader.t) (rest : list byte) :
  List.length (ContainerHeader.Magic h) = 4%nat ->
  List.length (ContainerHeader.Salt h) = 32%nat ->
  List.length (ContainerHeader.Reserved h) = 15%nat ->
  0 <= ContainerHeader.Version h < 2^32 ->
  0 <= ContainerHeader.Argon2Time h < 2^32 ->
  0 <= ContainerHeader.Argon2Memory h < 2^32 ->
  0 <= ContainerHeader.Argon2Threads h < 256 ->
  List.length (binary_Write h) = 64%nat
  /\ binary_Read (binary_Write h ++ rest) = Ok (h, rest).
Proof.
  intros Hm Hs Hr Hv Ht Hmem Hthreads.
  split; [apply length_binary_Write |].
  rewrite binary_Read_binary_Write. unfold as_struct.
  rewrite !fixed_id by assumption. rewrite !Z.mod_small by assumption.
  destruct h; reflexivity.
Qed.

Section ContainerMore.
Context {kdf : Argon2} {ctr : AESCTR} {codec : TarGz}.

(** X16. The salt is not made anew on opening.  For Argon2 parameters
    within the range of their types, with one pass and one thread at the
    least, the file [CreateContainer] leaves
    behind starts with a header from which [ExtractContainer] takes the very
    salt and the very parameters the container was made with: the one call
    of [DeriveKey] it makes is on the password given to it, that salt, and
    those parameters, so that the same password yields the same key.  The
    files under the output path are left as they were. *)
Theorem extraction_derives_key_from_header
    sourcePath source password time memory threads rng outputPath password' fs :
  1 <= time < 2^32 -> 0 <= memory < 2^32 -> 1 <= threads < 256 ->
  let container :=
    (CreateContainer sourcePath source password time memory threads rng).1 in
  let run := ExtractContainer container outputPath password' fs in
  firstn 64 container
  = binary_Write
      (ContainerHeader.mk (bytes_of_string crypto.MagicBytes) crypto.Version
         (crypto.GenerateSalt rng 0) time memory threads [])
  /\ run.1 = [CallDeriveKey password' (crypto.GenerateSalt rng 0) time memory threads]
  /\ run.2.1 = fs.
Proof.
  intros Ht Hm Hth. cbv zeta.
  assert (Hok : forall pw, exists key,
             crypto.DeriveKey pw (crypto.GenerateSalt rng 0) time memory threads = Ok key
             /\ List.length key = 32%nat).
  { intros pw. unfold crypto.DeriveKey.
    destruct (Z.ltb_spec time 1); [lia |].
    destruct (Z.ltb_spec threads 1); [lia |].
    eexists. split; [reflexivity | apply argon2_IDKey_length]. }
  unfold CreateContainer at 1 2 3.
  destruct (Hok password) as (key & -> & Hkey).
  rewrite EncryptStream_panics by exact Hkey.
  cbn [fst].
  set (h := ContainerHeader.mk (bytes_of_string crypto.MagicBytes) crypto.Version
              (crypto.GenerateSalt rng 0) time memory threads []).
  split; [apply take_app_length'; symmetry; apply length_binary_Write |].
  unfold ExtractContainer. rewrite binary_Read_binary_Write. cbn [wrapf].
  unfold as_struct at 1. cbn [ContainerHeader.Magic h].
  change (String.eqb (string_of_list_byte (fixed 4 (bytes_of_string crypto.MagicBytes)))
            crypto.MagicBytes) with true.
  cbn [negb].
  assert (Hsalt : ContainerHeader.Salt (as_struct h) = crypto.GenerateSalt rng 0).
  { unfold as_struct, h. cbn [ContainerHeader.Salt].
    apply fixed_id, length_rand_Read. }
  assert (Htime : ContainerHeader.Argon2Time (as_struct h) = time)
    by (cbn; apply Z.mod_small; lia).
  assert (Hmem : ContainerHeader.Argon2Memory (as_struct h) = memory)
    by (cbn; apply Z.mod_small; lia).
  assert (Hthreads : ContainerHeader.Argon2Threads (as_struct h) = threads)
    by (cbn; apply Z.mod_small; lia).
  rewrite Hsalt, Htime, Hmem, Hthreads. cbn [fst snd].
  split; [reflexivity |].
  destruct (Hok password') as (key' & -> & Hkey').
  rewrite DecryptStream_nonce_only by (exact Hkey' || apply length_rand_Read).
  reflexivity.
Qed.

End ContainerMore.

Lemma header_round_trip_witness :
  List.length (ContainerDemo.header_only "ZIP!" 1) = 64%nat
  /\ binary_Read (ContainerDemo.header_only "ZIP!" 1 ++ [x2a])
     = Ok (ContainerHeader.mk (bytes_of_string "ZIP!") 1 (repeat x00 32) 3 65536 4
             (repeat x00 15), [x2a]).
Proof.
  assert (H := header_round_trip
                 (ContainerHeader.mk (bytes_of_string "ZIP!") 1 (repeat x00 32)
                    3 65536 4 (repeat x00 15)) [x2a]
                 eq_refl eq_refl eq_refl ltac:(cbn; lia) ltac:(cbn; lia)
                 ltac:(cbn; lia) ltac:(cbn; lia)).
  exact H.
Defined.

Lemma extraction_derives_key_from_header_witness :
  (ContainerDemo.extract ContainerDemo.create_hello.1 "Tr0ub4dor").1
  = [CallDeriveKey "Tr0ub4dor" (crypto.GenerateSalt ContainerDemo.rng 0) 3 65536 4].
Proof.
  exact (proj1 (proj2 (extraction_derives_key_from_header (kdf := Reference.kdf)
                         (ctr := Reference.ctr) (codec := Reference.codec)
                         "hello.txt" ContainerDemo.hello "correct horse" 3 65536 4
                         ContainerDemo.rng "out" "Tr0ub4dor" ∅
                         ltac:(lia) ltac:(lia) ltac:(lia)))).
Defined.

Lemma plain_spec (name : string) :
  plain name = true ->
  has_slash name = false /\ String.eqb name EmptyString = false
  /\ String.eqb name "." = false /\ String.eqb name ".." = false.
Proof.
  unfold plain. intros H.
  apply andb_true_iff in H as [H H3]. apply andb_true_iff in H as [H H2].
  apply andb_true_iff in H as [H0 H1].
  repeat split; apply negb_true_iff; assumption.
Qed.

Lemma split_app_slash (a b cur : string) :
  filepath.split (a +:+ "/" +:+ b) cur
  = filepath.split a cur ++ filepath.split b EmptyString.
Proof.
  revert cur. induction a as [| c a IH]; intros cur.
  - reflexivity.
  - change (String c a +:+ "/" +:+ b) with (String c (a +:+ "/" +:+ b)).
    cbn [filepath.split]. destruct (Ascii.eqb c "/").
    + rewrite IH. reflexivity.
    + apply IH.
Qed.

Lemma append_empty_r (a : string) : a +:+ EmptyString = a.
Proof.
  induction a as [| c a IH]; [reflexivity |].
  change (String c a +:+ EmptyString) with (String c (a +:+ EmptyString)).
  rewrite IH. reflexivity.
Qed.

Lemma append_snoc (a : string) (c : ascii) (b : string) :
  (a +:+ String c EmptyString) +:+ b = a +:+ String c b.
Proof.
  induction a as [| c' a IH]; [reflexivity |].
  change ((String c' a +:+ String c EmptyString) +:+ b)
    with (String c' ((a +:+ String c EmptyString) +:+ b)).
  rewrite IH. reflexivity.
Qed.

Lemma split_plain (name cur : string) :
  has_slash name = false -> filepath.split name cur = [cur +:+ name].
Proof.
  revert cur. induction name as [| c name IH]; intros cur Hname.
  - cbn [filepath.split]. rewrite append_empty_r. reflexivity.
  - cbn [has_slash] in Hname. apply orb_false_iff in Hname as [Hc Hname].
    cbn [filepath.split]. rewrite Hc, IH by exact Hname.
    rewrite append_snoc. reflexivity.
Qed.

Lemma components_plain (name : string) :
  plain name = true -> filepath.components name = [name].
Proof.
  intros H. destruct (plain_spec name H) as (Hs & He & Hd & _).
  unfold filepath.components. rewrite split_plain by exact Hs.
  change (EmptyString +:+ name) with name.
  cbn [List.filter]. rewrite He, Hd. reflexivity.
Qed.

Lemma components_join (dir name : string) :
  plain name = true ->
  filepath.components (join dir name) = filepath.components dir ++ [name].
Proof.
  intros H. unfold filepath.components, join.
  rewrite split_app_slash, List.filter_app.
  fold (filepath.components name). rewrite components_plain by exact H.
  reflexivity.
Qed.

Lemma trim_separators_plain (name : string) :
  has_slash name = false -> filepath.trim_separators name = name.
Proof.
  induction name as [| c name IH]; intros Hname; [reflexivity |].
  cbn [has_slash] in Hname. apply orb_false_iff in Hname as [Hc Hname].
  cbn [filepath.trim_separators]. rewrite (IH Hname), Hc.
  destruct name; reflexivity.
Qed.

Lemma trim_separators_app (a b : string) :
  filepath.trim_separators b = b -> b <> EmptyString ->
  filepath.trim_separators (a +:+ b) = a +:+ b.
Proof.
  intros Hb Hne. induction a as [| c a IH]; [exact Hb |].
  change (String c a +:+ b) with (String c (a +:+ b)).
  cbn [filepath.trim_separators]. rewrite IH.
  destruct (a +:+ b) eqn:Hab; [| reflexivity].
  destruct a; [contradiction | discriminate Hab].
Qed.

Lemma Base_join (dir name : string) :
  plain name = true -> filepath.Base (join dir name) = name.
Proof.
  intros H. destruct (plain_spec name H) as (Hs & He & _ & _).
  assert (Hname : name <> EmptyString).
  { intros ->. discriminate He. }
  unfold filepath.Base, join.
  assert (Hjoin : String.eqb (dir +:+ "/" +:+ name) EmptyString = false).
  { destruct dir; reflexivity. }
  rewrite Hjoin. cbv zeta.
  rewrite trim_separators_app.
  - rewrite split_app_slash, (split_plain name EmptyString Hs).
    change (EmptyString +:+ name) with name.
    rewrite List.last_last, He. reflexivity.
  - change ("/" +:+ name) with (String "/" name).
    cbn [filepath.trim_separators].
    rewrite (trim_separators_plain name Hs).
    destruct name; [contradiction | reflexivity].
  - discriminate.
Qed.

Lemma split_not_nil (s cur : string) : filepath.split s cur <> [].
Proof.
  revert cur. induction s as [| c s IH]; intros cur; cbn [filepath.split];
    [discriminate |].
  destruct (Ascii.eqb c "/"); [discriminate | apply IH].
Qed.

(** What follows the last separator of a path that does not end in one is
    not empty. *)
Lemma last_element_not_empty (s : string) :
  forall cur,
    filepath.trim_separators s = s -> s <> EmptyString ->
    String.eqb (List.last (filepath.split s cur) EmptyString) EmptyString = false.
Proof.
  induction s as [| c s IH]; intros cur Htrim Hne; [contradiction |].
  cbn [filepath.trim_separators] in Htrim. cbn [filepath.split].
  destruct s as [| c' s'].
  - cbn [filepath.trim_separators] in Htrim.
    destruct (Ascii.eqb c "/"); [discriminate Htrim |].
    cbn [filepath.split List.last].
    destruct cur; reflexivity.
  - assert (Hrest : filepath.trim_separators (String c' s') = String c' s').
    { clear IH. destruct (filepath.trim_separators (String c' s')) eqn:Hr.
      - destruct (Ascii.eqb c "/"); discriminate Htrim.
      - congruence. }
    destruct (Ascii.eqb c "/").
    + specialize (IH EmptyString Hrest ltac:(discriminate)).
      destruct (filepath.split (String c' s') EmptyString) eqn:Hsplit;
        [exfalso; exact (split_not_nil _ _ Hsplit) | exact IH].
    + apply IH; [exact Hrest | discriminate].
Qed.

Lemma trim_separators_idem (s : string) :
  filepath.trim_separators (filepath.trim_separators s) = filepath.trim_separators s.
Proof.
  induction s as [| c s IH]; [reflexivity |].
  cbn [filepath.trim_separators].
  destruct (filepath.trim_separators s) as [| c' s'] eqn:Hs.
  - destruct (Ascii.eqb c "/") eqn:Hc; [reflexivity |].
    cbn [filepath.trim_separators]. rewrite Hc. reflexivity.
  - cbn [filepath.trim_separators]. cbn [filepath.trim_separators] in IH.
    rewrite IH. reflexivity.
Qed.

Lemma trim_separators_empty (s : string) :
  String.eqb (filepath.trim_separators s) EmptyString = only_separators s.
Proof.
  induction s as [| c s IH]; [reflexivity |].
  cbn [filepath.trim_separators only_separators].
  destruct (filepath.trim_separators s) as [| c' s'].
  - rewrite <- IH, andb_true_r. destruct (Ascii.eqb c "/"); reflexivity.
  - rewrite <- IH, andb_false_r. reflexivity.
Qed.

(** When a base name holds a separator: for a path that is not empty and
    made of separators only, and for no other. *)
Lemma Base_has_slash (path : string) :
  has_slash (filepath.Base path)
  = negb (String.eqb path EmptyString) && only_separators path.
Proof.
  unfold filepath.Base.
  destruct (String.eqb path EmptyString); [reflexivity |].
  cbv zeta. cbn [negb andb].
  rewrite <- trim_separators_empty.
  destruct (filepath.trim_separators path) as [| c s] eqn:Htrim; [reflexivity |].
  assert (Hidem := trim_separators_idem path). rewrite Htrim in Hidem.
  rewrite (last_element_not_empty (String c s) EmptyString Hidem ltac:(discriminate)).
  apply (last_Forall (fun c => has_slash c = false)); [| reflexivity].
  apply split_no_slash. reflexivity.
Qed.

Lemma names_below_plain (t : tree) :
  plain_names t = true -> Forall (fun name => has_slash name = false) (names_below t).
Proof.
  revert t. fix IH 1. intros [data | children] Hplain;
    cbn [names_below]; [constructor |].
  cbn [plain_names] in Hplain.
  induction children as [| [name child] cs IHcs]; [constructor |].
  apply andb_true_iff in Hplain as [Hplain Hcs].
  apply andb_true_iff in Hplain as [Hname Hchild].
  constructor; [apply (plain_spec name Hname) |].
  apply Forall_app. split; [apply IH, Hchild | apply IHcs, Hcs].
Qed.

Lemma archive_names_of (t : tree) :
  forall path,
    plain_names t = true ->
    tar.Name <$> addToArchive path t = filepath.Base path :: names_below t.
Proof.
  revert t. fix IH 1. intros [data | children] path Hplain;
    cbn [addToArchive names_below fmap list_fmap tar.Name].
  - reflexivity.
  - f_equal. cbn [plain_names] in Hplain.
    induction children as [| [name child] cs IHcs]; [reflexivity |].
    apply andb_true_iff in Hplain as [Hplain Hcs].
    apply andb_true_iff in Hplain as [Hname Hchild].
    rewrite fmap_app, (IH child _ Hchild), Base_join by exact Hname.
    change (list_fmap _ _ tar.Name) with (fmap (M := list) tar.Name).
    rewrite (IHcs Hcs). reflexivity.
Qed.

(** X17. What [addToArchive] calls the entries.  For a tree whose names
    are single path components, the archive [CreateContainer] builds names
    its entries, in the order of the walk, by the base name of the source
    path followed by the bare names of the nodes below it: each entry
    carries the last component of its path and nothing of the directories
    above it.  No name of a node below the source holds a separator; the
    name of the first entry, the base name of the source path, holds one
    only for a source path that is not empty and made of separators alone,
    and for a path that is not of that kind no name in the archive holds a
    separator. *)
Theorem archive_names (t : tree) (path : string) :
  plain_names t = true ->
  tar.Name <$> addToArchive path t = filepath.Base path :: names_below t
  /\ Forall (fun name => has_slash name = false) (names_below t)
  /\ has_slash (filepath.Base path)
     = negb (String.eqb path EmptyString) && only_separators path
  /\ (negb (String.eqb path EmptyString) && only_separators path = false ->
      Forall (fun header => has_slash (tar.Name header) = false)
        (addToArchive path t))
  /\ List.length (addToArchive path t) = S (List.length (names_below t)).
Proof.
  intros Hplain.
  pose proof (archive_names_of t path Hplain) as Hnames.
  pose proof (names_below_plain t Hplain) as Hbelow.
  split; [exact Hnames |]. split; [exact Hbelow |].
  split; [apply Base_has_slash |]. split.
  - intros Hpath.
    apply (proj1 (Forall_fmap tar.Name (fun name => has_slash name = false) _)).
    rewrite Hnames. constructor; [| exact Hbelow].
    rewrite Base_has_slash. exact Hpath.
  - apply (f_equal (@List.length string)) in Hnames.
    rewrite length_fmap in Hnames. exact Hnames.
Qed.

(** X18. The extraction loop acts on directories and regular files only:
    entries of any other type (symbolic links, devices and the like) are
    passed over without a trace, so that extracting an archive and
    extracting it with those entries struck out end in the same files and
    the same result. *)
Theorem extraction_skips_other_types outputPath (entries : list tar.Header) stop :
  forall fs,
    extractEntries outputPath fs (List.filter extracted entries) stop
    = extractEntries outputPath fs entries stop.
Proof.
  induction entries as [| header rest IH]; intros fs; [reflexivity |].
  cbn [List.filter extractEntries]. unfold extracted at 1.
  destruct (tar.Type_ header) eqn:Htype.
  - cbn [extractEntries].
    destruct (extractEntry outputPath fs header) as [fs' | e | p];
      [apply IH | reflexivity | reflexivity].
  - cbn [extractEntries].
    destruct (extractEntry outputPath fs header) as [fs' | e | p];
      [apply IH | reflexivity | reflexivity].
  - unfold extractEntry. rewrite Htype. apply IH.
Qed.

(** X19. Extraction does not keep to the output directory.  The target of
    an entry is the output path joined with the entry's name, and nothing
    checks where that leads: a regular-file entry named [../n], extracted
    into the directory [o], is written to [n] beside [o], not below it. *)
Theorem extraction_leaves_output_directory o n data fs :
  plain o = true -> plain n = true ->
  is_dir (fs !! [n]) = false ->
  filepath.Join o ("../" +:+ n) = [n]
  /\ extractEntry o fs (tar.mkHeader ("../" +:+ n) tar.TypeReg data)
     = Ok (<[[n] := FileObj data]> fs).
Proof.
  intros Ho Hn Hfree.
  destruct (plain_spec o Ho) as (_ & _ & _ & Ho').
  destruct (plain_spec n Hn) as (_ & _ & _ & Hn').
  assert (Hjoin : filepath.Join o ("../" +:+ n) = [n]).
  { unfold filepath.Join. rewrite components_plain by exact Ho.
    change ("../" +:+ n) with (join ".." n).
    rewrite components_join by exact Hn.
    change (filepath.components "..") with [".."%string].
    unfold filepath.Clean. cbn [app fold_left].
    rewrite Ho'. cbn [String.eqb Ascii.eqb Bool.eqb removelast app]. rewrite Hn'.
    reflexivity. }
  split; [exact Hjoin |].
  unfold extractEntry. cbn [tar.Type_ tar.Name tar.Body]. rewrite Hjoin.
  cbn [filepath.Dir removelast MkdirAll prefixes existsb fold_left wrapf mbind
       outcome_bind].
  unfold CreateAndWrite. rewrite Hfree. reflexivity.
Qed.

Lemma archive_names_witness :
  tar.Name <$> addToArchive "backup/docs" ContainerDemo.docs
  = filepath.Base "backup/docs" :: names_below ContainerDemo.docs
  /\ Forall (fun name => has_slash name = false) (names_below ContainerDemo.docs)
  /\ has_slash (filepath.Base "backup/docs")
     = negb (String.eqb "backup/docs" EmptyString) && only_separators "backup/docs"
  /\ (negb (String.eqb "backup/docs" EmptyString) && only_separators "backup/docs"
      = false ->
      Forall (fun header => has_slash (tar.Name header) = false)
        (addToArchive "backup/docs" ContainerDemo.docs))
  /\ List.length (addToArchive "backup/docs" ContainerDemo.docs)
     = S (List.length (names_below ContainerDemo.docs)).
Proof.
  apply (archive_names ContainerDemo.docs "backup/docs"). reflexivity.
Defined.

(** The source path [/]: the first entry of the archive is named [/], as
    [filepath.Base] has it for a path of separators. *)
Example archive_of_the_root :
  tar.Name <$> addToArchive "/" ContainerDemo.docs
  = ["/"; "a.txt"; "sub"; "b.txt"]%string
  /\ filepath.Base "//" = "/"%string
  /\ filepath.Base "a/." = "."%string
  /\ filepath.Base EmptyString = "."%string
  /\ filepath.Base "a/b//" = "b"%string.
Proof. vm_compute. repeat split. Qed.

Lemma extraction_leaves_output_directory_witness :
  filepath.Join "out" ("../" +:+ "authorized_keys") = ["authorized_keys"%string]
  /\ extractEntry "out" ∅
       (tar.mkHeader ("../" +:+ "authorized_keys") tar.TypeReg [x2a])
     = Ok (<[["authorized_keys"%string] := FileObj [x2a]]> ∅).
Proof.
  apply (extraction_leaves_output_directory "out" "authorized_keys" [x2a] ∅);
    reflexivity.
Defined.

(** ** Keys that were not generated *)

Section KeyFacts.
Context {scheme : Ed25519} {codec : HandshakeJSON} {aead : AESGCM} {dh : X25519}.

(** X20. A damaged key file.  [LoadOrGenerateIdentity] takes what it finds
    in the two key files as the keys, whatever their lengths, and leaves the
    files alone; with a private key file that is not 64 bytes long the
    identity it returns makes [Sign] panic on every message, and so
    [SendFile] panics while building the handshake, before anything is sent
    to the server. *)
Theorem damaged_key_file_panics dataDir fs seed pubKeyData privKeyData :
  fs !! join dataDir "device.pub" = Some pubKeyData ->
  fs !! join dataDir "device.key" = Some privKeyData ->
  List.length privKeyData <> 64%nat ->
  let identity := (LoadOrGenerateIdentity dataDir fs seed).1 in
  LoadOrGenerateIdentity dataDir fs seed
  = (mkDeviceIdentity pubKeyData privKeyData (generateFingerprint pubKeyData), fs)
  /\ (forall data, Sign identity data = Panic "ed25519: bad private key length")
  /\ (forall deviceName s filePath file privateKey env nonce fault clientPublic,
        x25519 privateKey Basepoint = Ok clientPublic ->
        SendFile identity deviceName s filePath file privateKey env nonce fault
        = (s, Panic "ed25519: bad private key length")).
Proof.
  intros Hpub Hpriv Hlen. cbv zeta.
  assert (Hload : LoadOrGenerateIdentity dataDir fs seed
                  = (mkDeviceIdentity pubKeyData privKeyData
                       (generateFingerprint pubKeyData), fs)).
  { unfold LoadOrGenerateIdentity. rewrite Hpub, Hpriv. reflexivity. }
  rewrite Hload. cbn [fst].
  assert (Hsign : forall data,
             Sign (mkDeviceIdentity pubKeyData privKeyData
                     (generateFingerprint pubKeyData)) data
             = Panic "ed25519: bad private key length").
  { intros data. unfold Sign, ed25519.Sign. cbn [PrivateKey].
    destruct (Nat.eqb_spec (List.length privKeyData) ed25519.PrivateKeySize)
      as [Heq | _]; [contradiction | reflexivity]. }
  split; [reflexivity |]. split; [exact Hsign |].
  intros deviceName s filePath file privateKey env nonce fault clientPublic Hclient.
  unfold SendFile, GenerateEphemeralKey. rewrite Hclient.
  cbn [mbind outcome_bind wrapf].
  unfold CreateHandshakeRequest. rewrite Hsign. reflexivity.
Qed.

(** X21. [VerifyHandshakeRequest] at its edges.  Whatever the verdict, the
    caller's request is left as it was, signature included.  With a public
    key that is not 32 bytes long the call panics; with a 32-byte key, a
    request that carries no signature, or one that is not 64 bytes long, is
    never accepted. *)
Theorem VerifyHandshakeRequest_edges (req : HandshakeRequest) (pubKey : list byte) :
  (VerifyHandshakeRequest req pubKey).2 = req
  /\ (List.length pubKey <> 32%nat ->
      (VerifyHandshakeRequest req pubKey).1 = Panic "ed25519: bad public key length")
  /\ (List.length pubKey = 32%nat ->
      List.length (default [] (Signature req)) <> 64%nat ->
      (VerifyHandshakeRequest req pubKey).1 = Ok false)
  /\ (List.length pubKey = 32%nat ->
      Signature req = None ->
      (VerifyHandshakeRequest req pubKey).1 = Ok false).
Proof.
  assert (Hshort : List.length pubKey = 32%nat ->
            List.length (default [] (Signature req)) <> 64%nat ->
            (VerifyHandshakeRequest req pubKey).1 = Ok false).
  { intros Hkey Hsig.
    unfold VerifyHandshakeRequest, VerifySignature, ed25519.Verify. cbn [fst].
    rewrite Hkey. cbn [Nat.eqb ed25519.PublicKeySize].
    destruct (Nat.eqb_spec (List.length (default [] (Signature req)))
                ed25519.SignatureSize) as [Heq | _]; [contradiction | reflexivity]. }
  split; [destruct req; reflexivity |]. split; [| split; [exact Hshort |]].
  - intros Hkey.
    unfold VerifyHandshakeRequest, VerifySignature, ed25519.Verify. cbn [fst].
    destruct (Nat.eqb_spec (List.length pubKey) ed25519.PublicKeySize)
      as [Heq | _]; [contradiction | reflexivity].
  - intros Hkey Hnone. apply Hshort; [exact Hkey |].
    rewrite Hnone. discriminate.
Qed.

End KeyFacts.

Lemma damaged_key_file_panics_witness :
  Sign (scheme := Reference.ed)
    (LoadOrGenerateIdentity (scheme := Reference.ed) "id"
       (<["id/device.key"%string := [x01; x02; x03]]>
          (<["id/device.pub"%string := repeat x07 32]> ∅)) Demo.seed).1
    [x68; x69]
  = Panic "ed25519: bad private key length".
Proof.
  refine (proj1 (proj2 (damaged_key_file_panics (scheme := Reference.ed)
                          (codec := Reference.json) (aead := Reference.aead)
                          (dh := Reference.dh) "id"
                          (<["id/device.key"%string := [x01; x02; x03]]>
                             (<["id/device.pub"%string := repeat x07 32]> ∅))
                          Demo.seed (repeat x07 32) [x01; x02; x03] _ _ _))
            [x68; x69]).
  - vm_compute. reflexivity.
  - vm_compute. reflexivity.
  - cbn. lia.
Defined.

(** ** The plain server and client *)

Lemma receive_all (reads : list (list byte)) (failure : option string) :
  forall content i,
    Plain.receive content reads failure i (fun _ => false)
    = (content ++ concat reads,
       match failure with
       | None => Plain.Text 200 "OK"
       | Some _ => Plain.Error 500 "Failed to read file"
       end).
Proof.
  induction reads as [| buffer rest IH]; intros content i; cbn [Plain.receive concat].
  - rewrite app_nil_r. destruct failure; reflexivity.
  - rewrite andb_false_r, IH, app_assoc. reflexivity.
Qed.

Lemma Base_not_empty (p : string) :
  String.eqb (filepath.Base p) EmptyString = false.
Proof.
  unfold filepath.Base.
  destruct (String.eqb p EmptyString); [reflexivity |].
  cbv zeta.
  destruct (String.eqb (List.last _ _) EmptyString) eqn:Hlast;
    [reflexivity | exact Hlast].
Qed.

(** X22. [handleSend] does not ask whether a transfer was requested.  A
    POST to it is served in the same way, with the same file written and
    the same answer, whether the server had accepted a request or not, and
    whatever its outcome it leaves the server idle; any other method is
    answered 405 and changes nothing, the busy flag included. *)
Theorem handleSend_needs_no_request s active filename body createFails writeFails :
  Plain.handleSend (Plain.with_active s active) POST filename body createFails writeFails
  = Plain.handleSend s POST filename body createFails writeFails
  /\ Plain.activeTransfer
       (Plain.handleSend s POST filename body createFails writeFails).1 = false
  /\ (forall method,
        method <> POST ->
        Plain.handleSend s method filename body createFails writeFails
        = (s, Plain.Error 405 "Method not allowed")).
Proof.
  split; [| split].
  - unfold Plain.handleSend. rewrite String.eqb_refl. cbn [negb].
    destruct (String.eqb filename EmptyString); [reflexivity |].
    destruct createFails; [reflexivity |].
    cbn [Plain.downloadDir Plain.with_active].
    destruct (Plain.receive [] (Plain.reads body) (Plain.failure body) 0 writeFails);
      reflexivity.
  - unfold Plain.handleSend. rewrite String.eqb_refl. cbn [negb].
    destruct (String.eqb filename EmptyString); [reflexivity |].
    destruct createFails; [reflexivity |].
    destruct (Plain.receive [] (Plain.reads body) (Plain.failure body) 0 writeFails);
      reflexivity.
  - intros method Hmethod. unfold Plain.handleSend.
    destruct (String.eqb_spec method POST) as [Heq | _]; [contradiction | reflexivity].
Qed.

(** X23. What [handleSend] leaves in the download directory.  With a file
    name, a file that can be created and a disk that takes every write, the
    output file holds the bytes of all the reads in order, truncating
    whatever was there under that name, and no other file is touched.  When
    the body ends with [io.EOF] the answer is 200 [OK]; when it breaks off
    with an error the answer is 500, and the part that had arrived stays in
    the download directory. *)
Theorem handleSend_keeps_what_arrived s filename body :
  filename <> EmptyString ->
  let run := Plain.handleSend s POST filename body false (fun _ => false) in
  Plain.files run.1 !! join (Plain.downloadDir s) filename
  = Some (concat (Plain.reads body))
  /\ (forall path,
        path <> join (Plain.downloadDir s) filename ->
        Plain.files run.1 !! path = Plain.files s !! path)
  /\ run.2 = match Plain.failure body with
             | None => Plain.Text 200 "OK"
             | Some _ => Plain.Error 500 "Failed to read file"
             end.
Proof.
  intros Hname. cbv zeta. unfold Plain.handleSend.
  rewrite String.eqb_refl. cbn [negb].
  destruct (String.eqb_spec filename EmptyString) as [Heq | _]; [contradiction |].
  rewrite receive_all. cbn [fst snd app Plain.files Plain.with_active Plain.with_file].
  split; [apply lookup_insert_eq |]. split; [| reflexivity].
  intros path Hpath. apply lookup_insert_ne. congruence.
Qed.

(** X24. The plain transfer from end to end.  Against a busy server
    [Client.SendFile] fails with [transfer rejected: Busy with another
    transfer], against an idle one whose user declines with [transfer
    rejected: Transfer rejected], and in both cases the server is left as it
    was.  Against an idle server that accepts, with the body delivered in
    reads that make up the file, an output file that can be created and a
    disk that takes every write, it returns without error; the server then
    holds the bytes of the file under the download directory joined with
    the base name of the sent path, and is idle again. *)
Theorem plain_SendFile s filePath file remoteAddr deliver :
  concat (deliver file) = file ->
  (Plain.activeTransfer s = true ->
   forall createFails writeFails,
     Plain.SendFile s filePath file remoteAddr deliver createFails writeFails
     = (s, Err "transfer rejected: Busy with another transfer"))
  /\ (Plain.activeTransfer s = false ->
      (forall req, Plain.onRequest s req = false) ->
      forall createFails writeFails,
        Plain.SendFile s filePath file remoteAddr deliver createFails writeFails
        = (s, Err "transfer rejected: Transfer rejected"))
  /\ (Plain.activeTransfer s = false ->
      (forall req, Plain.onRequest s req = true) ->
      Plain.SendFile s filePath file remoteAddr deliver false (fun _ => false)
      = (Plain.with_active
           (Plain.with_file s (join (Plain.downloadDir s) (filepath.Base filePath))
              file) false,
         Ok tt)).
Proof.
  intros Hdeliver. split; [| split].
  - intros Hbusy createFails writeFails.
    unfold Plain.SendFile, Plain.handleRequest.
    rewrite String.eqb_refl, Hbusy. reflexivity.
  - intros Hidle Hdecline createFails writeFails.
    unfold Plain.SendFile, Plain.handleRequest.
    rewrite String.eqb_refl, Hidle, Hdecline. reflexivity.
  - intros Hidle Haccept.
    unfold Plain.SendFile, Plain.handleRequest.
    rewrite String.eqb_refl, Hidle, Haccept.
    cbn [negb Plain.decode wrapf Plain.Accepted].
    unfold Plain.handleSend. rewrite String.eqb_refl, Base_not_empty.
    cbn [negb Plain.reads Plain.failure]. rewrite receive_all, Hdeliver.
    reflexivity.
Qed.

Lemma handleSend_keeps_what_arrived_witness :
  let run :=
    Plain.handleSend (Plain.NewServer "downloads" ∅) POST "abc.txt"
      (Plain.mkBody [[x61; x62]; [x63]] (Some "unexpected EOF"%string)) false
      (fun _ => false) in
  Plain.files run.1 !! join "downloads" "abc.txt" = Some [x61; x62; x63]
  /\ (forall path,
        path <> join "downloads" "abc.txt" ->
        Plain.files run.1 !! path = (∅ : gmap string (list byte)) !! path)
  /\ run.2 = Plain.Error 500 "Failed to read file".
Proof.
  apply (handleSend_keeps_what_arrived (Plain.NewServer "downloads" ∅) "abc.txt"
           (Plain.mkBody [[x61; x62]; [x63]] (Some "unexpected EOF"%string))).
  discriminate.
Defined.

Lemma plain_SendFile_witness :
  Plain.SendFile (Plain.NewServer "downloads" ∅) "docs/abc.txt" Demo.payload
    "192.168.1.7:50123" (fun file => [firstn 4 file; skipn 4 file]) false
    (fun _ => false)
  = (Plain.with_active
       (Plain.with_file (Plain.NewServer "downloads" ∅)
          (join "downloads" (filepath.Base "docs/abc.txt")) Demo.payload) false,
     Ok tt).
Proof.
  refine (proj2 (proj2 (plain_SendFile (Plain.NewServer "downloads" ∅)
                          "docs/abc.txt" Demo.payload "192.168.1.7:50123"
                          (fun file => [firstn 4 file; skipn 4 file]) _)) _ _).
  - reflexivity.
  - reflexivity.
  - intros req. reflexivity.
Defined.

(** ** The peer-to-peer transfer *)

Lemma io_ReadFull_app (a b : list byte) :
  io_ReadFull (a ++ b) (List.length a) = Ok (a, b).
Proof.
  unfold io_ReadFull. rewrite length_app.
  destruct (Nat.leb_spec (List.length a) (List.length a + List.length b)); [| lia].
  rewrite take_app_length, drop_app_length. reflexivity.
Qed.

Lemma read_uint32_le_bytes32 (w : Z) (rest : list byte) :
  read_uint32 (le_bytes32 w ++ rest) = Ok (w mod 2^32, rest).
Proof.
  unfold read_uint32.
  change 4%nat with (List.length (le_bytes32 w)). rewrite io_ReadFull_app.
  cbn [mbind outcome_bind]. rewrite le_word32_le_bytes32. reflexivity.
Qed.

Lemma le_word64_le_bytes64 (w : Z) : le_word64 (le_bytes64 w) = w mod 2^64.
Proof.
  unfold le_word64, le_bytes64.
  change 4%nat with (List.length (le_bytes32 w)).
  rewrite take_app_length, drop_app_length, !le_word32_le_bytes32.
  rewrite Z.shiftr_div_pow2, Z.shiftl_mul_pow2 by lia.
  change (2 ^ 64) with (2 ^ 32 * 2 ^ 32).
  rewrite Z.rem_mul_r by lia. lia.
Qed.

Lemma read_int64_le_bytes64 (w : Z) (rest : list byte) :
  0 <= w < 2^63 -> read_int64 (le_bytes64 w ++ rest) = Ok (w, rest).
Proof.
  intros Hw. unfold read_int64.
  change 8%nat with (List.length (le_bytes64 w)). rewrite io_ReadFull_app.
  cbn [mbind outcome_bind]. rewrite le_word64_le_bytes64.
  rewrite Z.mod_small, wrap64_small by lia. reflexivity.
Qed.

Lemma length_bytes_of_string (name : string) :
  List.length (bytes_of_string name) = String.length name.
Proof.
  unfold bytes_of_string, list_byte_of_string. rewrite length_map.
  induction name as [| c name IH]; [reflexivity |].
  cbn [list_ascii_of_string List.length String.length]. rewrite IH. reflexivity.
Qed.

Lemma bytes_eqb_same (a : list byte) : Reference.bytes_eqb a a = true.
Proof.
  induction a as [| x a IH]; [reflexivity |].
  cbn [Reference.bytes_eqb]. rewrite IH, andb_true_r. apply Byte.byte_dec_lb.
  reflexivity.
Qed.

Lemma receiverKey_length : List.length TransferManager.receiverKey = 32%nat.
Proof. reflexivity. Qed.

(** The key of the sender, by the length of the file. *)
Lemma senderKey_cases (file : list byte) :
  (32 <= List.length file ->
   TransferManager.senderKey file = firstn 32 file)%nat
  /\ (file = [] -> TransferManager.senderKey file = repeat x00 32)
  /\ (0 < List.length file < 32 ->
      TransferManager.senderKey file = TransferManager.receiverKey)%nat.
Proof.
  split; [| split].
  - intros Hlen. unfold TransferManager.senderKey, io_ReadFull.
    destruct (Nat.leb_spec 32 (List.length file)); [reflexivity | lia].
  - intros ->. reflexivity.
  - intros [Hpos Hlen].
    do 32 (destruct file as [| ? file]; [try (cbn in Hpos; lia); reflexivity |]).
    cbn in Hlen. lia.
Qed.

Section P2PFacts.
Context {aead : AESGCM}.

Lemma crypto_Encrypt_Ok plaintext key nonce :
  List.length key = 32%nat ->
  crypto.Encrypt plaintext key nonce = Ok (nonce ++ gcm_seal key nonce plaintext).
Proof.
  intros Hkey. unfold crypto.Encrypt. rewrite (NewCipher_32 key Hkey). reflexivity.
Qed.

Lemma crypto_Decrypt_sealed plaintext key nonce :
  List.length key = 32%nat -> List.length nonce = 12%nat ->
  crypto.Decrypt (nonce ++ gcm_seal key nonce plaintext) key = Ok plaintext.
Proof.
  intros Hkey Hnonce. unfold crypto.Decrypt.
  rewrite (NewCipher_32 key Hkey). cbn [wrapf mbind outcome_bind].
  assert (Hge : (List.length (nonce ++ gcm_seal key nonce plaintext)
                 <? gcmNonceSize)%nat = false).
  { apply Nat.ltb_ge. rewrite length_app, Hnonce. unfold gcmNonceSize. lia. }
  rewrite Hge. unfold gcmNonceSize.
  rewrite take_app_length', drop_app_length' by (symmetry; exact Hnonce).
  rewrite gcm_open_seal by assumption. reflexivity.
Qed.

(** Sealed under one key, opened under another that does not open it. *)
Lemma crypto_Decrypt_other plaintext key key' nonce :
  List.length key' = 32%nat -> List.length nonce = 12%nat ->
  gcm_open key' nonce (gcm_seal key nonce plaintext) = None ->
  crypto.Decrypt (nonce ++ gcm_seal key nonce plaintext) key'
  = Err "failed to decrypt: cipher: message authentication failed".
Proof.
  intros Hkey Hnonce Hopen. unfold crypto.Decrypt.
  rewrite (NewCipher_32 key' Hkey). cbn [wrapf mbind outcome_bind].
  assert (Hge : (List.length (nonce ++ gcm_seal key nonce plaintext)
                 <? gcmNonceSize)%nat = false).
  { apply Nat.ltb_ge. rewrite length_app, Hnonce. unfold gcmNonceSize. lia. }
  rewrite Hge. unfold gcmNonceSize.
  rewrite take_app_length', drop_app_length' by (symmetry; exact Hnonce).
  rewrite Hopen. reflexivity.
Qed.

Section SendLoop.
Variable C : nat.
Hypothesis HC : (0 < C)%nat.
Variables (key : list byte) (nonce : nat -> list byte).
Hypothesis Hkey : List.length key = 32%nat.

(** The sender's loop ends, whatever the file, and has then fed the whole
    file to the hasher. *)
Lemma sendLoop_hashes_file (fuel : nat) :
  forall file i,
    (List.length file < fuel)%nat ->
    exists frames,
      TransferManager.sendLoop fuel C file key nonce i = Ok (frames, file).
Proof.
  induction fuel as [| fuel IH]; intros file i Hfuel; [lia |].
  cbn [TransferManager.sendLoop].
  destruct (firstn C file) as [| b chunk] eqn:Hchunk.
  - exists []. destruct file as [| b file]; [reflexivity |].
    apply (f_equal (@List.length byte)) in Hchunk.
    rewrite length_take in Hchunk. cbn [List.length] in Hchunk. lia.
  - rewrite crypto_Encrypt_Ok by exact Hkey. cbn [wrapf mbind outcome_bind].
    assert (Hrest : (List.length (skipn C file) < fuel)%nat).
    { rewrite length_drop.
      destruct file; [rewrite take_nil in Hchunk; discriminate Hchunk |].
      cbn [List.length] in *. lia. }
    destruct (IH (skipn C file) (S i) Hrest) as [frames ->].
    cbn [mbind outcome_bind]. eexists. f_equal. f_equal.
    rewrite <- Hchunk. apply take_drop.
Qed.

(** The first frame of a file that is not empty. *)
Lemma sendLoop_first_frame (fuel : nat) (file : list byte) :
  (List.length file < fuel)%nat -> file <> [] ->
  exists frames,
    TransferManager.sendLoop fuel C file key nonce 0
    = Ok (le_bytes32 (Z.of_nat (List.length
                                  (nonce 0%nat ++ gcm_seal key (nonce 0%nat) (firstn C file))))
          ++ (nonce 0%nat ++ gcm_seal key (nonce 0%nat) (firstn C file)) ++ frames,
          file).
Proof.
  intros Hfuel Hfile. destruct fuel as [| fuel]; [lia |].
  cbn [TransferManager.sendLoop].
  destruct (firstn C file) as [| b chunk] eqn:Hchunk.
  { destruct file; [contradiction |].
    apply (f_equal (@List.length byte)) in Hchunk.
    rewrite length_take in Hchunk. cbn [List.length] in Hchunk. lia. }
  rewrite crypto_Encrypt_Ok by exact Hkey. cbn [wrapf mbind outcome_bind].
  assert (Hrest : (List.length (skipn C file) < fuel)%nat).
  { rewrite length_drop. destruct file; [contradiction |].
    cbn [List.length] in *. lia. }
  destruct (sendLoop_hashes_file fuel (skipn C file) 1 Hrest) as [frames ->].
  cbn [mbind outcome_bind]. exists frames. f_equal. f_equal.
  rewrite <- Hchunk. apply take_drop.
Qed.

End SendLoop.

Lemma receiveLoop_done fuel stream key received fileSize content :
  fileSize <= received ->
  TransferManager.receiveLoop fuel stream key received fileSize content
  = (content, Some (content, stream)).
Proof.
  intros Hdone.
  destruct fuel; cbn [TransferManager.receiveLoop];
    destruct (Z.ltb_spec received fileSize); (lia || reflexivity).
Qed.

Lemma receiveLoop_frame fuel encrypted rest key received fileSize content :
  (0 < fuel)%nat ->
  received < fileSize ->
  Z.of_nat (List.length encrypted) < 2^32 ->
  TransferManager.receiveLoop fuel
    (le_bytes32 (Z.of_nat (List.length encrypted)) ++ encrypted ++ rest)
    key received fileSize content
  = match crypto.Decrypt encrypted key with
    | Ok decrypted =>
        TransferManager.receiveLoop (Nat.pred fuel) rest key
          (wrap64 (received + Z.of_nat (List.length decrypted))) fileSize
          (content ++ decrypted)
    | _ => (content, None)
    end.
Proof.
  intros Hfuel Hmore Hlen. destruct fuel as [| fuel]; [lia |].
  cbn [TransferManager.receiveLoop Nat.pred].
  destruct (Z.ltb_spec received fileSize); [| lia].
  rewrite read_uint32_le_bytes32, Z.mod_small by lia.
  rewrite Nat2Z.id, io_ReadFull_app. reflexivity.
Qed.

(** The head of the stream: name and size. *)
Lemma incoming_header peerID downloadDir files name size rest :
  Z.of_nat (String.length name) < 2^32 -> 0 <= size < 2^63 ->
  TransferManager.handleIncomingTransfer peerID downloadDir files
    (le_bytes32 (Z.of_nat (String.length name)) ++ bytes_of_string name
     ++ le_bytes64 size ++ rest) false
  = let '(content, done) :=
      TransferManager.receiveLoop (List.length rest) rest
        TransferManager.receiverKey 0 size [] in
    let files := <[join downloadDir name := content]> files in
    match done with
    | None => (files, [])
    | Some (hashed, stream) =>
        match io_ReadFull stream 32 with
        | Ok (expectedChecksum, _) =>
            if Reference.bytes_eqb expectedChecksum (sha256.Sum256 hashed)
            then (files,
                  [TransferManager.recordTransfer peerID (join downloadDir name) size
                     "receive" "completed"])
            else (delete (join downloadDir name) files, [])
        | _ => (files, [])
        end
    end.
Proof.
  intros Hname Hsize. unfold TransferManager.handleIncomingTransfer.
  rewrite read_uint32_le_bytes32, Z.mod_small by lia.
  rewrite Nat2Z.id, <- length_bytes_of_string, io_ReadFull_app.
  unfold bytes_of_string. rewrite string_of_list_byte_of_string.
  rewrite read_int64_le_bytes64 by exact Hsize. reflexivity.
Qed.

Lemma checksum_read (data : list byte) :
  io_ReadFull (sha256.Sum256 data) 32 = Ok (sha256.Sum256 data, []).
Proof.
  unfold io_ReadFull. rewrite Sum256_length. cbn [Nat.leb].
  rewrite take_ge, drop_ge by (rewrite Sum256_length; lia). reflexivity.
Qed.

(** X25. A file shorter than the key arrives.  A file of 1 to 31 bytes is
    sealed under the demonstration key, which is the receiver's key, and an
    empty file is sent without a chunk: for a file of fewer than 32 bytes
    what [SendFile] writes to the stream is read by [handleIncomingTransfer]
    as that file: the receiver's download directory then holds the bytes of
    the file under the base name of the sent path, the checksum is found to
    match, and both sides record the transfer as completed. *)
Theorem p2p_short_file_arrives peerID peerID' filePath file nonce downloadDir files :
  (List.length file < 32)%nat ->
  Z.of_nat (String.length (filepath.Base filePath)) < 2^32 ->
  List.length (nonce 0%nat) = 12%nat ->
  Z.of_nat (List.length
              (nonce 0%nat ++ gcm_seal TransferManager.receiverKey (nonce 0%nat) file))
  < 2^32 ->
  exists stream,
    TransferManager.SendFile peerID filePath file nonce
    = Ok (stream,
          TransferManager.recordTransfer peerID filePath
            (Z.of_nat (List.length file)) "send" "completed")
    /\ TransferManager.handleIncomingTransfer peerID' downloadDir files stream false
       = (<[join downloadDir (filepath.Base filePath) := file]> files,
          [TransferManager.recordTransfer peerID'
             (join downloadDir (filepath.Base filePath))
             (Z.of_nat (List.length file)) "receive" "completed"]).
Proof.
  intros Hshort Hname Hnonce Hframe.
  pose proof chunkBytes_Z as HC.
  unfold TransferManager.SendFile.
  destruct file as [| b file'] eqn:Hfile.
  - cbn [TransferManager.sendLoop List.length].
    rewrite take_nil. cbn [mbind outcome_bind].
    eexists. split; [reflexivity |].
    rewrite incoming_header by (cbn; lia).
    rewrite receiveLoop_done by (cbn; lia).
    cbn [app]. rewrite checksum_read, bytes_eqb_same. reflexivity.
  - rewrite <- Hfile in *.
    assert (Hne : file <> []) by (rewrite Hfile; discriminate).
    assert (Hpos : (0 < List.length file)%nat)
      by (rewrite Hfile; cbn [List.length]; lia).
    assert (Hkey : TransferManager.senderKey file = TransferManager.receiverKey).
    { apply senderKey_cases. rewrite Hfile in *. cbn [List.length] in *. lia. }
    rewrite Hkey.
    assert (Hwhole : firstn chunkBytes file = file) by (apply take_ge; lia).
    assert (Hnone : skipn chunkBytes file = []) by (apply drop_ge; lia).
    cbn [TransferManager.sendLoop]. rewrite Hwhole, Hnone.
    destruct file as [| b0 file0] eqn:Hfile0; [contradiction |].
    rewrite <- Hfile0 in *.
    rewrite crypto_Encrypt_Ok by apply receiverKey_length.
    cbn [wrapf mbind outcome_bind].
    assert (Hend : forall i,
               TransferManager.sendLoop (List.length file) chunkBytes []
                 TransferManager.receiverKey nonce i = Ok ([], [])).
    { intros i. destruct (List.length file); cbn [TransferManager.sendLoop];
        [reflexivity | rewrite take_nil; reflexivity]. }
    rewrite Hend. cbn [mbind outcome_bind].
    eexists. split; [reflexivity |].
    rewrite !app_nil_r.
    rewrite incoming_header by lia.
    rewrite <- (app_assoc (le_bytes32 _)).
    rewrite receiveLoop_frame
      by (try exact Hframe; try (rewrite length_app; cbn [List.length le_bytes32]); lia).
    rewrite crypto_Decrypt_sealed by (apply receiverKey_length || exact Hnonce).
    rewrite receiveLoop_done
      by (rewrite wrap64_small; [cbn [app]; lia | lia]).
    cbn [app]. rewrite checksum_read, bytes_eqb_same. reflexivity.
Qed.

(** X26. A file of 32 bytes or more does not arrive.  The sender seals the
    chunks under the first 32 bytes of the file, the receiver opens them
    under the demonstration key.  [SendFile] nevertheless returns without
    error, having written the whole stream, the SHA-256 of the file at its
    end, and records the transfer as completed; when the demonstration key
    does not open the first chunk, as AES-GCM will have it for a different
    key, the receiver stops at that chunk and is left with an empty file
    under the name sent, and records nothing. *)
Theorem p2p_long_file_is_lost peerID peerID' filePath file nonce downloadDir files :
  (32 <= List.length file)%nat ->
  Z.of_nat (List.length file) < 2^63 ->
  Z.of_nat (String.length (filepath.Base filePath)) < 2^32 ->
  List.length (nonce 0%nat) = 12%nat ->
  Z.of_nat (List.length
              (nonce 0%nat ++ gcm_seal (firstn 32 file) (nonce 0%nat)
                                (firstn chunkBytes file)))
  < 2^32 ->
  gcm_open TransferManager.receiverKey (nonce 0%nat)
    (gcm_seal (firstn 32 file) (nonce 0%nat) (firstn chunkBytes file)) = None ->
  exists stream,
    TransferManager.SendFile peerID filePath file nonce
    = Ok (stream ++ sha256.Sum256 file,
          TransferManager.recordTransfer peerID filePath
            (Z.of_nat (List.length file)) "send" "completed")
    /\ TransferManager.senderKey file = firstn 32 file
    /\ TransferManager.handleIncomingTransfer peerID' downloadDir files
         (stream ++ sha256.Sum256 file) false
       = (<[join downloadDir (filepath.Base filePath) := []]> files, []).
Proof.
  intros Hlong Hsize Hname Hnonce Hframe Hopen.
  pose proof chunkBytes_Z as HC.
  assert (Hkey : TransferManager.senderKey file = firstn 32 file)
    by (apply senderKey_cases; exact Hlong).
  assert (Hlen : List.length (firstn 32 file) = 32%nat)
    by (rewrite length_take; lia).
  assert (Hne : file <> []) by (intros ->; cbn in Hlong; lia).
  unfold TransferManager.SendFile. rewrite Hkey.
  destruct (sendLoop_first_frame chunkBytes ltac:(lia) (firstn 32 file) nonce Hlen
              (S (List.length file)) file ltac:(lia) Hne) as [frames ->].
  cbn [mbind outcome_bind].
  eexists. split; [| split; [reflexivity |]].
  - rewrite !app_assoc. reflexivity.
  - rewrite <- !app_assoc.
    rewrite incoming_header by lia.
    rewrite (app_assoc (nonce 0%nat)).
    rewrite receiveLoop_frame
      by (try exact Hframe; try (rewrite length_app; cbn [List.length le_bytes32]); lia).
    rewrite crypto_Decrypt_other
      by (apply receiverKey_length || exact Hnonce || exact Hopen).
    reflexivity.
Qed.

End P2PFacts.

Lemma p2p_short_file_arrives_witness :
  exists stream,
    P2PDemo.send Demo.payload
    = Ok (stream,
          TransferManager.recordTransfer "12D3KooWsender" "docs/abc.txt"
            (Z.of_nat (List.length Demo.payload)) "send" "completed")
    /\ P2PDemo.receive stream
       = (<[join "downloads" (filepath.Base "docs/abc.txt") := Demo.payload]> ∅,
          [TransferManager.recordTransfer "12D3KooWsender"
             (join "downloads" (filepath.Base "docs/abc.txt"))
             (Z.of_nat (List.length Demo.payload)) "receive" "completed"]).
Proof.
  refine (p2p_short_file_arrives (aead := Reference.aead) "12D3KooWsender"
            "12D3KooWsender" "docs/abc.txt" Demo.payload P2PDemo.nonce
            "downloads" ∅ _ _ _ _).
  - cbn. lia.
  - vm_compute. reflexivity.
  - reflexivity.
  - vm_compute. reflexivity.
Defined.

Lemma p2p_long_file_is_lost_witness :
  exists stream,
    P2PDemo.send P2PDemo.forty
    = Ok (stream ++ sha256.Sum256 P2PDemo.forty,
          TransferManager.recordTransfer "12D3KooWsender" "docs/abc.txt"
            (Z.of_nat (List.length P2PDemo.forty)) "send" "completed")
    /\ TransferManager.senderKey P2PDemo.forty = firstn 32 P2PDemo.forty
    /\ P2PDemo.receive (stream ++ sha256.Sum256 P2PDemo.forty)
       = (<[join "downloads" (filepath.Base "docs/abc.txt") := []]> ∅, []).
Proof.
  refine (p2p_long_file_is_lost (aead := Reference.aead) "12D3KooWsender"
            "12D3KooWsender" "docs/abc.txt" P2PDemo.forty P2PDemo.nonce
            "downloads" ∅ _ _ _ _ _ _).
  - cbn. lia.
  - vm_compute. reflexivity.
  - vm_compute. reflexivity.
  - reflexivity.
  - vm_compute. reflexivity.
  - vm_compute. reflexivity.
Defined.

(** The same two transfers, computed. *)
Example demo_p2p_transfers :
  (match P2PDemo.send Demo.payload with
   | Ok (stream, _) => (P2PDemo.receive stream).1 !! "downloads/abc.txt"%string
   | _ => None
   end) = Some Demo.payload
  /\ (match P2PDemo.send P2PDemo.forty with
      | Ok (stream, _) =>
          ((P2PDemo.receive stream).1 !! "downloads/abc.txt"%string,
           (P2PDemo.receive stream).2)
      | _ => (None, [])
      end) = (Some [], []).
Proof. vm_compute. split; reflexivity. Qed.

(** ** Pairing *)

Lemma get_digit (k : nat) :
  (k < 10)%nat ->
  exists c, String.get k pairing.digits = Some c /\ is_digit c = true.
Proof.
  intros Hk.
  do 10 (destruct k as [| k]; [eexists; split; reflexivity |]).
  lia.
Qed.

Lemma fill_digits (rng : nat -> Z) (n : nat) :
  forall i,
    exists pin,
      pairing.fill n i rng = Ok pin
      /\ String.length pin = n
      /\ forallb is_digit (list_ascii_of_string pin) = true.
Proof.
  induction n as [| n IH]; intros i.
  - exists EmptyString. repeat split.
  - cbn [pairing.fill]. unfold pairing.rand_Int.
    change (Z.of_nat (String.length pairing.digits)) with 10.
    pose proof (Z.mod_pos_bound (rng i) 10 ltac:(lia)) as Hmod.
    destruct (get_digit (Z.to_nat (rng i mod 10)) ltac:(lia)) as (c & -> & Hc).
    destruct (IH (S i)) as (rest & -> & Hlen & Hdigits).
    cbn [mbind outcome_bind]. exists (String c rest).
    split; [reflexivity |]. split; [cbn; rewrite Hlen; reflexivity |].
    cbn [list_ascii_of_string forallb]. rewrite Hc, Hdigits. reflexivity.
Qed.

(** X27. The PIN.  For a length that is not negative, [generatePIN] returns
    a string of exactly that many characters, every one of them a decimal
    digit, whatever the random source delivers; for a negative length it
    panics. *)
Theorem generatePIN_digits (length : Z) (rng : nat -> Z) :
  (0 <= length ->
   exists pin,
     pairing.generatePIN length rng = Ok pin
     /\ Z.of_nat (String.length pin) = length
     /\ forallb is_digit (list_ascii_of_string pin) = true)
  /\ (length < 0 ->
      pairing.generatePIN length rng
      = Panic "runtime error: makeslice: len out of range").
Proof.
  unfold pairing.generatePIN. split; intros Hlen.
  - destruct (Z.ltb_spec length 0); [lia |].
    destruct (fill_digits rng (Z.to_nat length) 0) as (pin & -> & Hn & Hdigits).
    exists pin. split; [reflexivity |]. split; [lia | exact Hdigits].
  - destruct (Z.ltb_spec length 0); [reflexivity | lia].
Qed.

Lemma substring_none (a : string) : substring 0 0 a = EmptyString.
Proof. destruct a; reflexivity. Qed.

(** X28. The account identifier is made from the first peer alone.  When
    the first peer identifier has 24 characters or more, as libp2p peer
    identifiers have, the first 32 characters of the base64 of the two
    identifiers put together encode the first 24 bytes of the first one:
    [generateAccountID] returns the same 32 characters whatever the second
    peer is. *)
Theorem accountID_ignores_second_peer (peer1 : string) :
  (24 <= String.length peer1)%nat ->
  exists accountID,
    String.length accountID = 32%nat
    /\ forall peer2, pairing.generateAccountID peer1 peer2 = Ok accountID.
Proof.
  intros Hlen.
  do 24 (destruct peer1 as [| ? peer1]; [cbn in Hlen; lia |]).
  eexists. split; [| intros peer2; unfold pairing.generateAccountID;
                     cbv zeta;
                     repeat match goal with
                            | |- context [String ?c ?a +:+ ?b] =>
                                change (String c a +:+ b) with (String c (a +:+ b))
                            end;
                     cbn [bytes_of_string list_byte_of_string list_ascii_of_string
                          List.map base64.EncodeToString String.length Nat.ltb
                          Nat.leb substring];
                     rewrite substring_none; reflexivity].
  reflexivity.
Qed.

Example base64_vectors :
  base64.EncodeToString (bytes_of_string "Man") = "TWFu"%string
  /\ base64.EncodeToString (bytes_of_string "Ma") = "TWE="%string
  /\ base64.EncodeToString (bytes_of_string "M") = "TQ=="%string
  /\ base64.EncodeToString (bytes_of_string "light work.") = "bGlnaHQgd29yay4="%string.
Proof. vm_compute. repeat split. Qed.

Lemma accountID_ignores_second_peer_witness :
  exists accountID,
    String.length accountID = 32%nat
    /\ forall peer2,
         pairing.generateAccountID
           "12D3KooWGRUVh3ZaaLk4kYrWmXhBqQ7zTq1hX2wP5sVnR8dYcE6f" peer2
         = Ok accountID.
Proof.
  apply (accountID_ignores_second_peer
           "12D3KooWGRUVh3ZaaLk4kYrWmXhBqQ7zTq1hX2wP5sVnR8dYcE6f").
  cbn. lia.
Defined.

(** Two devices that pair with each other compute different account
    identifiers, each its own. *)
Example accountID_differs_between_the_two :
  pairing.generateAccountID "12D3KooWGRUVh3ZaaLk4kYrWmXhBqQ7zTq1hX2wP5sVnR8dYcE6f"
    "12D3KooWPjceQrSwdWXPyLLeABRXmuqt69Rg3sBYbU1Nft9HyQ6X"
  = Ok "MTJEM0tvb1dHUlVWaDNaYWFMazRrWXJX"%string
  /\ pairing.generateAccountID "12D3KooWPjceQrSwdWXPyLLeABRXmuqt69Rg3sBYbU1Nft9HyQ6X"
       "12D3KooWGRUVh3ZaaLk4kYrWmXhBqQ7zTq1hX2wP5sVnR8dYcE6f"
     = Ok "MTJEM0tvb1dQamNlUXJTd2RXWFB5TExl"%string.
Proof. vm_compute. split; reflexivity. Qed.

(** ** Discovery *)

Lemma deviceName_of_named (self : string) (fields : list string) :
  discovery.deviceName_of self fields <> self ->
  exists txt, txt ∈ fields /\ discovery.names txt = true.
Proof.
  unfold discovery.deviceName_of. generalize self as deviceName.
  induction fields as [| txt fields IH]; intros deviceName Hname.
  - contradiction.
  - cbn [fold_left] in Hname.
    destruct (discovery.names txt) eqn:Htxt.
    + exists txt. split; [apply list_elem_of_here | exact Htxt].
    + destruct (IH deviceName Hname) as (txt' & Hin & Htxt').
      exists txt'. split; [apply list_elem_of_further, Hin | exact Htxt'].
Qed.

Lemma collect_all (self : string) (entries : list discovery.ServiceEntry) :
  forall devices ip device,
    fold_left (discovery.collect self) entries devices !! ip = Some device ->
    devices !! ip = Some device \/ listed_from self entries ip device.
Proof.
  induction entries as [| entry entries IH]; intros devices ip device Hl.
  - left. exact Hl.
  - cbn [fold_left] in Hl.
    destruct (IH _ _ _ Hl) as [Hhere | (Hip & Hname & e & Hin & He)].
    + unfold discovery.collect in Hhere.
      destruct (discovery.AddrV4 entry) as [ip0 |] eqn:Haddr; [| left; exact Hhere].
      destruct (String.eqb_spec
                  (discovery.deviceName_of self (discovery.InfoFields entry)) self)
        as [Hself | Hother]; [left; exact Hhere |].
      destruct (decide (ip0 = ip)) as [-> | Hne].
      * rewrite lookup_insert_eq in Hhere. injection Hhere as <-.
        right. split; [reflexivity |]. split; [exact Hother |].
        exists entry. split; [apply list_elem_of_here |].
        repeat (split; [first [reflexivity | assumption] |]).
        apply (deviceName_of_named self), Hother.
      * rewrite lookup_insert_ne in Hhere by exact Hne. left. exact Hhere.
    + right. split; [exact Hip |]. split; [exact Hname |].
      exists e. split; [apply list_elem_of_further, Hin | exact He].
Qed.

(** X29. What a scan lists.  Every device [ScanDevices] returns was made
    from an entry that has an IPv4 address and a TXT record carrying a name,
    with the port and host of that entry and the name its last such record
    gives; its name is never the scanning device's own, so that an entry
    without a name record, which defaults to that name, is never listed;
    and no two devices returned have the same address. *)
Theorem ScanDevices_lists (self : string) (entries : list discovery.ServiceEntry) :
  (forall device,
     device ∈ discovery.ScanDevices self entries ->
     listed_from self entries (discovery.IP device) device)
  /\ NoDup (discovery.IP <$> discovery.ScanDevices self entries).
Proof.
  assert (Hkey : forall ip device,
             discovery.scan self entries !! ip = Some device ->
             listed_from self entries ip device).
  { intros ip device Hl.
    destruct (collect_all self entries ∅ ip device Hl) as [Hempty | Hfrom];
      [rewrite lookup_empty in Hempty; discriminate | exact Hfrom]. }
  split.
  - intros device Hin. unfold discovery.ScanDevices in Hin.
    apply list_elem_of_fmap in Hin as ([ip d] & -> & Hin).
    apply elem_of_map_to_list in Hin. cbn [snd].
    pose proof (Hkey ip d Hin) as Hfrom.
    destruct Hfrom as (Hip & Hrest). rewrite Hip. split; [exact Hip | exact Hrest].
  - unfold discovery.ScanDevices.
    assert (Hfst : discovery.IP <$> (map_to_list (discovery.scan self entries)).*2
                   = (map_to_list (discovery.scan self entries)).*1).
    { rewrite <- list_fmap_compose. apply list_fmap_ext.
      intros i [ip d] Hi. cbn.
      apply list_elem_of_lookup_2 in Hi. apply elem_of_map_to_list in Hi.
      apply (Hkey ip d Hi). }
    rewrite Hfst. apply NoDup_fst_map_to_list.
Qed.

(** ** What a success of the client means *)

Section SuccessFacts.
Context {scheme : Ed25519} {codec : HandshakeJSON} {aead : AESGCM} {dh : X25519}.

(** A chunk that the client takes as sent was accepted by the server. *)
Lemma sendChunk_Ok_inv s metadata encryptedData fault s' :
  sendChunk s metadata encryptedData fault = (s', Ok tt) ->
  exists session data,
    sessions s !! ChunkMetadata.SessionID metadata = Some session
    /\ CalculateChunkChecksum data = ChunkMetadata.Checksum metadata
    /\ 0 <= wrap64 (ChunkMetadata.Index metadata * (4 * 1024 * 1024))
    /\ s' = accepted_chunk s metadata session data.
Proof.
  unfold sendChunk. intros Hrun.
  destruct (handleChunk_inv s POST (Some metadata) (Some encryptedData) fault)
    as [[Hsame Hfail] | (metadata' & session & enc & data & _ & [= <-] & _ & _
                         & Hs & _ & Hsum & _ & Hoff & Hacc)].
  - exfalso.
    destruct (handleChunk s POST (Some metadata) (Some encryptedData) fault)
      as [s1 resp].
    cbn [fst snd] in *. injection Hrun as _ Hresult.
    destruct resp as [code text | name fp | r | ack | st];
      cbn [decode_ack wrapf mbind outcome_bind ChunkAck.Success negb] in Hresult;
      try discriminate Hresult.
    rewrite (Hfail ack eq_refl) in Hresult. discriminate Hresult.
  - rewrite Hacc in Hrun. injection Hrun as <-.
    exists session, data. repeat split; assumption.
Qed.

Section LoopInversion.
Variable C : nat.
Variables (s : SecureServer) (sessionID : string) (session : TransferSession.t).
Variables (file key : list byte) (total : nat).
Variables (nonce : Z -> list byte) (fault : Z -> bool) (declared : Z).
Hypothesis Htotal : TransferSession.TotalChunks session = Z.of_nat total.
Hypothesis Hbound : Z.of_nat total <= 2^41.

Lemma sendChunks_Ok_inv (n : nat) :
  forall k writes s',
    (k + n)%nat = total ->
    Forall2 like_piece writes (pieces C file 0 k) ->
    sendChunks C n (holding s sessionID session k writes) (skipn (k * C) file)
      (Z.of_nat k) declared key sessionID nonce fault
    = (s', Ok tt) ->
    (n = 0%nat /\ s' = holding s sessionID session k writes)
    \/ exists writes',
         s' = complete s sessionID
                (TransferSession.received session (marked total)
                   (mkOsFile writes' true))
         /\ Forall2 like_piece writes' (pieces C file 0 total).
Proof.
  induction n as [| n IH]; intros k writes s' Hk Hwrites Hrun.
  - left. cbn [sendChunks] in Hrun. injection Hrun as <-. split; reflexivity.
  - right. cbn [sendChunks] in Hrun.
    destruct (EncryptChunk (firstn C (skipn (k * C) file)) key (nonce (Z.of_nat k)))
      as [encrypted | e | p]; [| discriminate Hrun | discriminate Hrun].
    destruct (sendChunk (holding s sessionID session k writes) _ encrypted
                (fault (Z.of_nat k))) as [s1 [[] | e | p]] eqn:Hsend;
      [| discriminate Hrun | discriminate Hrun].
    apply sendChunk_Ok_inv in Hsend as (session1 & data & Hs1 & Hsum & Hoff & ->).
    cbn [ChunkMetadata.SessionID ChunkMetadata.Index ChunkMetadata.Checksum] in *.
    unfold holding in Hs1. cbn [sessions with_sessions] in Hs1.
    rewrite lookup_insert_eq in Hs1. injection Hs1 as <-.
    rewrite wrap64_chunk_offset in * by lia.
    assert (Hnext : Forall2 like_piece
                      (writes ++ [(Z.of_nat k * 4194304, data)])
                      (pieces C file 0 (S k))).
    { rewrite (pieces_snoc C file 0 k). apply Forall2_app; [exact Hwrites |].
      constructor; [| constructor]. split; [reflexivity | exact Hsum]. }
    unfold accepted_chunk in Hrun.
    cbn [ChunkMetadata.Index ChunkMetadata.SessionID TransferSession.ReceivedChunks
         TransferSession.TotalChunks TransferSession.File TransferSession.received
         written] in Hrun.
    change (<[Z.of_nat k := true]> (marked k)) with (marked (S k)) in Hrun.
    rewrite size_marked, Htotal, wrap64_chunk_offset in Hrun by lia.
    replace (Z.of_nat k + 1) with (Z.of_nat (S k)) in Hrun by lia.
    rewrite drop_drop in Hrun.
    replace (k * C + C)%nat with (S k * C)%nat in Hrun by lia.
    destruct (Z.eqb_spec (Z.of_nat (S k)) (Z.of_nat total)) as [Hlast | Hmore].
    + assert (n = 0%nat) by lia. subst n. cbn [sendChunks] in Hrun.
      injection Hrun as <-.
      replace total with (S k) by lia.
      exists (writes ++ [(Z.of_nat k * 4194304, data)]).
      split; [| exact Hnext].
      unfold holding, complete, with_sessions, Close.
      cbn [sessions downloadDir deviceName identityFingerprint onRequest dropped
           written TransferSession.received].
      rewrite delete_insert_eq. reflexivity.
    + assert (Hstate :
        with_sessions (holding s sessionID session k writes)
          (<[sessionID :=
               TransferSession.received
                 (TransferSession.received session (marked k)
                    (mkOsFile writes false))
                 (marked (S k))
                 (mkOsFile (writes ++ [(Z.of_nat k * 4194304, data)]) false)]>
             (sessions (holding s sessionID session k writes)))
        = holding s sessionID session (S k)
            (writes ++ [(Z.of_nat k * 4194304, data)])).
      { unfold holding, with_sessions.
        cbn [sessions downloadDir deviceName identityFingerprint onRequest dropped].
        rewrite insert_insert_eq. reflexivity. }
      rewrite Hstate in Hrun.
      destruct (IH (S k) _ s' ltac:(lia) Hnext Hrun) as [[Hzero _] | Hdone];
        [lia | exact Hdone].
Qed.

End LoopInversion.

(** X30. What a success of the client means.  Nothing is assumed of the
    keys, the ciphers or the disk: whenever [SendFile] returns without error
    on a file that is not empty, the server has accepted the handshake and
    every chunk, has deleted the session from its table as completed and
    closed the output file at the download directory joined with the base
    name of the sent path, [TotalChunks] indices are marked, and the writes
    made through that file are, one for each piece of the file in order, at
    the offset of the piece and of bytes whose SHA-256 is that of the piece. *)
Theorem SendFile_success_means_completed identity deviceName s filePath file
    privateKey env nonce fault s' :
  SendFile identity deviceName s filePath file privateKey env nonce fault
  = (s', Ok tt) ->
  (0 < List.length file)%nat ->
  Z.of_nat (List.length file) < 2^63 ->
  exists done,
    s' = complete s (newUUID env) done
    /\ closed (TransferSession.File done) = true
    /\ TransferSession.FilePath done = join (downloadDir s) (filepath.Base filePath)
    /\ Size (TransferSession.Metadata done) = Z.of_nat (List.length file)
    /\ TransferSession.TotalChunks done
       = SendFile_totalChunks (Z.of_nat (List.length file))
    /\ Z.of_nat (size (TransferSession.ReceivedChunks done))
       = TransferSession.TotalChunks done
    /\ Forall2 like_piece (written (TransferSession.File done))
         (pieces chunkBytes file 0
            (Z.to_nat (SendFile_totalChunks (Z.of_nat (List.length file))))).
Proof.
  intros Hrun Hpos Hlen.
  destruct (totalChunks_bounds chunkBytes chunkBytes_Z (List.length file) Hlen)
    as (total & Htotal & _ & Hzero & _ & Hbound).
  unfold SendFile in Hrun.
  destruct (wrapf _ (GenerateEphemeralKey privateKey)) as [[privKey pubKey] | e | p];
    [| discriminate Hrun | discriminate Hrun].
  destruct (wrapf _ (CreateHandshakeRequest identity deviceName pubKey _))
    as [req | e | p] eqn:Hreq; [| discriminate Hrun | discriminate Hrun].
  assert (Hmeta : ReqFileMetadata req
                  = mkFileMetadata (filepath.Base filePath)
                      (Z.of_nat (List.length file)) "application/octet-stream").
  { unfold CreateHandshakeRequest in Hreq.
    destruct (Sign identity _); cbn in Hreq; try discriminate Hreq.
    injection Hreq as <-. reflexivity. }
  destruct (handleHandshake_inv s POST (Some req) env)
    as [[_ Hrej] | (req' & privKey' & pubKey' & sessionKey & _ & [= <-] & _ & _ & Hhs)].
  { exfalso. destruct (handleHandshake s POST (Some req) env) as [s1 resp].
    cbn [snd] in Hrej.
    destruct resp as [code text | name fp | r | ack | st];
      cbn [decode_handshake wrapf Accepted negb] in Hrun; try discriminate Hrun.
    rewrite (Hrej r eq_refl) in Hrun. discriminate Hrun. }
  rewrite Hhs in Hrun.
  cbn [decode_handshake wrapf Accepted negb RespEphemeralPubKey RespSessionID] in Hrun.
  destruct (wrapf _ (DeriveSharedSecret privKey pubKey')) as [clientKey | e | p];
    [| discriminate Hrun | discriminate Hrun].
  rewrite Hmeta, Htotal, Nat2Z.id in Hrun. cbn [Size Name] in Hrun.
  set (session := TransferSession.mk (newUUID env) (DeviceName req)
                    (DeviceFingerprint req)
                    (mkFileMetadata (filepath.Base filePath)
                       (Z.of_nat (List.length file)) "application/octet-stream")
                    sessionKey
                    (handleHandshake_totalChunks (Z.of_nat (List.length file))) ∅
                    (join (downloadDir s) (filepath.Base filePath)) os_Create) in *.
  assert (Htot : TransferSession.TotalChunks session = Z.of_nat total) by exact Htotal.
  destruct (sendChunks_Ok_inv chunkBytes s (newUUID env) session file clientKey total
              nonce fault (Z.of_nat total) Htot Hbound total 0 [] s'
              eq_refl ltac:(constructor) Hrun)
    as [[Hnone _] | (writes & -> & Hwrites)].
  { exfalso. apply Hzero in Hnone. lia. }
  eexists. split; [reflexivity |].
  rewrite Htotal, Nat2Z.id.
  cbn [TransferSession.File TransferSession.FilePath TransferSession.Metadata
       TransferSession.TotalChunks TransferSession.ReceivedChunks
       TransferSession.received closed written Size session].
  rewrite size_marked.
  repeat (split; [first [reflexivity | exact Htot | symmetry; exact Htot] |]).
  exact Hwrites.
Qed.

End SuccessFacts.

Lemma SendFile_success_means_completed_witness :
  exists done,
    (ClientDemo.send Demo.new_server Demo.payload ClientDemo.no_fault).1
    = complete Demo.new_server Demo.sid done
    /\ closed (TransferSession.File done) = true
    /\ TransferSession.FilePath done
       = join (downloadDir Demo.new_server) (filepath.Base "docs/abc.txt")
    /\ Size (TransferSession.Metadata done) = Z.of_nat (List.length Demo.payload)
    /\ TransferSession.TotalChunks done
       = SendFile_totalChunks (Z.of_nat (List.length Demo.payload))
    /\ Z.of_nat (size (TransferSession.ReceivedChunks done))
       = TransferSession.TotalChunks done
    /\ Forall2 like_piece (written (TransferSession.File done))
         (pieces chunkBytes Demo.payload 0
            (Z.to_nat (SendFile_totalChunks (Z.of_nat (List.length Demo.payload))))).
Proof.
  refine (SendFile_success_means_completed (scheme := Reference.ed)
            (codec := Reference.json) (aead := Reference.aead) (dh := Reference.dh)
            Demo.identity "laptop" Demo.new_server "docs/abc.txt" Demo.payload
            Demo.client_private Demo.env ClientDemo.nonce ClientDemo.no_fault
            (ClientDemo.send Demo.new_server Demo.payload ClientDemo.no_fault).1
            _ _ _).
  - vm_compute. reflexivity.
  - cbn. lia.
  - vm_compute. reflexivity.
Defined.
